(** * order_genfile: reordering the samples of a .gen/.sample data set

    A shallow embedding of [src/order_genfile.py] and the properties of its
    sample-index resolution and of its streaming reordering transform.

    Conventions of the embedding.
    - Python [str] values are [string]s whose characters are code points
      below 256.
    - A Python exception is a value of [exn]; a computation that may raise
      returns a [result].  [print_error_and_stop] writes its text to the
      standard error stream and leaves through [sys.exit()]: the text is
      carried by the [SystemExit] value.
    - An output stream is the text written to it so far.
    - The dictionaries that are only looked up are [gmap]s; the two index
      dictionaries of [main], which are iterated with [items()], keep their
      insertion order (association lists).
    - [numpy.array] over rows of different lengths is taken as the library
      behaved when the program was written: it builds a one-dimensional
      array of Python lists, so that the loop comparing the row lengths is
      reached.
    - A file opened with [open(p, 'r')] is read as text, where a line feed,
      a carriage return, or the two in a row end a line.  The standard input
      is the one of a POSIX system: only a line feed ends a line.  A file
      opened with [gzip.open(p, 'rb')] yields [bytes] lines, ended by a
      line feed only; the world holds its decompressed bytes. *)

From Stdlib Require Import Ascii String.
From stdpp Require Import base option list gmap strings.

Local Open Scope nat_scope.

#[local] Set Warnings "-clear-no-such-hyp".

(** ** Python values: exceptions and results *)

Inductive exn : Type :=
  | SystemExit (stderr_text : string)
  | TypeError
  | AttributeError (attr : string)
  | IndexError
  | IOError (path : string).

Inductive result (A : Type) : Type :=
  | Ok (a : A)
  | Err (e : exn).
Arguments Ok {A} a.
Arguments Err {A} e.

Global Instance exn_eq_dec : EqDecision exn.
Proof. solve_decision. Defined.

Global Instance result_ret : MRet result := λ A a, Ok a.

Global Instance result_bind : MBind result := λ A B k r,
  match r with
  | Ok a => k a
  | Err e => Err e
  end.

(** ** Python strings *)

Module Str.

Definition nl : string := String "010" EmptyString.
Definition quote : string := String "034" EmptyString.

(** [str.isspace] on the code points below 256. *)
Definition is_space (c : ascii) : bool :=
  match c with
  | "009" | "010" | "011" | "012" | "013"
  | "028" | "029" | "030" | "031" | " " | "133" | "160" => true
  | _ => false
  end%char.

Fixpoint lstrip (s : string) : string :=
  match s with
  | EmptyString => EmptyString
  | String c s' => if is_space c then lstrip s' else s
  end.

Fixpoint rstrip (s : string) : string :=
  match s with
  | EmptyString => EmptyString
  | String c s' =>
      match rstrip s' with
      | EmptyString => if is_space c then EmptyString else String c EmptyString
      | r => String c r
      end
  end.

(** [s.strip()] *)
Definition strip (s : string) : string := rstrip (lstrip s).

(** [s.split(c)] with an explicit one-character separator: empty fields are
    kept, and the result is never empty. *)
Fixpoint split_on (c : ascii) (s : string) : list string :=
  match s with
  | EmptyString => [EmptyString]
  | String a s' =>
      if decide (a = c) then EmptyString :: split_on c s'
      else match split_on c s' with
           | t :: ts => String a t :: ts
           | [] => [String a EmptyString]
           end
  end.

(** [s.split()]: the maximal runs of characters that are not white space. *)
Fixpoint split (s : string) : list string :=
  match s with
  | EmptyString => []
  | String a s' =>
      if is_space a then split s'
      else match s' with
           | EmptyString => [String a EmptyString]
           | String b _ =>
               if is_space b then String a EmptyString :: split s'
               else match split s' with
                    | t :: ts => String a t :: ts
                    | [] => [String a EmptyString]
                    end
           end
  end.

(** [sep.join(l)] *)
Fixpoint join (sep : string) (l : list string) : string :=
  match l with
  | [] => EmptyString
  | [x] => x
  | x :: xs => x +:+ sep +:+ join sep xs
  end.

(** [s.endswith(t)] *)
Fixpoint rev_string (s acc : string) : string :=
  match s with
  | EmptyString => acc
  | String c s' => rev_string s' (String c acc)
  end.

Definition endswith (s t : string) : bool :=
  String.prefix (rev_string t EmptyString) (rev_string s EmptyString).

(** The lines of a text stream, each with its line end; a line end is a
    line feed, a carriage return, or the two in a row, and is delivered as
    one line feed. *)
Fixpoint readlines_aux (s cur : string) : list string :=
  match s with
  | EmptyString =>
      match cur with
      | EmptyString => []
      | _ => [rev_string cur EmptyString]
      end
  | String "010" s' => rev_string (String "010" cur) EmptyString :: readlines_aux s' EmptyString
  | String "013" (String "010" s') =>
      rev_string (String "010" cur) EmptyString :: readlines_aux s' EmptyString
  | String "013" s' => rev_string (String "010" cur) EmptyString :: readlines_aux s' EmptyString
  | String c s' => readlines_aux s' (String c cur)
  end.

Definition readlines (s : string) : list string := readlines_aux s EmptyString.

(** The lines of a stream in which only a line feed ends a line (the
    standard input, and a stream of bytes), each with its line feed. *)
Fixpoint lines_lf_aux (s cur : string) : list string :=
  match s with
  | EmptyString =>
      match cur with
      | EmptyString => []
      | _ => [rev_string cur EmptyString]
      end
  | String "010" s' => rev_string (String "010" cur) EmptyString :: lines_lf_aux s' EmptyString
  | String c s' => lines_lf_aux s' (String c cur)
  end.

Definition lines_lf (s : string) : list string := lines_lf_aux s EmptyString.

(** Decimal text of a natural number, as [format] prints it. *)
Definition digit (n : nat) : ascii := ascii_of_nat (48 + n).

Fixpoint of_nat_aux (fuel n : nat) (acc : string) : string :=
  match fuel with
  | 0 => acc
  | S fuel' =>
      let acc' := String (digit (n mod 10)) acc in
      if n / 10 =? 0 then acc' else of_nat_aux fuel' (n / 10) acc'
  end.

Definition of_nat (n : nat) : string := of_nat_aux (S n) n EmptyString.

End Str.

(** ** The part of numpy the program uses *)

Module Numpy.

(** A string array stores its elements in cells of a fixed width padded
    with NUL characters; reading an element back drops the padding, and
    with it any NUL the element ended with. *)
Fixpoint np_str (s : string) : string :=
  match s with
  | EmptyString => EmptyString
  | String c s' =>
      match np_str s' with
      | EmptyString => if decide (c = "000"%char) then EmptyString else String c EmptyString
      | r => String c r
      end
  end.

(** [row.reshape(n, 3)] of one row: its first [n] triplets. *)
Fixpoint reshape3 (n : nat) (row : list string) : list (list string) :=
  match n with
  | 0 => []
  | S k => take 3 row :: reshape3 k (drop 3 row)
  end.

(** [a[numpy.ix_(range(0, len(a)), index)]] on an array of shape
    [rows, n, 3]: every row is gathered along its second axis.  An index
    that is not below [n] raises. *)
Definition ix_gather (n : nat) (index : list nat)
    (a : list (list (list string))) : result (list (list (list string))) :=
  if forallb (λ j, j <? n) index
  then Ok (map (λ row, map (λ j, nth j row []) index) a)
  else Err IndexError.

(** [a.reshape(rows, k * 3)] on an array of shape [rows, k, 3]. *)
Definition flatten (a : list (list (list string))) : list (list string) :=
  map (@concat string) a.

(** [numpy.column_stack((a, b))] of two arrays with the same rows. *)
Fixpoint column_stack (a b : list (list string)) : list (list string) :=
  match a, b with
  | ra :: a', rb :: b' => (ra ++ rb) :: column_stack a' b'
  | _, _ => []
  end.


(** [sep.join(a)] where [a] is a two-dimensional array: iterating [a]
    yields its rows, which are arrays and not strings, and [join] refuses
    the first of them. *)
Definition join_rows (sep : string) (a : list (list string)) : result string :=
  match a with
  | [] => Ok EmptyString
  | _ :: _ => Err TypeError
  end.

End Numpy.

(** ** The program *)

Definition MAX_SNPS_IN_BUFFER : nat := 6.

Definition print_error_and_stop {A} (msg : string) : result A :=
  Err (SystemExit (Str.nl +:+ "Error: " +:+ msg +:+ Str.nl
                   +:+ "Terminating the program because of the error." +:+ Str.nl)).

Definition msg_not_constant : string :=
  "The number of genotypes in the input is not constant.".

Definition msg_genotype_count (snp : string) (n_samples : nat) : string :=
  "Line for the SNP " +:+ Str.nl +:+ Str.quote +:+ snp +:+ Str.quote +:+ Str.nl
  +:+ "did not have 3*" +:+ Str.of_nat n_samples +:+ " genotype probabilities".

(** The rows of the array built from a batch of lines. *)
Definition gen_array (lines : list string) : list (list string) :=
  map (λ i, map Numpy.np_str (Str.split_on " " (Str.strip i))) lines.

(** The column at which the genotype probabilities start, from the number of
    columns of the first row. *)
Definition i_genotypes (n : nat) : nat :=
  if n mod 3 =? 0 then 6 else 5.

Definition read_gen_lines (lines : list string) (n_samples : nat)
    : result (list (list string) * list (list (list string))) :=
  let array := gen_array lines in
  match array with
  | [] => Err IndexError
  | first :: _ =>
      let n := length first in
      if existsb (λ i, negb (length i =? n)) array
      then print_error_and_stop msg_not_constant
      else
        let non_genotype_cols := map (take (i_genotypes n)) array in
        let genotype_cols := map (drop (i_genotypes n)) array in
        if negb (length (hd [] genotype_cols) =? 3 * n_samples)
        then
          snp ← Numpy.join_rows " " non_genotype_cols;
          print_error_and_stop (msg_genotype_count snp n_samples)
        else
          Ok (non_genotype_cols, map (Numpy.reshape3 n_samples) genotype_cols)
  end.

(** The text [_write_lines] writes for the rows [op_lines]. *)
Definition lines_text (op_lines : list string) : string :=
  Str.join Str.nl op_lines +:+ Str.nl.

Definition _write_lines (op : string) (lines : list string) (n_samples_input : nat)
    (index_array : list nat) : string * result nat :=
  match read_gen_lines lines n_samples_input with
  | Err e => (op, Err e)
  | Ok (snp_info_lines, genotypes) =>
      match Numpy.ix_gather n_samples_input index_array genotypes with
      | Err e => (op, Err e)
      | Ok ordered_genotypes =>
          let ordered_genotypes := Numpy.flatten ordered_genotypes in
          let op_data := Numpy.column_stack snp_info_lines ordered_genotypes in
          let op_lines := map (Str.join " ") op_data in
          (op +:+ lines_text op_lines, Ok (length op_lines))
      end
  end.

(** The loop of [write_output]: [counter] and [buffered_lines] are its two
    variables; [max] is the size at which the buffer is written out. *)
Fixpoint write_output_loop (max : nat) (ip : list string) (op : string)
    (n_samples_input : nat) (index_array : list nat)
    (counter : nat) (buffered_lines : list string)
    : string * result (nat * list string) :=
  match ip with
  | [] => (op, Ok (counter, buffered_lines))
  | line :: ip' =>
      let buffered_lines := buffered_lines ++ [line] in
      if length buffered_lines =? max
      then
        match _write_lines op buffered_lines n_samples_input index_array with
        | (op', Ok k) =>
            write_output_loop max ip' op' n_samples_input index_array (counter + k) []
        | (op', Err e) => (op', Err e)
        end
      else
        write_output_loop max ip' op n_samples_input index_array counter buffered_lines
  end.

Definition write_output_with (max : nat) (ip : list string) (op : string)
    (n_samples_input : nat) (index_array : list nat) : string * result nat :=
  match write_output_loop max ip op n_samples_input index_array 0 [] with
  | (op', Err e) => (op', Err e)
  | (op', Ok (counter, buffered_lines)) =>
      if 0 <? length buffered_lines
      then
        match _write_lines op' buffered_lines n_samples_input index_array with
        | (op'', Ok k) => (op'', Ok (counter + k))
        | (op'', Err e) => (op'', Err e)
        end
      else (op', Ok counter)
  end.

Definition write_output (ip : list string) (op : string)
    (n_samples_input : nat) (index_array : list nat) : string * result nat :=
  write_output_with MAX_SNPS_IN_BUFFER ip op n_samples_input index_array.

(** ** Files, options and dictionaries *)

(** The values an option can hold. *)
Inductive pyval : Type :=
  | PyNone
  | PyStr (s : string)
  | PyBool (b : bool).

Definition format_val (v : pyval) : string :=
  match v with
  | PyNone => "None"
  | PyStr s => s
  | PyBool true => "True"
  | PyBool false => "False"
  end.

Definition truthy (v : pyval) : bool :=
  match v with
  | PyNone => false
  | PyStr s => negb (String.eqb s EmptyString)
  | PyBool b => b
  end.

(** The object [parse_args] returns: its attributes by name. *)
Definition getattr (ns : gmap string pyval) (name : string) : result pyval :=
  match ns !! name with
  | Some v => Ok v
  | None => Err (AttributeError name)
  end.

(** What the command line gives for each option; an option left out is
    [None] ([false] for the flag). *)
Record cli : Type := {
  gen_in : option string;
  gen_out : option string;
  sample_in : option string;
  sample_out : option string;
  order : option string;
  model_sample : option string;
  allow_subsetting : bool
}.

Definition opt_val (o : option string) : pyval :=
  match o with
  | Some s => PyStr s
  | None => PyNone
  end.

(** Every [add_argument] stores its value under its [dest]. *)
Definition parse_options (c : cli) : gmap string pyval :=
  <["allow_subsetting" := PyBool (allow_subsetting c)]>
  (<["model_sample" := opt_val (model_sample c)]>
  (<["order" := opt_val (order c)]>
  (<["sample_out" := opt_val (sample_out c)]>
  (<["sample_in" := opt_val (sample_in c)]>
  (<["genfile_out" := opt_val (gen_out c)]>
  (<["genfile_in" := opt_val (gen_in c)]> ∅)))))).

(** The files by path, each with the data reading it yields (for a
    compressed file, the data its decompression yields), and the two
    standard streams the program uses for data. *)
Record world : Type := {
  files : gmap string string;
  stdin : string;
  stdout : string
}.

(** [open(fname, 'r')] followed by reading the whole text. *)
Definition open_read (w : world) (fname : pyval) : result string :=
  match fname with
  | PyStr p =>
      match files w !! p with
      | Some text => Ok text
      | None => Err (IOError p)
      end
  | _ => Err TypeError
  end.

(** [open(p, 'w')]: the file is created, or emptied, at once. *)
Definition open_write (w : world) (p : string) : world :=
  {| files := <[p := EmptyString]> (files w); stdin := stdin w; stdout := stdout w |}.

Definition set_file (w : world) (p text : string) : world :=
  {| files := <[p := text]> (files w); stdin := stdin w; stdout := stdout w |}.

Definition set_stdout (w : world) (text : string) : world :=
  {| files := files w; stdin := stdin w; stdout := text |}.

(** A dictionary that is iterated: its items in insertion order. *)
Module PyDict.
Section dict.
Context {K V : Type} `{EqDecision K}.

Fixpoint set (k : K) (v : V) (d : list (K * V)) : list (K * V) :=
  match d with
  | [] => [(k, v)]
  | (k', v') :: d' =>
      if decide (k = k') then (k, v) :: d' else (k', v') :: set k v d'
  end.

Fixpoint get (k : K) (d : list (K * V)) : option V :=
  match d with
  | [] => None
  | (k', v') :: d' => if decide (k = k') then Some v' else get k d'
  end.
End dict.
End PyDict.

(** [l[i] = x] on a Python list. *)
Definition list_assign {A} (l : list A) (i : nat) (x : A) : result (list A) :=
  if i <? length l then Ok (<[i := x]> l) else Err IndexError.

(** ** Reading a sample order *)

Definition msg_duplicates (fname : string) : string :=
  "The file " +:+ Str.quote +:+ fname +:+ Str.quote +:+ " contains duplicates.".

(** The identifier of one line. *)
Definition sample_id_of (line : string) : string :=
  Str.join " " (take 2 (Str.split (Str.strip line))).

(** [{i: i for i in l}] *)
Definition id_dict (l : list string) : gmap string string :=
  foldl (λ d i, <[i := i]> d) ∅ l.

Definition read_sample_order (w : world) (fname : pyval) (is_sample_file : bool)
    : result (list string) :=
  text ← open_read w fname;
  let input_sample_order := map sample_id_of (Str.readlines text) in
  let input_sample_order :=
    if is_sample_file then drop 2 input_sample_order else input_sample_order in
  if negb (size (id_dict input_sample_order) =? length input_sample_order)
  then print_error_and_stop (msg_duplicates (format_val fname))
  else Ok input_sample_order.

(** ** The main program, in the order of its text *)

Definition msg_not_listed (sample_id fname : string) : string :=
  "The sample " +:+ Str.quote +:+ sample_id +:+ Str.quote +:+ " was not in listed in "
  +:+ Str.quote +:+ fname +:+ Str.quote
  +:+ " and the --allow-subsetting flag was not in use.".

Definition msg_sample_out : string := "Please specify --sample-out.".

Definition msg_index_array : string := "Error in making the index array".

(** Reading the two sample orders (the input one, then the one to follow). *)
Definition main_orders (options : gmap string pyval) (w : world)
    : result (list string * list string * pyval) :=
  sample_in ← getattr options "sample_in";
  input_sample_order ← read_sample_order w sample_in true;
  model_sample ← getattr options "model_sample";
  '(new_sample_order_fname, is_sample_file) ←
    match model_sample with
    | PyNone => new_order ← getattr options "new_order"; Ok (new_order, false)
    | _ => Ok (model_sample, true)
    end;
  new_sample_order ← read_sample_order w new_sample_order_fname is_sample_file;
  Ok (input_sample_order, new_sample_order, new_sample_order_fname).

(** [{v: i for i, v in enumerate(new_sample_order)}], from position [i]. *)
Fixpoint new_sample_dict_from (i : nat) (new_sample_order : list string)
    (d : gmap string nat) : gmap string nat :=
  match new_sample_order with
  | [] => d
  | v :: rest => new_sample_dict_from (S i) rest (<[v := i]> d)
  end.

Definition new_sample_dict (new_sample_order : list string) : gmap string nat :=
  new_sample_dict_from 0 new_sample_order ∅.

(** The loop filling [old_to_new_index], from position [i_old]. *)
Fixpoint old_to_new_loop (options : gmap string pyval) (new_sample_order_fname : pyval)
    (new_sample_dict : gmap string nat) (i_old : nat) (input_sample_order : list string)
    (old_to_new_index : list (nat * nat)) : result (list (nat * nat)) :=
  match input_sample_order with
  | [] => Ok old_to_new_index
  | sample_id :: rest =>
      match new_sample_dict !! sample_id with
      | Some i_new =>
          old_to_new_loop options new_sample_order_fname new_sample_dict (S i_old) rest
            (PyDict.set i_old i_new old_to_new_index)
      | None =>
          allow ← getattr options "allow_subsetting";
          if truthy allow
          then old_to_new_loop options new_sample_order_fname new_sample_dict (S i_old) rest
                 old_to_new_index
          else print_error_and_stop
                 (msg_not_listed sample_id (format_val new_sample_order_fname))
      end
  end.

Definition main_old_to_new (options : gmap string pyval) (new_sample_order_fname : pyval)
    (input_sample_order new_sample_order : list string) : result (list (nat * nat)) :=
  old_to_new_loop options new_sample_order_fname (new_sample_dict new_sample_order)
    0 input_sample_order [].

(** The loop placing the old sample lines at their new positions. *)
Fixpoint place_lines (old_to_new_index : list (nat * nat)) (i_old : nat)
    (old_lines : list string) (new_lines : list (option string))
    : result (list (option string)) :=
  match old_lines with
  | [] => Ok new_lines
  | l :: rest =>
      match PyDict.get i_old old_to_new_index with
      | Some i_new =>
          new_lines' ← list_assign new_lines i_new (Some l);
          place_lines old_to_new_index (S i_old) rest new_lines'
      | None => place_lines old_to_new_index (S i_old) rest new_lines
      end
  end.

(** [i.strip()] on an element that is a line or [None]. *)
Definition strip_item (i : option string) : result string :=
  match i with
  | Some l => Ok (Str.strip l)
  | None => Err (AttributeError "strip")
  end.

Fixpoint strip_items (l : list (option string)) : result (list string) :=
  match l with
  | [] => Ok []
  | i :: rest => s ← strip_item i; ss ← strip_items rest; Ok (s :: ss)
  end.

(** Writing the new sample file. *)
Definition main_write_sample (options : gmap string pyval) (w : world)
    (new_sample_order : list string) (old_to_new_index : list (nat * nat))
    : world * result unit :=
  match getattr options "sample_out" with
  | Err e => (w, Err e)
  | Ok PyNone => (w, print_error_and_stop msg_sample_out)
  | Ok sample_out =>
      let out := format_val sample_out in
      let w := open_write w out in
      let text :=
        sample_in ← getattr options "sample_in";
        text ← open_read w sample_in;
        let old_lines := Str.readlines text in
        let new_lines := replicate (length new_sample_order) None in
        new_lines ← place_lines old_to_new_index 0 (drop 2 old_lines) new_lines;
        let new_lines := map Some (take 2 old_lines) ++ new_lines in
        stripped ← strip_items new_lines;
        Ok (Str.join Str.nl stripped +:+ Str.nl) in
      match text with
      | Ok text => (set_file w out text, Ok ())
      | Err e => (w, Err e)
      end
  end.

(** Turning the dictionary into the index array. *)
Fixpoint fill_index_array (items : list (nat * nat)) (index_array : list (option nat))
    : result (list (option nat)) :=
  match items with
  | [] => Ok index_array
  | (new_index, old_index) :: rest =>
      index_array' ← list_assign index_array new_index (Some old_index);
      fill_index_array rest index_array'
  end.

Definition main_index_array (old_to_new_index : list (nat * nat)) : result (list nat) :=
  let new_to_old_index :=
    foldl (λ d '(i_old, i_new), PyDict.set i_new i_old d) [] old_to_new_index in
  let index_array := replicate (length new_to_old_index) None in
  index_array ← fill_index_array new_to_old_index index_array;
  match mapM id index_array with
  | None => print_error_and_stop msg_index_array
  | Some index_array => Ok index_array
  end.

(** The lines an input genotype stream yields: [str] lines, or the [bytes]
    lines of a compressed file opened with [gzip.open(p, 'rb')]. *)
Inductive gen_lines : Type :=
  | TextLines (lines : list string)
  | BytesLines (lines : list string).

(** The lines of the input genotype stream, read once the output has been
    opened.  The standard input ends its lines at a line feed only; a plain
    file is read as text; a compressed file yields the lines of its
    decompressed bytes. *)
Definition gen_input (w : world) (genfile_in : pyval) : gen_lines :=
  match genfile_in with
  | PyStr p =>
      if Str.endswith p ".gz"
      then BytesLines (Str.lines_lf (default EmptyString (files w !! p)))
      else TextLines (Str.readlines (default EmptyString (files w !! p)))
  | _ => TextLines (Str.lines_lf (stdin w))
  end.

(** [write_output] on a stream of [bytes] lines.  The loop buffers the lines
    as it does for text, and the first batch it hands to [_write_lines]
    raises in [read_gen_lines], where [i.strip().split(' ')] splits a
    [bytes] line at a [str]: a TypeError, with nothing written before.  A
    stream without lines goes through the loop untouched. *)
Definition write_output_bytes (ip : list string) (op : string) : string * result nat :=
  match ip with
  | [] => (op, Ok 0)
  | _ :: _ => (op, Err TypeError)
  end.

Definition msg_wrote (n_samples n_written : nat) (sample_out opname : string) : string :=
  Str.nl +:+ "Wrote " +:+ Str.of_nat n_samples +:+ " samples and "
  +:+ Str.of_nat n_written +:+ " genotype lines to "
  +:+ Str.quote +:+ sample_out +:+ Str.quote +:+ Str.quote +:+ " and "
  +:+ Str.quote +:+ opname +:+ Str.quote +:+ Str.nl.

Definition msg_finish : string :=
  Str.nl +:+ "Program finished with success." +:+ Str.nl.

(** Choosing the two genotype streams and running [write_output]; the
    result is the text left on the standard error stream. *)
Definition main_stream (options : gmap string pyval) (w : world)
    (n_samples_input : nat) (index_array : list nat) : world * result string :=
  match getattr options "genfile_in" with
  | Err e => (w, Err e)
  | Ok genfile_in =>
      match (match genfile_in with
             | PyNone => Ok EmptyString
             | _ => open_read w genfile_in
             end) with
      | Err e => (w, Err e)
      | Ok _ =>
          match getattr options "genfile_out" with
          | Err e => (w, Err e)
          | Ok genfile_out =>
              let w :=
                match genfile_out with
                | PyNone => w
                | _ => open_write w (format_val genfile_out)
                end in
              let ip := gen_input w genfile_in in
              let op :=
                match genfile_out with
                | PyNone => stdout w
                | _ => EmptyString
                end in
              let '(op, n_written) :=
                match ip with
                | TextLines ip => write_output ip op n_samples_input index_array
                | BytesLines ip => write_output_bytes ip op
                end in
              let w :=
                match genfile_out with
                | PyNone => set_stdout w op
                | _ => set_file w (format_val genfile_out) op
                end in
              (w,
               n_written ← n_written;
               sample_out ← getattr options "sample_out";
               let opname :=
                 match genfile_out with
                 | PyNone => "STDOUT"
                 | _ => format_val genfile_out
                 end in
               Ok (msg_wrote (length index_array) n_written (format_val sample_out) opname
                   +:+ msg_finish))
          end
      end
  end.

Definition main (c : cli) (w : world) : world * result string :=
  let options := parse_options c in
  match main_orders options w with
  | Err e => (w, Err e)
  | Ok (input_sample_order, new_sample_order, new_sample_order_fname) =>
      match main_old_to_new options new_sample_order_fname
              input_sample_order new_sample_order with
      | Err e => (w, Err e)
      | Ok old_to_new_index =>
          match main_write_sample options w new_sample_order old_to_new_index with
          | (w, Err e) => (w, Err e)
          | (w, Ok _) =>
              match main_index_array old_to_new_index with
              | Err e => (w, Err e)
              | Ok index_array =>
                  main_stream options w (length input_sample_order) index_array
              end
          end
      end
  end.

(** ** Notions used to state the properties *)

(** The columns of a data line, as [read_gen_lines] cuts them. *)
Definition row_tokens (line : string) : list string :=
  Str.split_on " " (Str.strip line).

(** A column that a string array gives back as it was stored. *)
Definition plain (t : string) : Prop := Numpy.np_str t = t.

(** A batch whose rows all have [n] columns. *)
Definition width_is (n : nat) (lines : list string) : Prop :=
  Forall (λ line, length (row_tokens line) = n) lines.

(** A batch in which some row has another number of columns than the first. *)
Definition ragged (lines : list string) : Prop :=
  ∃ line, line ∈ lines ∧
    length (row_tokens line) ≠ length (row_tokens (hd EmptyString lines)).

(** The number of genotype columns of a row of [n] columns. *)
Definition n_genotype_cols (n : nat) : nat := n - i_genotypes n.

(** Rows of text, each followed by a line feed. *)
Definition rows_text (rows : list string) : string :=
  foldr (λ r acc, r +:+ Str.nl +:+ acc) EmptyString rows.

(** One row of the output: the descriptor columns, then the triplets of the
    samples in the order of [index_array]. *)
Definition reorder_row (n_samples : nat) (index_array : list nat)
    (row : list string) : list string :=
  let w := i_genotypes (length row) in
  take w row
  ++ concat (map (λ j, nth j (Numpy.reshape3 n_samples (drop w row)) []) index_array).

(** The batches [write_output_loop] hands over, and the lines left in its
    buffer, for an input read with [buffered_lines] already in the buffer. *)
Fixpoint batches (max : nat) (buffered_lines ip : list string)
    : list (list string) * list string :=
  match ip with
  | [] => ([], buffered_lines)
  | line :: ip' =>
      let buffered_lines := buffered_lines ++ [line] in
      if length buffered_lines =? max
      then let '(bs, rest) := batches max [] ip' in (buffered_lines :: bs, rest)
      else batches max buffered_lines ip'
  end.

(** All the batches of a run of [write_output_with], the last one included. *)
Definition all_batches (max : nat) (ip : list string) : list (list string) :=
  let '(bs, rest) := batches max [] ip in
  match rest with
  | [] => bs
  | _ => bs ++ [rest]
  end.

(** The position pairs of an identity resolution, from position [i]. *)
Definition identity_pairs (i n : nat) : list (nat * nat) :=
  map (λ k, (k, k)) (seq i n).

(** The rows [_write_lines] writes for a batch it accepts. *)
Definition output_rows (n_samples : nat) (index_array : list nat)
    (lines : list string) : list string :=
  map (Str.join " ") (map (reorder_row n_samples index_array) (gen_array lines)).

(** The two checks a batch of [n] columns has to pass, and the exception
    that leaves [_write_lines] when it does not. *)
Definition batch_checks (n n_samples : nat) (index_array : list nat) : bool :=
  (n_genotype_cols n =? 3 * n_samples) && forallb (λ j, j <? n_samples) index_array.

Definition batch_failure (n n_samples : nat) : exn :=
  if n_genotype_cols n =? 3 * n_samples then IndexError else TypeError.

(** The text left on the standard error stream by a batch whose rows
    disagree on their number of columns. *)
Definition width_error : exn :=
  SystemExit (Str.nl +:+ "Error: " +:+ msg_not_constant +:+ Str.nl
              +:+ "Terminating the program because of the error." +:+ Str.nl).

(** A batch [_write_lines] writes out, whatever the stream holds. *)
Definition accepted (n_samples : nat) (index_array : list nat)
    (lines : list string) : Prop :=
  ∀ op, ∃ op' k, _write_lines op lines n_samples index_array = (op', Ok k).

(** A position of the index array that holds an old position. *)
Definition filled (index_array : list (option nat)) (i : nat) : Prop :=
  ∃ v, index_array !! i = Some (Some v).

(** Writing batches one after the other with [_write_lines], counting from
    [counter], until one of them raises. *)
Fixpoint run_batches (n_samples : nat) (index_array : list nat)
    (bs : list (list string)) (op : string) (counter : nat) : string * result nat :=
  match bs with
  | [] => (op, Ok counter)
  | b :: bs' =>
      match _write_lines op b n_samples index_array with
      | (op', Ok k) => run_batches n_samples index_array bs' op' (counter + k)
      | (op', Err e) => (op', Err e)
      end
  end.

(** The identifier of a line of a sample file in the words of the
    specification: the line is cut into its white-space tokens, and the
    identifier is the first two of them joined by one space. *)
Definition first_two_tokens (line : string) : string :=
  Str.join " " (take 2 (Str.split line)).

(** An identifier that occurs at two positions of a sequence. *)
Definition repeated (ids : list string) : Prop :=
  ∃ i j x, i < j ∧ ids !! i = Some x ∧ ids !! j = Some x.

(** ** Data of the examples *)

(** A row of three samples without a chromosome code (14 columns), and one
    with a chromosome code (15 columns). *)
Definition row14 : string :=
  "rsX 1 2 3 4 0.1 0.2 0.7 0.3 0.3 0.4 0.5 0.3 0.2" +:+ Str.nl.

Definition row15 : string :=
  "01 rsY 1 2 3 4 0.1 0.2 0.7 0.3 0.3 0.4 0.5 0.3 0.2" +:+ Str.nl.

(** A stream whose first batch has rows of 14 columns and whose second
    batch has a row of 15. *)
Definition mixed_stream : list string := replicate 6 row14 ++ [row15].

(** A row of one sample that holds two genotype columns only. *)
Definition short_row : string := "rs1 1 2 3 4 0.1 0.2" +:+ Str.nl.

(** Seven rows, one more than a batch holds, and a batch of two rows. *)
Definition seven_rows : list string := replicate 7 row14.

Definition two_rows : list string := [row14; row14].

(** A batch whose second row is one column short. *)
Definition ragged_rows : list string := [row14; short_row].

(** Sample files: two header lines, then one sample per line. *)
Definition sample_header : string :=
  "ID_1 ID_2 missing" +:+ Str.nl +:+ "0 0 0" +:+ Str.nl.

Definition sample_text (samples : list string) : string :=
  sample_header +:+ rows_text samples.

Definition world_of (fs : list (string * string)) (input : string) : world :=
  {| files := list_to_map fs; stdin := input; stdout := EmptyString |}.

Definition cli_model (model : string) (subsetting : bool) : cli :=
  {| gen_in := None; gen_out := None;
     sample_in := Some "in.sample"; sample_out := Some "out.sample";
     order := None; model_sample := Some model;
     allow_subsetting := subsetting |}.

Definition cli_order (order_file : string) (subsetting : bool) : cli :=
  {| gen_in := None; gen_out := None;
     sample_in := Some "in.sample"; sample_out := Some "out.sample";
     order := Some order_file; model_sample := None;
     allow_subsetting := subsetting |}.

(** Input samples A, B, C; a model sample file in the order C, A, B; the
    same order as a plain list. *)
Definition world_abc : world :=
  world_of [("in.sample", sample_text ["A A 0"; "B B 0"; "C C 0"]);
            ("model.sample", sample_text ["C C 0"; "A A 0"; "B B 0"]);
            ("order.txt", rows_text ["C C"; "A A"; "B B"])]
           row14.

(** Input samples A, B; a model sample file that lists A, B and D. *)
Definition world_abd : world :=
  world_of [("in.sample", sample_text ["A A 0"; "B B 0"]);
            ("model.sample", sample_text ["A A 0"; "B B 0"; "D D 0"])]
           EmptyString.

(** Orders of samples: the input A, B, C; a target that leaves B out; a
    target with a sample D the input does not have. *)
Definition order_abc : list string := ["A A"; "B B"; "C C"].

Definition order_ca : list string := ["C C"; "A A"].

Definition order_cda : list string := ["C C"; "D D"; "A A"].

(** Input samples A, B, C and a model sample file in the order C, A. *)
Definition world_subset : world :=
  world_of [("in.sample", sample_text ["A A 0"; "B B 0"; "C C 0"]);
            ("model.sample", sample_text ["C C 0"; "A A 0"])]
           row14.

Definition order_cab : list string := ["C C"; "A A"; "B B"].

(** Runs without an output sample file, with the output sample file on the
    input sample file, and with the output genotype file on the input
    genotype file. *)
Definition cli_no_sample_out : cli :=
  {| gen_in := None; gen_out := None;
     sample_in := Some "in.sample"; sample_out := None;
     order := None; model_sample := Some "model.sample";
     allow_subsetting := false |}.

Definition cli_sample_clash : cli :=
  {| gen_in := None; gen_out := None;
     sample_in := Some "in.sample"; sample_out := Some "in.sample";
     order := None; model_sample := Some "model.sample";
     allow_subsetting := false |}.

Definition cli_gen_clash : cli :=
  {| gen_in := Some "data.gen"; gen_out := Some "data.gen";
     sample_in := Some "in.sample"; sample_out := Some "out.sample";
     order := None; model_sample := Some "model.sample";
     allow_subsetting := false |}.

(** The files of [world_abc] and a genotype file of one row. *)
Definition world_gen : world :=
  world_of [("in.sample", sample_text ["A A 0"; "B B 0"; "C C 0"]);
            ("model.sample", sample_text ["C C 0"; "A A 0"; "B B 0"]);
            ("data.gen", row14)]
           EmptyString.

(** An input sample file that lists the sample A twice. *)
Definition world_dup : world :=
  world_of [("in.sample", sample_text ["A A 0"; "B B 0"; "A A 1"]);
            ("model.sample", sample_text ["A A 0"; "B B 0"])]
           EmptyString.

(** * Properties *)

(** ** Strings *)

Section strings.

Lemma str_app_cons (c : ascii) (s t : string) :
  String c s +:+ t = String c (s +:+ t).
Proof. reflexivity. Qed.

Lemma str_app_nil_r (s : string) : s +:+ EmptyString = s.
Proof. induction s as [|c s IH]; [done | by rewrite str_app_cons, IH]. Qed.

Lemma str_app_assoc (s t u : string) : (s +:+ t) +:+ u = s +:+ (t +:+ u).
Proof. induction s as [|c s IH]; [done | by rewrite !str_app_cons, IH]. Qed.

Lemma split_on_not_nil (c : ascii) (s : string) : Str.split_on c s ≠ [].
Proof.
  destruct s as [|a s]; cbn; [done |].
  case_decide; [done |]. by destruct (Str.split_on c s).
Qed.

Lemma join_cons (sep x : string) (y : string) (l : list string) :
  Str.join sep (x :: y :: l) = x +:+ sep +:+ Str.join sep (y :: l).
Proof. reflexivity. Qed.

(** Cutting a text at a character and joining the fields with that
    character gives the text back. *)
Lemma join_split_on (c : ascii) (s : string) :
  Str.join (String c EmptyString) (Str.split_on c s) = s.
Proof.
  induction s as [|a s IH]; [done |].
  cbn [Str.split_on]. case_decide as Hac.
  - subst a. pose proof (split_on_not_nil c s) as Hne.
    destruct (Str.split_on c s) as [|t ts]; [done |].
    rewrite join_cons, IH. reflexivity.
  - pose proof (split_on_not_nil c s) as Hne.
    destruct (Str.split_on c s) as [|t ts]; [done |].
    destruct ts as [|t' ts].
    + cbn in IH. cbn. by rewrite IH.
    + rewrite join_cons in *. by rewrite str_app_cons, IH.
Qed.

Lemma rows_text_cons (r : string) (rows : list string) :
  rows_text (r :: rows) = r +:+ Str.nl +:+ rows_text rows.
Proof. reflexivity. Qed.

Lemma rows_text_app (a b : list string) :
  rows_text (a ++ b) = rows_text a +:+ rows_text b.
Proof.
  induction a as [|r a IH]; [done |].
  rewrite <- app_comm_cons, !rows_text_cons, IH.
  by rewrite !str_app_assoc.
Qed.

Lemma lines_text_rows (rows : list string) :
  rows ≠ [] → lines_text rows = rows_text rows.
Proof.
  unfold lines_text. induction rows as [|r rows IH]; [done |]. intros _.
  destruct rows as [|r' rows].
  - cbn. by rewrite str_app_nil_r.
  - rewrite join_cons, (rows_text_cons r), <- IH by done.
    by rewrite !str_app_assoc.
Qed.

Lemma map_plain (l : list string) : Forall plain l → map Numpy.np_str l = l.
Proof.
  induction 1 as [|t l Ht _ IH]; [done |]. cbn. by rewrite Ht, IH.
Qed.

End strings.

(** ** The array of a batch *)

Section arrays.

Lemma gen_array_length (lines : list string) :
  length (gen_array lines) = length lines.
Proof. unfold gen_array. by rewrite length_map. Qed.

Lemma gen_array_width (n : nat) (lines : list string) :
  width_is n lines → Forall (λ row, length row = n) (gen_array lines).
Proof.
  unfold width_is, gen_array. intros Hw. rewrite Forall_map.
  eapply Forall_impl; [exact Hw |]. intros line Hn. cbn.
  fold (row_tokens line). by rewrite length_map.
Qed.

Lemma existsb_width_false (n : nat) (rows : list (list string)) :
  Forall (λ row, length row = n) rows →
  existsb (λ i, negb (length i =? n)) rows = false.
Proof.
  induction 1 as [|row rows Hrow _ IH]; [done |].
  cbn. rewrite IH, Hrow, Nat.eqb_refl. done.
Qed.

Lemma existsb_width_true (n : nat) (rows : list (list string)) :
  existsb (λ i, negb (length i =? n)) rows = true ↔
  ∃ row, row ∈ rows ∧ length row ≠ n.
Proof.
  rewrite existsb_exists. split.
  - intros (row & Hin & Hlen). exists row. split; [by apply list_elem_of_In |].
    apply negb_true_iff, Nat.eqb_neq in Hlen. done.
  - intros (row & Hin & Hlen). exists row. split; [by apply list_elem_of_In |].
    by apply negb_true_iff, Nat.eqb_neq.
Qed.

Lemma column_stack_rows (n_samples : nat) (index_array : list nat)
    (rows : list (list string)) (n : nat) :
  Forall (λ row, length row = n) rows →
  Numpy.column_stack (map (take (i_genotypes n)) rows)
    (Numpy.flatten
       (map (λ row, map (λ j, nth j row []) index_array)
          (map (Numpy.reshape3 n_samples) (map (drop (i_genotypes n)) rows))))
  = map (reorder_row n_samples index_array) rows.
Proof.
  induction 1 as [|row rows Hrow _ IH]; [done |].
  cbn [map Numpy.flatten Numpy.column_stack]. unfold Numpy.flatten in IH.
  rewrite IH. unfold reorder_row at 2. by rewrite Hrow.
Qed.

End arrays.

(** ** One batch of constant width *)

Section one_batch.

Variables (n_samples : nat) (index_array : list nat).

(** What [read_gen_lines] returns on a batch of constant width. *)
Lemma read_gen_lines_constant (n : nat) (lines : list string) :
  lines ≠ [] → width_is n lines →
  read_gen_lines lines n_samples =
    if negb (n_genotype_cols n =? 3 * n_samples) then Err TypeError
    else Ok (map (take (i_genotypes n)) (gen_array lines),
             map (Numpy.reshape3 n_samples)
               (map (drop (i_genotypes n)) (gen_array lines))).
Proof.
  intros Hne Hw. apply gen_array_width in Hw.
  unfold read_gen_lines.
  destruct (gen_array lines) as [|first rows] eqn:Harr.
  { apply (f_equal length) in Harr. rewrite gen_array_length in Harr.
    by destruct lines. }
  pose proof (Forall_inv Hw) as Hfirst. cbn beta in Hfirst. rewrite Hfirst.
  rewrite (existsb_width_false n) by done.
  cbn [map hd]. rewrite length_drop, Hfirst.
  fold (n_genotype_cols n).
  destruct (negb (n_genotype_cols n =? 3 * n_samples)); done.
Qed.

(** What [_write_lines] does on a batch of constant width. *)
Lemma write_lines_constant (n : nat) (op : string) (lines : list string) :
  lines ≠ [] → width_is n lines →
  _write_lines op lines n_samples index_array =
    if negb (n_genotype_cols n =? 3 * n_samples) then (op, Err TypeError)
    else if forallb (λ j, j <? n_samples) index_array
    then (op +:+ rows_text (map (Str.join " ")
                              (map (reorder_row n_samples index_array) (gen_array lines))),
          Ok (length lines))
    else (op, Err IndexError).
Proof.
  intros Hne Hw. unfold _write_lines.
  rewrite (read_gen_lines_constant n) by done.
  destruct (negb (n_genotype_cols n =? 3 * n_samples)); [done |].
  unfold Numpy.ix_gather.
  destruct (forallb (λ j, j <? n_samples) index_array); [| done].
  rewrite (column_stack_rows _ _ _ n) by by apply gen_array_width.
  rewrite !length_map, gen_array_length.
  rewrite lines_text_rows; [done |].
  intros Hnil. apply (f_equal length) in Hnil.
  rewrite !length_map, gen_array_length in Hnil. by destruct lines.
Qed.

End one_batch.

(** ** A stream of constant width *)

Section stream.

Variables (max n n_samples : nat) (index_array : list nat).

Lemma output_rows_app (a b : list string) :
  output_rows n_samples index_array (a ++ b)
  = output_rows n_samples index_array a ++ output_rows n_samples index_array b.
Proof. unfold output_rows, gen_array. by rewrite !map_app. Qed.

Lemma write_lines_pass (op : string) (lines : list string) :
  batch_checks n n_samples index_array = true →
  lines ≠ [] → width_is n lines →
  _write_lines op lines n_samples index_array
  = (op +:+ rows_text (output_rows n_samples index_array lines), Ok (length lines)).
Proof.
  unfold batch_checks. intros Hc Hne Hw.
  rewrite (write_lines_constant _ _ n) by done.
  destruct (n_genotype_cols n =? 3 * n_samples); [| done].
  destruct (forallb (λ j, j <? n_samples) index_array); done.
Qed.

Lemma write_lines_fail (op : string) (lines : list string) :
  batch_checks n n_samples index_array = false →
  lines ≠ [] → width_is n lines →
  _write_lines op lines n_samples index_array = (op, Err (batch_failure n n_samples)).
Proof.
  unfold batch_checks, batch_failure. intros Hc Hne Hw.
  rewrite (write_lines_constant _ _ n) by done.
  destruct (n_genotype_cols n =? 3 * n_samples); [| done].
  destruct (forallb (λ j, j <? n_samples) index_array); done.
Qed.

Lemma width_is_app (a b : list string) :
  width_is n (a ++ b) ↔ width_is n a ∧ width_is n b.
Proof. apply Forall_app. Qed.

(** The loop on an accepted stream: the lines written so far and the lines
    still in the buffer make up the lines read. *)
Lemma loop_pass (ip : list string) :
  batch_checks n n_samples index_array = true →
  ∀ (op : string) (counter : nat) (buffered_lines : list string),
    width_is n (buffered_lines ++ ip) →
    ∃ written rest,
      write_output_loop max ip op n_samples index_array counter buffered_lines
      = (op +:+ rows_text (output_rows n_samples index_array written),
         Ok (counter + length written, rest))
      ∧ written ++ rest = buffered_lines ++ ip.
Proof.
  intros Hc. induction ip as [|line ip IH]; intros op counter buf Hw.
  - exists [], buf. cbn. rewrite str_app_nil_r, Nat.add_0_r, app_nil_r. done.
  - cbn [write_output_loop].
    assert (Hw' : width_is n ((buf ++ [line]) ++ ip)) by by rewrite <- app_assoc.
    destruct (length (buf ++ [line]) =? max).
    + apply width_is_app in Hw' as [Hbuf Hip].
      rewrite write_lines_pass by (done || by destruct buf).
      destruct (IH (op +:+ rows_text (output_rows n_samples index_array (buf ++ [line])))
                  (counter + length (buf ++ [line])) [] Hip)
        as (written & rest & -> & Heq).
      exists ((buf ++ [line]) ++ written), rest. split.
      * generalize (buf ++ [line]). intros b.
        rewrite output_rows_app, rows_text_app, str_app_assoc, length_app.
        by rewrite Nat.add_assoc.
      * cbn in Heq. by rewrite <- !app_assoc, Heq.
    + destruct (IH op counter (buf ++ [line]) Hw') as (written & rest & -> & Heq).
      exists written, rest. split; [done |]. by rewrite Heq, <- app_assoc.
Qed.

(** The loop on a refused stream: it stops at its first batch, or hands
    all the lines over in the buffer. *)
Lemma loop_fail (ip : list string) :
  batch_checks n n_samples index_array = false →
  ∀ (op : string) (counter : nat) (buffered_lines : list string),
    width_is n (buffered_lines ++ ip) →
    write_output_loop max ip op n_samples index_array counter buffered_lines
    = (op, Err (batch_failure n n_samples))
    ∨ write_output_loop max ip op n_samples index_array counter buffered_lines
      = (op, Ok (counter, buffered_lines ++ ip)).
Proof.
  intros Hc. induction ip as [|line ip IH]; intros op counter buf Hw.
  - right. cbn. by rewrite app_nil_r.
  - cbn [write_output_loop].
    assert (Hw' : width_is n ((buf ++ [line]) ++ ip)) by by rewrite <- app_assoc.
    destruct (length (buf ++ [line]) =? max).
    + left. apply width_is_app in Hw' as [Hbuf Hip].
      rewrite write_lines_fail by (done || by destruct buf). done.
    + destruct (IH op counter (buf ++ [line]) Hw') as [-> | ->]; [by left |].
      right. by rewrite <- app_assoc.
Qed.

Lemma write_output_with_constant (ip : list string) (op : string) :
  ip ≠ [] → width_is n ip →
  write_output_with max ip op n_samples index_array
  = if batch_checks n n_samples index_array
    then (op +:+ rows_text (output_rows n_samples index_array ip), Ok (length ip))
    else (op, Err (batch_failure n n_samples)).
Proof.
  intros Hne Hw. unfold write_output_with.
  destruct (batch_checks n n_samples index_array) eqn:Hc.
  - destruct (loop_pass ip Hc op 0 [] Hw) as (written & rest & -> & Heq).
    cbn in Heq. subst ip.
    destruct rest as [|r rest].
    + cbn. by rewrite app_nil_r.
    + apply width_is_app in Hw as [_ Hrest].
      cbn [length Nat.ltb Nat.leb].
      rewrite write_lines_pass by done.
      rewrite output_rows_app, rows_text_app, str_app_assoc, length_app. done.
  - destruct (loop_fail ip Hc op 0 [] Hw) as [-> | ->]; [done |].
    cbn [app]. destruct ip as [|l ip]; [done |].
    cbn [length Nat.ltb Nat.leb].
    by rewrite write_lines_fail.
Qed.

(** On a stream of constant width the size of the batches does not show:
    a run is one call of [_write_lines] on all its lines, or nothing at all
    on an empty stream. *)
Lemma write_output_with_one_batch (ip : list string) (op : string) :
  width_is n ip →
  write_output_with max ip op n_samples index_array
  = match ip with
    | [] => (op, Ok 0)
    | _ => _write_lines op ip n_samples index_array
    end.
Proof.
  intros Hw. destruct ip as [|l ip]; [done |].
  rewrite write_output_with_constant by done.
  destruct (batch_checks n n_samples index_array) eqn:Hc.
  - by rewrite write_lines_pass.
  - by rewrite write_lines_fail.
Qed.

End stream.

(** ** The stream driver *)

(** C10.  On an empty input stream [write_output] returns 0 and leaves the
    output stream as it found it: nothing is written, not even a line
    feed. *)
Theorem write_output_empty (op : string) (n_samples_input : nat)
    (index_array : list nat) :
  write_output [] op n_samples_input index_array = (op, Ok 0).
Proof. reflexivity. Qed.

(** C2.  On a stream whose lines all have [n] columns the size of the
    batches does not show.  Any two batch sizes give the same output stream
    and the same result (a size of 0, or one that the stream does not reach,
    makes the whole stream one batch); the run with [MAX_SNPS_IN_BUFFER] is
    exactly one call of [_write_lines] on all the lines when there is a
    line; and when the lines hold three columns per input sample after the
    descriptors and the index array stays within the input samples, the run
    writes the reordered rows and returns the number of input lines, as the
    single call does. *)
Theorem write_output_batching (max max' n n_samples : nat) (index_array : list nat)
    (ip : list string) (op : string) :
  width_is n ip →
  write_output_with max ip op n_samples index_array
    = write_output_with max' ip op n_samples index_array
  ∧ (ip ≠ [] →
     write_output ip op n_samples index_array
     = _write_lines op ip n_samples index_array)
  ∧ (n_genotype_cols n = 3 * n_samples →
     Forall (λ j, j < n_samples) index_array →
     write_output ip op n_samples index_array
     = (op +:+ rows_text (output_rows n_samples index_array ip), Ok (length ip))
     ∧ (ip ≠ [] →
        _write_lines op ip n_samples index_array
        = (op +:+ rows_text (output_rows n_samples index_array ip), Ok (length ip)))).
Proof.
  intros Hw. unfold write_output.
  rewrite !(write_output_with_one_batch _ n) by done.
  split; [done |]. split; [by destruct ip |].
  intros Hg Hi.
  assert (Hc : batch_checks n n_samples index_array = true).
  { unfold batch_checks. rewrite Hg, Nat.eqb_refl. cbn [andb].
    apply forallb_forall. intros j Hj. apply Nat.ltb_lt.
    rewrite Forall_forall in Hi. by apply Hi, list_elem_of_In. }
  destruct ip as [|l ip].
  - split; [| done]. cbn. by rewrite str_app_nil_r.
  - rewrite (write_lines_pass n) by done. done.
Qed.

(** ** The parser of a batch *)

Section parser.

Lemma i_genotypes_le (n : nat) : 5 ≤ n → i_genotypes n ≤ n.
Proof.
  unfold i_genotypes. intros Hn.
  destruct (n mod 3 =? 0) eqn:Hmod; [| done].
  apply Nat.eqb_eq in Hmod.
  destruct (decide (n = 5)) as [-> | Hne]; [done | lia].
Qed.

Lemma take_add_drop {A} (a b : nat) (l : list A) :
  take (a + b) l = take a l ++ take b (drop a l).
Proof.
  revert l. induction a as [|a IH]; intros l; [done |].
  destruct l as [|x l]; cbn; [by rewrite take_nil | by rewrite IH].
Qed.

Lemma reshape3_length (n : nat) (row : list string) :
  length (Numpy.reshape3 n row) = n.
Proof. revert row. induction n as [|n IH]; intros row; cbn; [done | by rewrite IH]. Qed.

(** The triplets of a row, side by side, are its first [3 * n] columns. *)
Lemma concat_reshape3 (n : nat) (row : list string) :
  concat (Numpy.reshape3 n row) = take (3 * n) row.
Proof.
  revert row. induction n as [|n IH]; intros row; [done |].
  cbn [Numpy.reshape3 concat]. rewrite IH.
  replace (3 * S n) with (3 + 3 * n) by lia.
  by rewrite take_add_drop.
Qed.

Lemma concat_reshape3_all (n : nat) (row : list string) :
  length row = 3 * n → concat (Numpy.reshape3 n row) = row.
Proof. intros Hlen. rewrite concat_reshape3. apply take_ge. lia. Qed.

Lemma map_nth_seq_all {A} (d : A) (l : list A) :
  map (λ j, nth j l d) (seq 0 (length l)) = l.
Proof.
  induction l as [|x l IH]; [done |].
  cbn [length seq map nth]. f_equal.
  rewrite <- seq_shift, map_map. exact IH.
Qed.

Lemma forallb_seq_lt (n : nat) : forallb (λ j, j <? n) (seq 0 n) = true.
Proof.
  apply forallb_forall. intros j Hj. apply in_seq in Hj. apply Nat.ltb_lt. lia.
Qed.

(** Gathering the samples of a row in their own order gives the row back. *)
Lemma reorder_row_identity (n_samples : nat) (row : list string) :
  n_genotype_cols (length row) = 3 * n_samples →
  reorder_row n_samples (seq 0 n_samples) row = row.
Proof.
  unfold n_genotype_cols, reorder_row. intros Hg.
  set (w := i_genotypes (length row)) in *.
  assert (Hlen : length (drop w row) = 3 * n_samples) by by rewrite length_drop.
  pose proof (map_nth_seq_all [] (Numpy.reshape3 n_samples (drop w row))) as Hmap.
  rewrite reshape3_length in Hmap. rewrite Hmap.
  rewrite concat_reshape3_all by done. apply take_drop.
Qed.

Lemma output_rows_identity (n n_samples : nat) (lines : list string) :
  width_is n lines →
  n_genotype_cols n = 3 * n_samples →
  Forall (λ line, Forall plain (row_tokens line)) lines →
  output_rows n_samples (seq 0 n_samples) lines = map Str.strip lines.
Proof.
  unfold output_rows, gen_array, width_is. intros Hw Hg Hplain.
  rewrite !map_map. apply map_ext_Forall.
  rewrite Forall_forall in Hw, Hplain. apply Forall_forall.
  intros line Hin. specialize (Hw line Hin). specialize (Hplain line Hin).
  cbn beta in *. fold (row_tokens line).
  rewrite (map_plain _ Hplain).
  rewrite reorder_row_identity by by rewrite Hw.
  apply join_split_on.
Qed.

End parser.


(** C7.  Code defect: on a batch whose rows all have [n] columns, when the
    columns after the descriptors are not three per input sample the parser
    does not get as far as its error message: building the message joins the
    rows of the descriptor matrix as if they were strings, which raises a
    TypeError; so the message that names the descriptors is never issued. *)
Theorem genotype_count_mismatch_type_error (n n_samples : nat)
    (lines : list string) :
  lines ≠ [] →
  width_is n lines →
  n_genotype_cols n ≠ 3 * n_samples →
  read_gen_lines lines n_samples = Err TypeError
  ∧ (∀ snp k, read_gen_lines lines n_samples
              ≠ print_error_and_stop (msg_genotype_count snp k))
  ∧ (∀ op index_array,
       _write_lines op lines n_samples index_array = (op, Err TypeError)).
Proof.
  intros Hne Hw Hg.
  assert (Hread : read_gen_lines lines n_samples = Err TypeError).
  { rewrite (read_gen_lines_constant _ n) by done.
    apply Nat.eqb_neq in Hg. by rewrite Hg. }
  split; [done |]. split.
  - intros snp k. by rewrite Hread.
  - intros op index_array. unfold _write_lines. by rewrite Hread.
Qed.

(** ** Rows of different widths *)

Section widths.

Variables (n_samples : nat) (index_array : list nat).

Lemma width_error_stop {A} : @print_error_and_stop A msg_not_constant = Err width_error.
Proof. reflexivity. Qed.

Lemma existsb_gen_array (n : nat) (lines : list string) :
  existsb (λ i, negb (length i =? n)) (gen_array lines) = true ↔
  ∃ line, line ∈ lines ∧ length (row_tokens line) ≠ n.
Proof.
  rewrite existsb_width_true. unfold gen_array. split.
  - intros (row & Hin & Hlen). apply list_elem_of_fmap in Hin as (line & -> & Hin).
    exists line. split; [done |]. by rewrite length_map in Hlen.
  - intros (line & Hin & Hlen).
    exists (map Numpy.np_str (row_tokens line)). split.
    + apply list_elem_of_fmap. by exists line.
    + by rewrite length_map.
Qed.

(** The parser stops on the width message exactly on a ragged batch. *)
Lemma read_gen_lines_ragged (lines : list string) :
  read_gen_lines lines n_samples = Err width_error ↔ ragged lines.
Proof.
  unfold read_gen_lines, ragged.
  destruct lines as [|l0 ls].
  { cbn. split; [done |]. intros (line & Hin & _). by apply elem_of_nil in Hin. }
  pose proof (existsb_gen_array (length (row_tokens l0)) (l0 :: ls)) as Hex.
  cbn [gen_array map hd] in *. fold (row_tokens l0) in *. fold (gen_array ls) in *.
  rewrite length_map.
  destruct (existsb _ (_ :: gen_array ls)).
  - split; [intros _; by apply Hex | done].
  - split.
    + intros Habs. exfalso.
      destruct (negb _) in Habs; cbn in Habs; discriminate.
    + intros Hr. apply Hex in Hr. discriminate.
Qed.

Lemma write_lines_error (op op' : string) (lines : list string) (e : exn) :
  _write_lines op lines n_samples index_array = (op', Err e) →
  read_gen_lines lines n_samples = Err e ∨ e = IndexError.
Proof.
  unfold _write_lines.
  destruct (read_gen_lines lines n_samples) as [[d g] | e'].
  - unfold Numpy.ix_gather. destruct (forallb _ index_array); [done |].
    intros [= _ <-]. by right.
  - intros [= _ <-]. by left.
Qed.

Lemma write_lines_ragged (op : string) (lines : list string) :
  ragged lines →
  _write_lines op lines n_samples index_array = (op, Err width_error).
Proof.
  intros Hr%read_gen_lines_ragged. unfold _write_lines. by rewrite Hr.
Qed.

Lemma write_lines_width_error (op op' : string) (lines : list string) :
  _write_lines op lines n_samples index_array = (op', Err width_error) →
  ragged lines.
Proof.
  intros [Hr | Hr]%write_lines_error; [by apply read_gen_lines_ragged | done].
Qed.

(** Whether a batch is written out does not depend on the stream. *)
Lemma write_lines_accepted (op op' : string) (k : nat) (lines : list string) :
  _write_lines op lines n_samples index_array = (op', Ok k) →
  accepted n_samples index_array lines.
Proof.
  unfold accepted, _write_lines.
  destruct (read_gen_lines lines n_samples) as [[d g] | e]; [| done].
  destruct (Numpy.ix_gather n_samples index_array g); [| done].
  intros _ op0. eauto.
Qed.

Lemma accepted_not_ragged (lines : list string) :
  accepted n_samples index_array lines → ¬ ragged lines.
Proof.
  intros Hacc Hr. destruct (Hacc EmptyString) as (op' & k & Hw).
  by rewrite write_lines_ragged in Hw.
Qed.

End widths.

Section batches_of_a_run.

Variables (max n_samples : nat) (index_array : list nat).

(** The loop follows [batches]: it stops in the first batch that is not
    accepted, and otherwise leaves the rest in the buffer. *)
Lemma loop_batches (ip : list string) :
  ∀ (op : string) (counter : nat) (buffered_lines : list string),
    match write_output_loop max ip op n_samples index_array counter buffered_lines with
    | (op', Err e) =>
        ∃ pre b post op0,
          (batches max buffered_lines ip).1 = pre ++ b :: post
          ∧ Forall (accepted n_samples index_array) pre
          ∧ _write_lines op0 b n_samples index_array = (op', Err e)
    | (op', Ok (_, rest)) =>
        rest = (batches max buffered_lines ip).2
        ∧ Forall (accepted n_samples index_array) (batches max buffered_lines ip).1
    end.
Proof.
  induction ip as [|line ip IH]; intros op counter buf.
  - cbn. split; [done | constructor].
  - cbn [write_output_loop batches].
    destruct (length (buf ++ [line]) =? max).
    + destruct (_write_lines op (buf ++ [line]) n_samples index_array)
        as [op1 [k | e]] eqn:Hw.
      * specialize (IH op1 (counter + k) []).
        destruct (batches max [] ip) as [bs rest] eqn:Hb. cbn [fst snd] in *.
        apply write_lines_accepted in Hw.
        destruct (write_output_loop max ip op1 n_samples index_array (counter + k) [])
          as [op' [[c' rest'] | e]].
        -- destruct IH as [-> Hacc]. split; [done | by constructor].
        -- destruct IH as (pre & b & post & op0 & -> & Hacc & Hfail).
           exists ((buf ++ [line]) :: pre), b, post, op0.
           split; [done |]. split; [by constructor | done].
      * destruct (batches max [] ip) as [bs rest]. cbn [fst snd].
        exists [], (buf ++ [line]), bs, op. split; [done |]. split; [constructor | done].
    + apply IH.
Qed.

Lemma all_batches_unfold (ip : list string) :
  all_batches max ip
  = (batches max [] ip).1
    ++ match (batches max [] ip).2 with [] => [] | rest => [rest] end.
Proof.
  unfold all_batches. destruct (batches max [] ip) as [bs [|r rest]]; cbn [fst snd].
  - by rewrite app_nil_r.
  - done.
Qed.

(** A run ends in the first batch that is not accepted, with the exception
    of that batch. *)
Lemma write_output_with_error (ip : list string) (op op' : string) (e : exn) :
  write_output_with max ip op n_samples index_array = (op', Err e) →
  ∃ pre b post op0,
    all_batches max ip = pre ++ b :: post
    ∧ Forall (accepted n_samples index_array) pre
    ∧ _write_lines op0 b n_samples index_array = (op', Err e).
Proof.
  unfold write_output_with. rewrite all_batches_unfold.
  pose proof (loop_batches ip op 0 []) as Hloop.
  destruct (write_output_loop max ip op n_samples index_array 0 [])
    as [op1 [[c rest] | e1]].
  - destruct Hloop as [<- Hacc].
    destruct rest as [|r rest]; [done |].
    cbn [length Nat.ltb Nat.leb].
    destruct (_write_lines op1 (r :: rest) n_samples index_array)
      as [op2 [k | e2]] eqn:Hw; [done |].
    intros [= <- <-].
    exists (batches max [] ip).1, (r :: rest), [], op1. done.
  - intros [= <- <-].
    destruct Hloop as (pre & b & post & op0 & -> & Hacc & Hfail).
    exists pre, b, (post ++ match (batches max [] ip).2 with [] => [] | rest => [rest] end), op0.
    split; [by rewrite <- app_assoc | done].
Qed.

(** A run whose batches are all accepted returns. *)
Lemma write_output_with_ok (ip : list string) (op : string) :
  Forall (accepted n_samples index_array) (all_batches max ip) →
  ∃ op' k, write_output_with max ip op n_samples index_array = (op', Ok k).
Proof.
  intros Hall.
  destruct (write_output_with max ip op n_samples index_array) as [op' [k | e]] eqn:Hrun;
    [by eauto |].
  apply write_output_with_error in Hrun as (pre & b & post & op0 & Heq & _ & Hfail).
  rewrite Heq in Hall. apply Forall_app in Hall as [_ Hall].
  apply Forall_cons in Hall as [Hb _].
  destruct (Hb op0) as (op1 & k & Hok). by rewrite Hok in Hfail.
Qed.

End batches_of_a_run.

Section first_failure.

Variables (max n_samples : nat) (index_array : list nat).

Lemma first_failure_unique {A} (P : A → Prop) (pre pre' post post' : list A) (b b' : A) :
  pre ++ b :: post = pre' ++ b' :: post' →
  Forall P pre → ¬ P b → Forall P pre' → ¬ P b' →
  pre = pre' ∧ b = b'.
Proof.
  revert pre'. induction pre as [|x pre IH]; intros [|x' pre'] Heq Hpre Hb Hpre' Hb'.
  - by injection Heq as -> _.
  - injection Heq as -> _. by apply Forall_cons in Hpre' as [? _].
  - injection Heq as -> _. by apply Forall_cons in Hpre as [? _].
  - injection Heq as -> Heq.
    apply Forall_cons in Hpre as [_ Hpre]. apply Forall_cons in Hpre' as [_ Hpre'].
    destruct (IH pre' Heq Hpre Hb Hpre' Hb') as [-> ->]. done.
Qed.

Lemma write_output_with_ok_inv (ip : list string) (op op' : string) (k : nat) :
  write_output_with max ip op n_samples index_array = (op', Ok k) →
  Forall (accepted n_samples index_array) (all_batches max ip).
Proof.
  unfold write_output_with. rewrite all_batches_unfold.
  pose proof (loop_batches max n_samples index_array ip op 0 []) as Hloop.
  destruct (write_output_loop max ip op n_samples index_array 0 [])
    as [op1 [[c rest] | e1]]; [| done].
  destruct Hloop as [<- Hacc].
  destruct rest as [|r rest].
  - intros _. by rewrite app_nil_r.
  - cbn [length Nat.ltb Nat.leb].
    destruct (_write_lines op1 (r :: rest) n_samples index_array)
      as [op2 [k' | e2]] eqn:Hw; [| done].
    intros _. apply Forall_app. split; [done |].
    constructor; [| constructor]. by eapply write_lines_accepted.
Qed.

(** A run stops on the width message exactly when the first of its
    batches that is not accepted is a ragged one. *)
Lemma write_output_with_width_error (ip : list string) (op : string) :
  (write_output_with max ip op n_samples index_array).2 = Err width_error ↔
  ∃ pre b post,
    all_batches max ip = pre ++ b :: post
    ∧ Forall (accepted n_samples index_array) pre
    ∧ ragged b.
Proof.
  split.
  - destruct (write_output_with max ip op n_samples index_array) as [op' r] eqn:Hrun.
    cbn [snd]. intros ->.
    apply write_output_with_error in Hrun as (pre & b & post & op0 & Heq & Hacc & Hfail).
    exists pre, b, post. split; [done |]. split; [done |].
    by eapply write_lines_width_error.
  - intros (pre & b & post & Heq & Hacc & Hr).
    destruct (write_output_with max ip op n_samples index_array) as [op' [k | e]] eqn:Hrun;
      cbn [snd].
    + apply write_output_with_ok_inv in Hrun. rewrite Heq in Hrun.
      apply Forall_app in Hrun as [_ Hrun]. apply Forall_cons in Hrun as [Hb _].
      by apply accepted_not_ragged in Hb.
    + apply write_output_with_error in Hrun
        as (pre' & b' & post' & op0 & Heq' & Hacc' & Hfail).
      rewrite Heq in Heq'.
      destruct (first_failure_unique (accepted n_samples index_array)
                  pre pre' post post' b b' Heq' Hacc) as [_ <-].
      * intros Hb. by apply accepted_not_ragged in Hb.
      * done.
      * intros Hb. destruct (Hb op0) as (op1 & k & Hok). by rewrite Hok in Hfail.
      * rewrite (write_lines_ragged _ _ op0 b Hr) in Hfail. by injection Hfail as _ <-.
Qed.

End first_failure.

(** C9.  The parser stops on the message about a number of genotypes that
    is not constant exactly when some row of its batch has another number of
    columns than the first row of that batch.  A run stops on it exactly
    when the first batch it does not write out is such a batch; so a run
    whose batches each have rows of one width never stops on it, and rows
    of different batches may differ in width: a stream of six rows of 14
    columns followed by a row of 15 columns is written out in full. *)
Theorem width_failure_per_batch :
  (∀ lines n_samples,
     read_gen_lines lines n_samples = print_error_and_stop msg_not_constant
     ↔ ragged lines)
  ∧ (∀ ip op n_samples index_array,
       (write_output ip op n_samples index_array).2
         = print_error_and_stop msg_not_constant
       ↔ ∃ pre b post,
           all_batches MAX_SNPS_IN_BUFFER ip = pre ++ b :: post
           ∧ Forall (accepted n_samples index_array) pre
           ∧ ragged b)
  ∧ (∀ ip op n_samples index_array,
       (∀ b, b ∈ all_batches MAX_SNPS_IN_BUFFER ip → ¬ ragged b) →
       (write_output ip op n_samples index_array).2
         ≠ print_error_and_stop msg_not_constant)
  ∧ (length (row_tokens row14) ≠ length (row_tokens row15)
     ∧ all_batches MAX_SNPS_IN_BUFFER mixed_stream = [replicate 6 row14; [row15]]
     ∧ (write_output mixed_stream EmptyString 3 [0; 1; 2]).2 = Ok 7).
Proof.
  rewrite !width_error_stop.
  split; [| split; [| split]].
  - intros lines n_samples. apply read_gen_lines_ragged.
  - intros ip op n_samples index_array. apply write_output_with_width_error.
  - intros ip op n_samples index_array Hall Herr.
    apply write_output_with_width_error in Herr as (pre & b & post & Heq & _ & Hr).
    apply (Hall b); [| done]. rewrite Heq.
    apply elem_of_app. right. constructor.
  - split; [by vm_compute |]. split; by vm_compute.
Qed.

(** ** Reading a sample order *)

Section sample_order.

Lemma id_dict_dom_from (l : list string) (d : gmap string string) :
  dom (foldl (λ d i, <[i := i]> d) d l) = dom d ∪ list_to_set l.
Proof.
  revert d. induction l as [|x l IH]; intros d; cbn [foldl].
  - rewrite list_to_set_nil. by rewrite (right_id_L ∅ (∪)).
  - rewrite IH, dom_insert_L, list_to_set_cons. set_solver.
Qed.

Lemma id_dict_size (l : list string) :
  size (id_dict l) = size (list_to_set l : gset string).
Proof.
  unfold id_dict. rewrite <- size_dom, id_dict_dom_from, dom_empty_L.
  by rewrite (left_id_L ∅ (∪)).
Qed.

Lemma size_list_to_set_le (l : list string) :
  size (list_to_set l : gset string) ≤ length l.
Proof.
  induction l as [|x l IH]; [by rewrite list_to_set_nil, size_empty |].
  rewrite list_to_set_cons. cbn [length].
  pose proof (size_union_alt {[x]} (list_to_set l : gset string)) as Hu.
  rewrite size_singleton in Hu.
  assert (size (list_to_set l ∖ {[x]} : gset string) ≤ size (list_to_set l : gset string))
    by (apply subseteq_size; set_solver).
  lia.
Qed.

(** The dictionary of the identifiers is as long as their list only when
    no identifier occurs twice. *)
Lemma size_list_to_set_NoDup (l : list string) :
  size (list_to_set l : gset string) = length l → NoDup l.
Proof.
  induction l as [|x l IH]; [constructor |].
  rewrite list_to_set_cons. cbn [length]. intros Hsize.
  pose proof (size_list_to_set_le l) as Hle.
  destruct (decide (x ∈ l)) as [Hin | Hnin].
  - assert (Heq : {[x]} ∪ list_to_set l = (list_to_set l : gset string)) by set_solver.
    rewrite Heq in Hsize. lia.
  - constructor; [done |]. apply IH.
    rewrite size_union in Hsize by set_solver.
    rewrite size_singleton in Hsize. lia.
Qed.

Lemma id_dict_NoDup (l : list string) :
  size (id_dict l) = length l ↔ NoDup l.
Proof.
  rewrite id_dict_size. split.
  - apply size_list_to_set_NoDup.
  - apply size_list_to_set.
Qed.

Lemma rstrip_empty_head (c : ascii) (s : string) :
  Str.rstrip (String c s) = EmptyString → Str.is_space c = true.
Proof.
  cbn [Str.rstrip]. destruct (Str.rstrip s); [| done].
  by destruct (Str.is_space c).
Qed.

Lemma rstrip_head (c : ascii) (s : string) (d : ascii) (r : string) :
  Str.rstrip (String c s) = String d r → d = c.
Proof.
  cbn [Str.rstrip]. destruct (Str.rstrip s).
  - destruct (Str.is_space c); [done | by intros [= <- _]].
  - by intros [= <- _].
Qed.

(** White space at either end of a line gives no token. *)
Lemma split_rstrip (s : string) : Str.split (Str.rstrip s) = Str.split s.
Proof.
  induction s as [|a s IH]; [done |].
  cbn [Str.rstrip]. destruct (Str.rstrip s) as [|c r] eqn:Hr.
  - cbn [Str.split] in IH.
    destruct (Str.is_space a) eqn:Ha.
    + cbn [Str.split]. by rewrite Ha.
    + cbn [Str.split]. rewrite Ha. destruct s as [|b s]; [done |].
      rewrite (rstrip_empty_head b s Hr). by rewrite <- IH.
  - destruct s as [|b s]; [done |].
    pose proof (rstrip_head b s c r Hr) as ->.
    cbn [Str.split] in *. destruct (Str.is_space a); [done |].
    destruct (Str.is_space b); by rewrite IH.
Qed.

Lemma split_lstrip (s : string) : Str.split (Str.lstrip s) = Str.split s.
Proof.
  induction s as [|a s IH]; [done |].
  cbn [Str.lstrip]. destruct (Str.is_space a) eqn:Ha; [| done].
  cbn [Str.split]. by rewrite Ha.
Qed.

(** The identifier the program forms is the identifier of the
    specification. *)
Lemma sample_id_of_first_two_tokens (line : string) :
  sample_id_of line = first_two_tokens line.
Proof.
  unfold sample_id_of, first_two_tokens, Str.strip.
  by rewrite split_rstrip, split_lstrip.
Qed.

Lemma not_NoDup_repeated (ids : list string) : ¬ NoDup ids ↔ repeated ids.
Proof.
  unfold repeated. split.
  - induction ids as [|x ids IH]; intros Hnd; [exfalso; apply Hnd; constructor |].
    destruct (decide (x ∈ ids)) as [Hin | Hnin].
    + apply list_elem_of_lookup in Hin as [j Hj].
      exists 0, (S j), x. split; [lia | done].
    + destruct IH as (i & j & y & Hij & Hi & Hj).
      { intros Hnd'. apply Hnd. by constructor. }
      exists (S i), (S j), y. split; [lia | done].
  - intros (i & j & x & Hij & Hi & Hj) Hnd.
    pose proof (proj1 (NoDup_alt ids) Hnd i j x Hi Hj). lia.
Qed.

End sample_order.

(** C8.  Reading a sample order from a file that exists stops on the
    message about duplicates exactly when some identifier occurs twice in
    the sequence of identifiers, and otherwise returns that sequence, in the
    order of the file.  The identifier of a line is its first two
    white-space tokens joined by one space, and the sequence is that of the
    lines of the file, without the first two lines when the file is a
    sample file. *)
Theorem read_sample_order_duplicates (w : world) (p text : string)
    (is_sample_file : bool) :
  files w !! p = Some text →
  let ids := map (λ line, Str.join " " (take 2 (Str.split line))) (Str.readlines text) in
  let ids := if is_sample_file then drop 2 ids else ids in
  (read_sample_order w (PyStr p) is_sample_file
     = print_error_and_stop (msg_duplicates p)
   ↔ ∃ i j x, i < j ∧ ids !! i = Some x ∧ ids !! j = Some x)
  ∧ (¬ (∃ i j x, i < j ∧ ids !! i = Some x ∧ ids !! j = Some x) →
     read_sample_order w (PyStr p) is_sample_file = Ok ids).
Proof.
  intros Hfile ids0 ids. unfold read_sample_order, open_read. rewrite Hfile.
  cbn [mbind result_bind format_val].
  assert (Hids : map sample_id_of (Str.readlines text) = ids0).
  { subst ids0. apply map_ext. intros line. apply sample_id_of_first_two_tokens. }
  rewrite Hids. fold ids.
  fold (repeated ids). rewrite <- not_NoDup_repeated.
  pose proof (id_dict_NoDup ids) as Hdup.
  destruct (size (id_dict ids) =? length ids) eqn:Hsize; cbn [negb].
  - apply Nat.eqb_eq, Hdup in Hsize. split; [| done].
    split; [done | by intros []].
  - apply Nat.eqb_neq in Hsize. split.
    + split; [intros _ Hnd; by apply Hdup in Hnd | done].
    + intros Hnd. destruct (decide (NoDup ids)) as [Hyes | Hno]; [| done].
      by apply Hdup in Hyes.
Qed.

(** ** The options *)

Section options.

Variable c : cli.

Lemma options_sample_in :
  getattr (parse_options c) "sample_in" = Ok (opt_val (sample_in c)).
Proof. reflexivity. Qed.

Lemma options_model_sample :
  getattr (parse_options c) "model_sample" = Ok (opt_val (model_sample c)).
Proof. reflexivity. Qed.

Lemma options_order :
  getattr (parse_options c) "order" = Ok (opt_val (order c)).
Proof. reflexivity. Qed.

(** No option is stored under the name [new_order]. *)
Lemma options_new_order :
  getattr (parse_options c) "new_order" = Err (AttributeError "new_order").
Proof. reflexivity. Qed.

End options.

(** ** The index array *)

Section index_array.

Lemma set_keys_elem (k x v : nat) (d : list (nat * nat)) :
  x ∈ (PyDict.set k v d).*1 → x = k ∨ x ∈ d.*1.
Proof.
  induction d as [|[k' v'] d IH]; cbn.
  - intros ->%list_elem_of_singleton. by left.
  - case_decide as Hk; cbn.
    + subst k'. intros [-> | Hin]%elem_of_cons; [by left | right; by right].
    + intros [-> | Hin]%elem_of_cons; [right; by left |].
      destruct (IH Hin) as [-> | Hx]; [by left | right; by right].
Qed.

(** The keys of a dictionary are distinct. *)
Lemma set_keys_NoDup (k v : nat) (d : list (nat * nat)) :
  NoDup d.*1 → NoDup (PyDict.set k v d).*1.
Proof.
  induction d as [|[k' v'] d IH]; cbn.
  - intros _. apply NoDup_singleton.
  - intros [Hnin Hnd]%NoDup_cons. case_decide as Hk; cbn.
    + subst k'. by apply NoDup_cons.
    + apply NoDup_cons. split; [| by apply IH].
      intros [-> | Hin]%set_keys_elem; done.
Qed.

Lemma invert_keys_NoDup (items d : list (nat * nat)) :
  NoDup d.*1 →
  NoDup (foldl (λ d '(i_old, i_new), PyDict.set i_new i_old d) d items).*1.
Proof.
  revert d. induction items as [|[i_old i_new] items IH]; intros d Hd; [done |].
  cbn [foldl]. by apply IH, set_keys_NoDup.
Qed.

Lemma fill_index_array_ok (items : list (nat * nat)) :
  ∀ index_array index_array',
    fill_index_array items index_array = Ok index_array' →
    length index_array' = length index_array
    ∧ (∀ i, filled index_array i → filled index_array' i)
    ∧ (∀ k, k ∈ items.*1 → k < length index_array ∧ filled index_array' k).
Proof.
  induction items as [|[k v] items IH]; intros arr arr'.
  - intros [= <-]. split; [done |]. split; [done |].
    intros k Hk. by apply elem_of_nil in Hk.
  - cbn [fill_index_array]. unfold list_assign.
    destruct (k <? length arr) eqn:Hlt; [| done]. apply Nat.ltb_lt in Hlt.
    cbn [mbind result_bind]. intros Hfill.
    destruct (IH _ _ Hfill) as (Hlen & Hkeep & Hkeys).
    rewrite length_insert in Hlen, Hkeys.
    assert (Hstep : ∀ i, filled arr i → filled (<[k := Some v]> arr) i).
    { intros i [x Hx]. destruct (decide (i = k)) as [-> | Hne].
      - exists v. by apply list_lookup_insert_eq.
      - exists x. by rewrite list_lookup_insert_ne. }
    split; [done |]. split; [by auto |].
    intros k' [-> | Hin]%elem_of_cons.
    + split; [done |]. apply Hkeep. exists v. by apply list_lookup_insert_eq.
    + by apply Hkeys.
Qed.

Lemma mapM_id_filled (l : list (option nat)) :
  (∀ i, i < length l → filled l i) → ∃ k, mapM id l = Some k.
Proof.
  induction l as [|x l IH]; intros Hall; [by exists [] |].
  destruct (Hall 0) as [v Hv]; [cbn; lia |]. injection Hv as ->.
  destruct IH as [k Hk].
  { intros i Hi. destruct (Hall (S i)) as [v' Hv']; [cbn; lia |]. by exists v'. }
  exists (v :: k). cbn. by rewrite Hk.
Qed.

(** Distinct keys below [m], [m] of them, are all the positions below [m]. *)
Lemma keys_cover (keys : list nat) (m : nat) :
  NoDup keys → length keys = m → (∀ k, k ∈ keys → k < m) →
  ∀ i, i < m → i ∈ keys.
Proof.
  intros Hnd Hlen Hlt i Hi. apply list_elem_of_In.
  apply (@NoDup_length_incl nat keys (seq 0 m)).
  - by apply NoDup_ListNoDup.
  - rewrite length_seq. lia.
  - intros k Hk%list_elem_of_In. apply in_seq. specialize (Hlt k Hk). lia.
  - apply in_seq. lia.
Qed.

(** The index array is as long as the dictionary it is filled from, so
    filling it either runs out of the array or leaves no gap: the check
    for a gap never stops the program. *)
Lemma main_index_array_no_gap (old_to_new_index : list (nat * nat)) :
  main_index_array old_to_new_index ≠ print_error_and_stop msg_index_array.
Proof.
  unfold main_index_array.
  set (new_to_old_index := foldl _ [] old_to_new_index).
  assert (Hnd : NoDup new_to_old_index.*1).
  { apply invert_keys_NoDup. constructor. }
  destruct (fill_index_array new_to_old_index
              (replicate (length new_to_old_index) None)) as [arr | e] eqn:Hfill.
  - apply fill_index_array_ok in Hfill as (Hlen & _ & Hkeys).
    rewrite length_replicate in Hlen, Hkeys.
    destruct (mapM_id_filled arr) as [k Hk].
    { intros i Hi. rewrite Hlen in Hi. apply Hkeys.
      apply (keys_cover _ (length new_to_old_index)); try done.
      - by rewrite length_fmap.
      - intros k Hk. by apply Hkeys. }
    cbn [mbind result_bind]. by rewrite Hk.
  - cbn [mbind result_bind]. intros [= ->].
    clear -Hfill. revert Hfill.
    generalize (replicate (length new_to_old_index) (@None nat)).
    induction new_to_old_index as [|[k v] items IH]; intros arr; [done |].
    cbn [fill_index_array]. unfold list_assign.
    destruct (k <? length arr); [| done]. cbn [mbind result_bind]. apply IH.
Qed.

End index_array.

(** ** Resolution *)

Section resolution.

Variables (options : gmap string pyval) (fname : pyval).

(** An identifier the target order does not hold keeps what the dictionary
    said before. *)
Lemma new_sample_dict_from_absent (l : list string) :
  ∀ (i : nat) (d : gmap string nat) (x : string),
    x ∉ l → new_sample_dict_from i l d !! x = d !! x.
Proof.
  induction l as [|v l IH]; intros i d x Hx; [done |].
  apply not_elem_of_cons in Hx as [Hne Hx].
  cbn [new_sample_dict_from]. rewrite IH by done. by rewrite lookup_insert_ne.
Qed.

(** In a target order without duplicates every identifier has its position. *)
Lemma new_sample_dict_from_position (l : list string) :
  ∀ (i : nat) (d : gmap string nat) (k : nat) (x : string),
    NoDup l → l !! k = Some x → new_sample_dict_from i l d !! x = Some (i + k).
Proof.
  induction l as [|v l IH]; intros i d k x Hnd Hk; [done |].
  apply NoDup_cons in Hnd as [Hv Hnd]. cbn [new_sample_dict_from].
  destruct k as [|k].
  - injection Hk as ->. rewrite new_sample_dict_from_absent by done.
    rewrite lookup_insert_eq. by rewrite Nat.add_0_r.
  - rewrite (IH (S i) _ k x Hnd Hk). f_equal. lia.
Qed.

(** A position the dictionary gives is a position of that identifier. *)
Lemma new_sample_dict_from_sound (l : list string) :
  ∀ (i : nat) (d : gmap string nat) (x : string) (j : nat),
    new_sample_dict_from i l d !! x = Some j →
    (i ≤ j ∧ l !! (j - i) = Some x) ∨ d !! x = Some j.
Proof.
  induction l as [|v l IH]; intros i d x j Hj; [by right |].
  cbn [new_sample_dict_from] in Hj.
  destruct (IH _ _ _ _ Hj) as [[Hle Hl] | Hd].
  - left. split; [lia |]. by replace (j - i) with (S (j - S i)) by lia.
  - destruct (decide (v = x)) as [-> | Hne].
    + rewrite lookup_insert_eq in Hd. injection Hd as <-.
      left. split; [done |]. by rewrite Nat.sub_diag.
    + rewrite lookup_insert_ne in Hd by done. by right.
Qed.

Lemma new_sample_dict_sound (l : list string) (x : string) (j : nat) :
  new_sample_dict l !! x = Some j → l !! j = Some x.
Proof.
  intros [[_ Hl] | Hd]%new_sample_dict_from_sound.
  - by rewrite Nat.sub_0_r in Hl.
  - by rewrite lookup_empty in Hd.
Qed.

Lemma dict_get_set (k k' v : nat) (d : list (nat * nat)) :
  PyDict.get k (PyDict.set k' v d) = if decide (k = k') then Some v else PyDict.get k d.
Proof.
  induction d as [|[k0 v0] d IH]; cbn.
  - by repeat case_decide.
  - repeat (case_decide; cbn; subst); try done; congruence.
Qed.

Lemma dict_set_fresh (k v : nat) (d : list (nat * nat)) :
  k ∉ d.*1 → PyDict.set k v d = d ++ [(k, v)].
Proof.
  induction d as [|[k0 v0] d IH]; [done |]. cbn.
  intros [Hne Hk]%not_elem_of_cons. case_decide; [done |]. by rewrite IH.
Qed.

(** Every position the loop records is the position of an input sample in
    the target order. *)
Lemma old_to_new_loop_values (dict : gmap string nat) (l : list string) :
  ∀ (i : nat) (acc d : list (nat * nat)),
    old_to_new_loop options fname dict i l acc = Ok d →
    ∀ k v, PyDict.get k d = Some v →
           PyDict.get k acc = Some v ∨ ∃ x, x ∈ l ∧ dict !! x = Some v.
Proof.
  induction l as [|x0 l IH]; intros i acc d Hloop k v Hget.
  - injection Hloop as <-. by left.
  - cbn [old_to_new_loop] in Hloop.
    destruct (dict !! x0) as [i_new|] eqn:Hx0.
    + destruct (IH _ _ _ Hloop k v Hget) as [Hacc | (x & Hx & Hd)].
      * rewrite dict_get_set in Hacc. case_decide; [| by left].
        injection Hacc as ->. right. exists x0. split; [by left | done].
      * right. exists x. split; [by right | done].
    + destruct (getattr options "allow_subsetting") as [allow | e]; [| done].
      cbn [mbind result_bind] in Hloop. destruct (truthy allow); [| done].
      destruct (IH _ _ _ Hloop k v Hget) as [Hacc | (x & Hx & Hd)]; [by left |].
      right. exists x. split; [by right | done].
Qed.

Lemma identity_pairs_S (i n : nat) :
  identity_pairs i (S n) = identity_pairs i n ++ [(i + n, i + n)].
Proof. unfold identity_pairs. by rewrite seq_S, map_app. Qed.

Lemma identity_pairs_keys (i n : nat) : (identity_pairs i n).*1 = seq i n.
Proof.
  unfold identity_pairs. rewrite <- list_fmap_compose.
  induction (seq i n) as [|k l IH]; [done |]. cbn. by rewrite IH.
Qed.

Lemma identity_pairs_set (n : nat) :
  PyDict.set n n (identity_pairs 0 n) = identity_pairs 0 (S n).
Proof.
  rewrite identity_pairs_S. apply dict_set_fresh.
  rewrite identity_pairs_keys. intros Hin%list_elem_of_In%in_seq. lia.
Qed.

(** Resolving an order against itself pairs every position with itself. *)
Lemma old_to_new_loop_identity (dict : gmap string nat) (l : list string) :
  ∀ i : nat,
    (∀ k x, l !! k = Some x → dict !! x = Some (i + k)) →
    old_to_new_loop options fname dict i l (identity_pairs 0 i)
    = Ok (identity_pairs 0 (i + length l)).
Proof.
  induction l as [|x0 l IH]; intros i Hdict.
  - cbn. by rewrite Nat.add_0_r.
  - cbn [old_to_new_loop length].
    rewrite (Hdict 0 x0 eq_refl), Nat.add_0_r, identity_pairs_set.
    rewrite IH; [by replace (S i + length l) with (i + S (length l)) by lia |].
    intros k x Hk. rewrite (Hdict (S k) x Hk). f_equal. lia.
Qed.

Lemma invert_identity_pairs (n : nat) :
  ∀ i : nat,
    foldl (λ d '(i_old, i_new), PyDict.set i_new i_old d)
      (identity_pairs 0 i) (identity_pairs i n)
    = identity_pairs 0 (i + n).
Proof.
  induction n as [|n IH]; intros i.
  - cbn. by rewrite Nat.add_0_r.
  - unfold identity_pairs at 2. cbn [seq map foldl]. fold (identity_pairs (S i) n).
    rewrite identity_pairs_set, IH. f_equal. lia.
Qed.

Lemma fill_identity_pairs (n : nat) :
  ∀ i : nat,
    fill_index_array (identity_pairs i n) (map Some (seq 0 i) ++ replicate n None)
    = Ok (map Some (seq 0 (i + n))).
Proof.
  induction n as [|n IH]; intros i.
  - cbn. by rewrite app_nil_r, Nat.add_0_r.
  - unfold identity_pairs. cbn [seq map fill_index_array]. fold (identity_pairs (S i) n).
    unfold list_assign.
    assert (Hlen : length (map Some (seq 0 i)) = i) by by rewrite length_map, length_seq.
    rewrite length_app, Hlen. cbn [replicate length].
    replace (i <? i + S (length (replicate n (@None nat)))) with true
      by (symmetry; apply Nat.ltb_lt; lia).
    cbn [mbind result_bind].
    rewrite insert_app_r_alt by (rewrite Hlen; lia).
    rewrite Hlen, Nat.sub_diag. cbn [insert list_insert].
    replace (map Some (seq 0 i) ++ Some i :: replicate n None)
      with (map Some (seq 0 (S i)) ++ replicate n None)
      by (rewrite seq_S, map_app, <- app_assoc; done).
    rewrite IH. by replace (S i + n) with (i + S n) by lia.
Qed.

Lemma mapM_id_Some (l : list nat) : mapM id (map Some l) = Some l.
Proof. induction l as [|x l IH]; [done |]. cbn. by rewrite IH. Qed.

(** An order resolved against itself gives the identity index array. *)
Lemma resolve_identity (order : list string) :
  NoDup order →
  main_old_to_new options fname order order ≫= main_index_array
  = Ok (seq 0 (length order)).
Proof.
  intros Hnd. unfold main_old_to_new.
  rewrite (old_to_new_loop_identity _ order 0).
  - cbn [mbind result_bind Nat.add]. unfold main_index_array.
    rewrite (invert_identity_pairs _ 0). cbn [Nat.add].
    assert (Hlen : length (identity_pairs 0 (length order)) = length order)
      by (unfold identity_pairs; by rewrite length_map, length_seq).
    rewrite Hlen.
    pose proof (fill_identity_pairs (length order) 0) as Hfill.
    cbn [seq map app Nat.add] in Hfill. rewrite Hfill.
    cbn [mbind result_bind]. by rewrite mapM_id_Some.
  - intros k x Hk. by apply new_sample_dict_from_position.
Qed.

End resolution.

(** ** The new sample file *)

Section sample_file.

Lemma strip_items_none (l : list (option string)) :
  None ∈ l → strip_items l = Err (AttributeError "strip").
Proof.
  induction l as [|i l IH]; intros Hin; [by apply elem_of_nil in Hin |].
  destruct i as [line|]; [| done].
  apply elem_of_cons in Hin as [Hin | Hin]; [done |].
  cbn. by rewrite IH.
Qed.

(** The lines are placed at recorded positions only: a position that is
    not recorded stays [None]. *)
Lemma place_lines_none (d : list (nat * nat)) (j : nat) (old_lines : list string) :
  (∀ k v, PyDict.get k d = Some v → v ≠ j) →
  ∀ (i_old : nat) (new_lines res : list (option string)),
    place_lines d i_old old_lines new_lines = Ok res →
    new_lines !! j = Some None → res !! j = Some None.
Proof.
  intros Hd. induction old_lines as [|l old_lines IH]; intros i_old new_lines res.
  - by intros [= <-].
  - cbn [place_lines]. destruct (PyDict.get i_old d) as [i_new|] eqn:Hget; [| apply IH].
    unfold list_assign. destruct (i_new <? length new_lines); [| done].
    cbn [mbind result_bind]. intros Hplace Hj. apply (IH _ _ _ Hplace).
    rewrite list_lookup_insert_ne; [done |]. by apply (Hd i_old).
Qed.

(** With recorded positions inside the new list, placing the lines raises
    nothing. *)
Lemma place_lines_ok (d : list (nat * nat)) (old_lines : list string) :
  ∀ (i_old : nat) (new_lines : list (option string)),
    (∀ k v, PyDict.get k d = Some v → v < length new_lines) →
    ∃ res, place_lines d i_old old_lines new_lines = Ok res.
Proof.
  induction old_lines as [|l old_lines IH]; intros i_old new_lines Hd; [by eexists |].
  cbn [place_lines]. destruct (PyDict.get i_old d) as [i_new|] eqn:Hget; [| by apply IH].
  unfold list_assign. pose proof (Hd _ _ Hget) as Hlt.
  apply Nat.ltb_lt in Hlt. rewrite Hlt. cbn [mbind result_bind].
  apply IH. intros k v Hk. rewrite length_insert. by apply (Hd k).
Qed.

(** A target order with an identifier that no input sample bears: the new
    sample file cannot be written. *)
Lemma main_write_sample_missing (options : gmap string pyval) (w : world)
    (new_sample_order : list string) (d : list (nat * nat))
    (out p text : string) (j : nat) :
  getattr options "sample_out" = Ok (PyStr out) →
  getattr options "sample_in" = Ok (PyStr p) →
  files (open_write w out) !! p = Some text →
  j < length new_sample_order →
  (∀ k v, PyDict.get k d = Some v → v < length new_sample_order ∧ v ≠ j) →
  main_write_sample options w new_sample_order d
  = (open_write w out, Err (AttributeError "strip")).
Proof.
  intros Hout Hin Hfile Hj Hd. unfold main_write_sample.
  rewrite Hout, Hin. cbn [format_val mbind result_bind]. unfold open_read.
  rewrite Hfile. cbn [mbind result_bind].
  destruct (place_lines_ok d (drop 2 (Str.readlines text)) 0
              (replicate (length new_sample_order) None)) as [res Hres].
  { intros k v Hk. rewrite length_replicate. by apply (Hd k). }
  rewrite Hres. cbn [mbind result_bind].
  rewrite strip_items_none; [done |].
  apply elem_of_app. right. apply list_elem_of_lookup. exists j.
  apply (place_lines_none d j _ (λ k v Hk, proj2 (Hd k v Hk)) _ _ _ Hres).
  by apply lookup_replicate_2.
Qed.

Lemma read_sample_order_file (w : world) (fname : pyval) (is_sample_file : bool)
    (ids : list string) :
  read_sample_order w fname is_sample_file = Ok ids →
  ∃ p text, fname = PyStr p ∧ files w !! p = Some text.
Proof.
  unfold read_sample_order, open_read.
  destruct fname as [|p|b]; [done | | done].
  destruct (files w !! p) as [text|] eqn:Hfile; [| done]. intros _. by exists p, text.
Qed.

Lemma main_orders_sample_in (c : cli) (w : world)
    (r : list string * list string * pyval) :
  main_orders (parse_options c) w = Ok r →
  ∃ p text, sample_in c = Some p ∧ files w !! p = Some text.
Proof.
  unfold main_orders. rewrite options_sample_in. cbn [mbind result_bind].
  destruct (read_sample_order w (opt_val (sample_in c)) true) as [ids|e] eqn:Hread;
    [| done].
  intros _. apply read_sample_order_file in Hread as (p & text & Hp & Hfile).
  exists p, text. split; [| done]. by destruct (sample_in c) as [q|]; simplify_eq/=.
Qed.

End sample_file.

(** ** Resolution and the scenarios of the specification *)

(** C1.  With the input order [a, b, c] and the target order [c, a, b]
    every input sample is found, whatever the subsetting option says (so
    also when subsetting is not allowed): the old-to-new dictionary is
    0 to 1, 1 to 2, 2 to 0, and the index array is [2; 0; 1], which sends
    the new positions 0, 1, 2 to the old positions 2, 0, 1.  A line of five
    descriptor columns [d] and the three triplets [ta], [tb], [tc] is
    written as [d], then [tc], then [ta], then [tb]. *)
Theorem scenario_reorder_cab (a b c : string) (options : gmap string pyval)
    (fname : pyval) (op line : string) (d ta tb tc : list string) :
  a ≠ b → a ≠ c → b ≠ c →
  row_tokens line = d ++ ta ++ tb ++ tc →
  length d = 5 → length ta = 3 → length tb = 3 → length tc = 3 →
  Forall plain (row_tokens line) →
  main_old_to_new options fname [a; b; c] [c; a; b] = Ok [(0, 1); (1, 2); (2, 0)]
  ∧ main_index_array [(0, 1); (1, 2); (2, 0)] = Ok [2; 0; 1]
  ∧ _write_lines op [line] 3 [2; 0; 1]
    = (op +:+ Str.join " " (d ++ tc ++ ta ++ tb) +:+ Str.nl, Ok 1).
Proof.
  intros Hab Hac Hbc Htok Hd Hta Htb Htc Hplain.
  split; [| split; [reflexivity |]].
  - unfold main_old_to_new, new_sample_dict. cbn [new_sample_dict_from].
    set (dict := <[b := 2]> (<[a := 1]> (<[c := 0]> ∅)) : gmap string nat).
    assert (Ha : dict !! a = Some 1).
    { subst dict. rewrite lookup_insert_ne by done. apply lookup_insert_eq. }
    assert (Hb : dict !! b = Some 2) by apply lookup_insert_eq.
    assert (Hc : dict !! c = Some 0).
    { subst dict. rewrite !lookup_insert_ne by done. apply lookup_insert_eq. }
    cbn [old_to_new_loop]. rewrite Ha, Hb, Hc. reflexivity.
  - assert (Hw : width_is 14 [line]).
    { constructor; [| constructor]. rewrite Htok, !length_app. lia. }
    rewrite (write_lines_pass 14) by done.
    unfold output_rows, gen_array. cbn [map length]. fold (row_tokens line).
    rewrite (map_plain _ Hplain), Htok.
    destruct d as [|d1 [|d2 [|d3 [|d4 [|d5 [|]]]]]]; try discriminate.
    destruct ta as [|a1 [|a2 [|a3 [|]]]]; try discriminate.
    destruct tb as [|b1 [|b2 [|b3 [|]]]]; try discriminate.
    destruct tc as [|c1 [|c2 [|c3 [|]]]]; try discriminate.
    cbn [app length]. unfold reorder_row. cbn.
    by rewrite str_app_nil_r.
Qed.

(** C3.  The identity permutation leaves the data as it is.  An order
    resolved against itself (target order equal to input order) gives the
    index array 0, 1, ..., and a batch of well-formed rows (one width,
    three columns per input sample after the descriptors, no column that
    ends in a NUL character) written with that index array comes out as it
    went in: every output row is the input line without its line end, so
    every descriptor column and every genotype value is unchanged. *)
Theorem identity_reorder_unchanged (n n_samples : nat) (op : string)
    (lines : list string) :
  lines ≠ [] →
  width_is n lines →
  n_genotype_cols n = 3 * n_samples →
  Forall (λ line, Forall plain (row_tokens line)) lines →
  (∀ options fname order,
     NoDup order → length order = n_samples →
     main_old_to_new options fname order order ≫= main_index_array
     = Ok (seq 0 n_samples))
  ∧ _write_lines op lines n_samples (seq 0 n_samples)
    = (op +:+ rows_text (map Str.strip lines), Ok (length lines))
  ∧ output_rows n_samples (seq 0 n_samples) lines = map Str.strip lines
  ∧ map (Str.split_on " ") (output_rows n_samples (seq 0 n_samples) lines)
    = map row_tokens lines.
Proof.
  intros Hne Hw Hg Hplain.
  pose proof (output_rows_identity n n_samples lines Hw Hg Hplain) as Hrows.
  split; [| split; [| split; [done |]]].
  - intros options fname order Hnd <-. by apply resolve_identity.
  - rewrite (write_lines_pass n); [by rewrite Hrows | | done | done].
    unfold batch_checks. rewrite Hg, Nat.eqb_refl. apply forallb_seq_lt.
  - rewrite Hrows, map_map. done.
Qed.

(** C5.  Code defect: without a model sample file the program asks the
    options for [new_order], a name under which [parse_options] stores
    nothing (the order file is stored as [order]); once the input sample
    file has been read, the run ends in an AttributeError and the order
    file is never read. *)
Theorem order_option_attribute_error (c : cli) (w : world) (ids : list string) :
  model_sample c = None →
  read_sample_order w (opt_val (sample_in c)) true = Ok ids →
  getattr (parse_options c) "order" = Ok (opt_val (order c))
  ∧ main_orders (parse_options c) w = Err (AttributeError "new_order")
  ∧ main c w = (w, Err (AttributeError "new_order")).
Proof.
  intros Hnone Hread. split; [apply options_order |].
  assert (Horders : main_orders (parse_options c) w = Err (AttributeError "new_order")).
  { unfold main_orders. rewrite options_sample_in. cbn [mbind result_bind].
    rewrite Hread, options_model_sample, Hnone. cbn [opt_val].
    by rewrite options_new_order. }
  split; [done |]. unfold main. by rewrite Horders.
Qed.

(** C4.  Code defect: when the target order holds an identifier [x] that
    no input sample bears, the run does not stop on the index-array
    message.  Whether subsetting is allowed or not, once the two orders are
    read and the input samples are looked up, the run ends in an
    AttributeError while it writes the new sample file, whose line for [x]
    is [None]; the file is left empty and no genotype line is written.  And
    building the index array from the dictionary would not stop on its
    message either. *)
Theorem missing_input_sample_crash (c : cli) (w : world)
    (input_sample_order new_sample_order : list string) (fname : pyval)
    (old_to_new_index : list (nat * nat)) (x out : string) :
  main_orders (parse_options c) w
    = Ok (input_sample_order, new_sample_order, fname) →
  main_old_to_new (parse_options c) fname input_sample_order new_sample_order
    = Ok old_to_new_index →
  x ∈ new_sample_order →
  x ∉ input_sample_order →
  sample_out c = Some out →
  main c w = (open_write w out, Err (AttributeError "strip"))
  ∧ main_index_array old_to_new_index ≠ print_error_and_stop msg_index_array.
Proof.
  intros Horders Hres Hx Hnx Hout.
  split; [| apply main_index_array_no_gap].
  destruct (main_orders_sample_in _ _ _ Horders) as (p & text & Hp & Hfile).
  apply list_elem_of_lookup in Hx as [j Hj].
  assert (Hvalues : ∀ k v, PyDict.get k old_to_new_index = Some v →
                           v < length new_sample_order ∧ v ≠ j).
  { intros k v Hk.
    destruct (old_to_new_loop_values _ _ _ _ _ _ _ Hres k v Hk) as [Hnil | (y & Hy & Hd)];
      [done |].
    apply new_sample_dict_sound in Hd.
    split; [by eapply lookup_lt_Some |].
    intros ->. rewrite Hj in Hd. by injection Hd as ->. }
  unfold main. rewrite Horders, Hres.
  rewrite (main_write_sample_missing _ w new_sample_order old_to_new_index out p
             (if decide (out = p) then EmptyString else text) j); try done.
  - unfold getattr, parse_options. by rewrite Hout.
  - rewrite options_sample_in. by rewrite Hp.
  - unfold open_write. cbn [files]. rewrite lookup_insert. by case_decide.
  - by eapply lookup_lt_Some.
Qed.

(** The run of the scenario with the orders A, B, C and C, A, B, from the
    sample files to the genotype line on the standard output. *)
Lemma main_scenario_cab :
  stdout (main (cli_model "model.sample" false) world_abc).1
    = "rsX 1 2 3 4 0.5 0.3 0.2 0.1 0.2 0.7 0.3 0.3 0.4" +:+ Str.nl
  ∧ files (main (cli_model "model.sample" false) world_abc).1 !! "out.sample"
    = Some (sample_text ["C C 0"; "A A 0"; "B B 0"])
  ∧ (main (cli_model "model.sample" false) world_abc).2
    = Ok (msg_wrote 3 1 "out.sample" "STDOUT" +:+ msg_finish).
Proof. by vm_compute. Qed.

(** ** The theorems at concrete inputs *)

Ltac by_evaluation :=
  repeat first
    [ progress (vm_compute; try reflexivity; try discriminate)
    | constructor ].

(** [write_output_batching] on seven rows of 14 columns, in batches of two. *)
Lemma write_output_batching_witness :
  width_is 14 seven_rows
  ∧ write_output_with 2 seven_rows EmptyString 3 [2; 0; 1]
    = write_output_with 0 seven_rows EmptyString 3 [2; 0; 1]
  ∧ (seven_rows ≠ [] →
     write_output seven_rows EmptyString 3 [2; 0; 1]
     = _write_lines EmptyString seven_rows 3 [2; 0; 1])
  ∧ (n_genotype_cols 14 = 3 * 3 →
     Forall (λ j, j < 3) [2; 0; 1] →
     write_output seven_rows EmptyString 3 [2; 0; 1]
     = (EmptyString +:+ rows_text (output_rows 3 [2; 0; 1] seven_rows),
        Ok (length seven_rows))
     ∧ (seven_rows ≠ [] →
        _write_lines EmptyString seven_rows 3 [2; 0; 1]
        = (EmptyString +:+ rows_text (output_rows 3 [2; 0; 1] seven_rows),
           Ok (length seven_rows)))).
Proof.
  assert (H1 : width_is 14 seven_rows) by (unfold width_is; by_evaluation).
  split; [exact H1 |].
  exact (write_output_batching 2 0 14 3 [2; 0; 1] seven_rows EmptyString H1).
Defined.

(** [identity_reorder_unchanged] on a batch of two rows of three samples. *)
Lemma identity_reorder_unchanged_witness :
  (two_rows ≠ [] ∧ width_is 14 two_rows ∧ n_genotype_cols 14 = 3 * 3
   ∧ Forall (λ line, Forall plain (row_tokens line)) two_rows)
  ∧ (∀ options fname order,
       NoDup order → length order = 3 →
       main_old_to_new options fname order order ≫= main_index_array = Ok (seq 0 3))
  ∧ _write_lines EmptyString two_rows 3 (seq 0 3)
    = (EmptyString +:+ rows_text (map Str.strip two_rows), Ok (length two_rows))
  ∧ output_rows 3 (seq 0 3) two_rows = map Str.strip two_rows
  ∧ map (Str.split_on " ") (output_rows 3 (seq 0 3) two_rows) = map row_tokens two_rows.
Proof.
  assert (H1 : two_rows ≠ []) by done.
  assert (H2 : width_is 14 two_rows) by (unfold width_is; by_evaluation).
  assert (H3 : n_genotype_cols 14 = 3 * 3) by reflexivity.
  assert (H4 : Forall (λ line, Forall plain (row_tokens line)) two_rows)
    by (unfold plain; by_evaluation).
  split; [exact (conj H1 (conj H2 (conj H3 H4))) |].
  exact (identity_reorder_unchanged 14 3 EmptyString two_rows H1 H2 H3 H4).
Defined.


(** [genotype_count_mismatch_type_error] on a row of one sample with two
    genotype columns. *)
Lemma genotype_count_mismatch_type_error_witness :
  ([short_row] ≠ [] ∧ width_is 7 [short_row] ∧ n_genotype_cols 7 ≠ 3 * 1)
  ∧ read_gen_lines [short_row] 1 = Err TypeError
  ∧ (∀ snp k, read_gen_lines [short_row] 1
              ≠ print_error_and_stop (msg_genotype_count snp k))
  ∧ (∀ op index_array, _write_lines op [short_row] 1 index_array = (op, Err TypeError)).
Proof.
  assert (H1 : [short_row] ≠ []) by done.
  assert (H2 : width_is 7 [short_row]) by (unfold width_is; by_evaluation).
  assert (H3 : n_genotype_cols 7 ≠ 3 * 1) by (vm_compute; lia).
  split; [exact (conj H1 (conj H2 H3)) |].
  exact (genotype_count_mismatch_type_error 7 1 [short_row] H1 H2 H3).
Defined.

(** [read_sample_order_duplicates] on a sample file whose lines differ but
    list the sample A twice, and on a sample file without a repetition. *)
Lemma read_sample_order_duplicates_witness :
  (files world_dup !! "in.sample" = Some (sample_text ["A A 0"; "B B 0"; "A A 1"])
   ∧ files world_abc !! "in.sample" = Some (sample_text ["A A 0"; "B B 0"; "C C 0"]))
  ∧ drop 2 (map (λ line, Str.join " " (take 2 (Str.split line)))
              (Str.readlines (sample_text ["A A 0"; "B B 0"; "A A 1"])))
    = ["A A"; "B B"; "A A"]
  ∧ read_sample_order world_dup (PyStr "in.sample") true
    = print_error_and_stop (msg_duplicates "in.sample")
  ∧ read_sample_order world_abc (PyStr "in.sample") true = Ok ["A A"; "B B"; "C C"].
Proof.
  assert (H1 : files world_dup !! "in.sample"
               = Some (sample_text ["A A 0"; "B B 0"; "A A 1"])) by reflexivity.
  assert (H2 : files world_abc !! "in.sample"
               = Some (sample_text ["A A 0"; "B B 0"; "C C 0"])) by reflexivity.
  split; [exact (conj H1 H2) |].
  split; [vm_compute; reflexivity |].
  split.
  - apply (proj1 (read_sample_order_duplicates world_dup "in.sample" _ true H1)).
    exists 0, 2, "A A". split; [lia |]. split; vm_compute; reflexivity.
  - rewrite (proj2 (read_sample_order_duplicates world_abc "in.sample" _ true H2)).
    + vm_compute. reflexivity.
    + intros Hrep. apply not_NoDup_repeated in Hrep. apply Hrep.
      apply (bool_decide_unpack _). vm_compute. exact I.
Defined.

(** [scenario_reorder_cab] on the samples A, B, C and the row of the
    specification. *)
Lemma scenario_reorder_cab_witness :
  ("A A" ≠ "B B" ∧ "A A" ≠ "C C" ∧ "B B" ≠ "C C"
   ∧ row_tokens row14
     = ["rsX"; "1"; "2"; "3"; "4"] ++ ["0.1"; "0.2"; "0.7"] ++ ["0.3"; "0.3"; "0.4"]
       ++ ["0.5"; "0.3"; "0.2"]
   ∧ Forall plain (row_tokens row14))
  ∧ main_old_to_new (parse_options (cli_model "model.sample" false)) (PyStr "model.sample")
      ["A A"; "B B"; "C C"] ["C C"; "A A"; "B B"]
    = Ok [(0, 1); (1, 2); (2, 0)]
  ∧ main_index_array [(0, 1); (1, 2); (2, 0)] = Ok [2; 0; 1]
  ∧ _write_lines EmptyString [row14] 3 [2; 0; 1]
    = (EmptyString
       +:+ Str.join " " (["rsX"; "1"; "2"; "3"; "4"] ++ ["0.5"; "0.3"; "0.2"]
                         ++ ["0.1"; "0.2"; "0.7"] ++ ["0.3"; "0.3"; "0.4"])
       +:+ Str.nl,
       Ok 1).
Proof.
  assert (Hab : "A A" ≠ "B B") by done.
  assert (Hac : "A A" ≠ "C C") by done.
  assert (Hbc : "B B" ≠ "C C") by done.
  assert (Htok : row_tokens row14
                 = ["rsX"; "1"; "2"; "3"; "4"] ++ ["0.1"; "0.2"; "0.7"]
                   ++ ["0.3"; "0.3"; "0.4"] ++ ["0.5"; "0.3"; "0.2"]) by reflexivity.
  assert (Hplain : Forall plain (row_tokens row14)) by (unfold plain; by_evaluation).
  split; [exact (conj Hab (conj Hac (conj Hbc (conj Htok Hplain)))) |].
  exact (scenario_reorder_cab "A A" "B B" "C C" _ _ EmptyString row14 _ _ _ _
           Hab Hac Hbc Htok eq_refl eq_refl eq_refl eq_refl Hplain).
Defined.

(** [order_option_attribute_error] on a run that names an order file. *)
Lemma order_option_attribute_error_witness :
  (model_sample (cli_order "order.txt" false) = None
   ∧ read_sample_order world_abc (opt_val (sample_in (cli_order "order.txt" false))) true
     = Ok ["A A"; "B B"; "C C"])
  ∧ getattr (parse_options (cli_order "order.txt" false)) "order" = Ok (PyStr "order.txt")
  ∧ main_orders (parse_options (cli_order "order.txt" false)) world_abc
    = Err (AttributeError "new_order")
  ∧ main (cli_order "order.txt" false) world_abc
    = (world_abc, Err (AttributeError "new_order")).
Proof.
  assert (H1 : model_sample (cli_order "order.txt" false) = None) by reflexivity.
  assert (H2 : read_sample_order world_abc
                 (opt_val (sample_in (cli_order "order.txt" false))) true
               = Ok ["A A"; "B B"; "C C"]) by (vm_compute; reflexivity).
  split; [exact (conj H1 H2) |].
  exact (order_option_attribute_error (cli_order "order.txt" false) world_abc _ H1 H2).
Defined.

(** [width_failure_per_batch] on a batch whose second row is short. *)
Lemma width_failure_per_batch_witness :
  ragged ragged_rows
  ∧ read_gen_lines ragged_rows 3 = print_error_and_stop msg_not_constant.
Proof.
  assert (H1 : ragged ragged_rows).
  { exists short_row. split; [by_evaluation | vm_compute; lia]. }
  split; [exact H1 |].
  exact (proj2 (proj1 width_failure_per_batch ragged_rows 3) H1).
Defined.

(** [missing_input_sample_crash] on the samples A, B and the target A, B, D,
    with subsetting allowed. *)
Lemma missing_input_sample_crash_witness :
  (main_orders (parse_options (cli_model "model.sample" true)) world_abd
     = Ok (["A A"; "B B"], ["A A"; "B B"; "D D"], PyStr "model.sample")
   ∧ main_old_to_new (parse_options (cli_model "model.sample" true))
       (PyStr "model.sample") ["A A"; "B B"] ["A A"; "B B"; "D D"]
     = Ok [(0, 0); (1, 1)]
   ∧ ("D D" ∈ ["A A"; "B B"; "D D"])
   ∧ ("D D" ∉ ["A A"; "B B"])
   ∧ sample_out (cli_model "model.sample" true) = Some "out.sample")
  ∧ main (cli_model "model.sample" true) world_abd
    = (open_write world_abd "out.sample", Err (AttributeError "strip"))
  ∧ main_index_array [(0, 0); (1, 1)] ≠ print_error_and_stop msg_index_array.
Proof.
  assert (H1 : main_orders (parse_options (cli_model "model.sample" true)) world_abd
               = Ok (["A A"; "B B"], ["A A"; "B B"; "D D"], PyStr "model.sample"))
    by (vm_compute; reflexivity).
  assert (H2 : main_old_to_new (parse_options (cli_model "model.sample" true))
                 (PyStr "model.sample") ["A A"; "B B"] ["A A"; "B B"; "D D"]
               = Ok [(0, 0); (1, 1)])
    by (vm_compute; reflexivity).
  assert (H3 : "D D" ∈ ["A A"; "B B"; "D D"]) by (do 2 right; left).
  assert (H4 : "D D" ∉ ["A A"; "B B"]).
  { intros Hin%list_elem_of_In. cbn in Hin. by destruct Hin as [? | [? | []]]. }
  assert (H5 : sample_out (cli_model "model.sample" true) = Some "out.sample")
    by reflexivity.
  split; [exact (conj H1 (conj H2 (conj H3 (conj H4 H5)))) |].
  exact (missing_input_sample_crash _ _ _ _ _ _ _ _ H1 H2 H3 H4 H5).
Defined.

(** * Further properties of the program *)

(** ** What the resolution records *)

Section resolution_records.

Variables (options : gmap string pyval) (fname : pyval).

(** The dictionary of the target order knows exactly its identifiers. *)
Lemma new_sample_dict_from_known (l : list string) :
  ∀ (i : nat) (d : gmap string nat) (x : string),
    x ∈ l ∨ is_Some (d !! x) → is_Some (new_sample_dict_from i l d !! x).
Proof.
  induction l as [|v l IH]; intros i d x Hx.
  - destruct Hx as [Hx | Hx]; [by apply elem_of_nil in Hx | done].
  - cbn [new_sample_dict_from]. apply IH.
    destruct Hx as [[-> | Hx]%elem_of_cons | Hx].
    + right. rewrite lookup_insert_eq. by eexists.
    + by left.
    + right. destruct (decide (v = x)) as [-> | Hne].
      * rewrite lookup_insert_eq. by eexists.
      * by rewrite lookup_insert_ne.
Qed.

Lemma new_sample_dict_known (l : list string) (x : string) :
  x ∈ l ↔ is_Some (new_sample_dict l !! x).
Proof.
  split.
  - intros Hx. apply new_sample_dict_from_known. by left.
  - intros [j Hj]. apply new_sample_dict_sound in Hj.
    apply list_elem_of_lookup. by exists j.
Qed.

Lemma new_sample_dict_position (l : list string) (x : string) (j : nat) :
  NoDup l → (new_sample_dict l !! x = Some j ↔ l !! j = Some x).
Proof.
  intros Hnd. split; [apply new_sample_dict_sound |].
  intros Hj. by apply (new_sample_dict_from_position l 0 ∅ j x Hnd).
Qed.

(** The loop records, for the positions it has gone through, the target
    position of every input sample the target order knows, and nothing
    else. *)
Lemma old_to_new_loop_spec (dict : gmap string nat) (l : list string) :
  ∀ (i : nat) (acc d : list (nat * nat)),
    (∀ k, is_Some (PyDict.get k acc) → k < i) →
    old_to_new_loop options fname dict i l acc = Ok d →
    ∀ k v, PyDict.get k d = Some v ↔
           PyDict.get k acc = Some v
           ∨ (i ≤ k ∧ ∃ x, l !! (k - i) = Some x ∧ dict !! x = Some v).
Proof.
  induction l as [|x0 l IH]; intros i acc d Hacc Hloop k v.
  - injection Hloop as <-. split; [by left |].
    intros [Hk | (_ & x & Hx & _)]; done.
  - cbn [old_to_new_loop] in Hloop.
    assert (Hshift : ∀ u, (i ≤ k ∧ ∃ x, (x0 :: l) !! (k - i) = Some x ∧ dict !! x = Some u)
                          ↔ (k = i ∧ dict !! x0 = Some u)
                            ∨ (S i ≤ k ∧ ∃ x, l !! (k - S i) = Some x ∧ dict !! x = Some u)).
    { intros u. split.
      - intros (Hle & x & Hx & Hd).
        destruct (decide (k = i)) as [-> | Hne].
        + rewrite Nat.sub_diag in Hx. injection Hx as ->. by left.
        + right. split; [lia |]. exists x. split; [| done].
          by replace (k - i) with (S (k - S i)) in Hx by lia.
      - intros [[-> Hd] | (Hle & x & Hx & Hd)].
        + split; [done |]. exists x0. by rewrite Nat.sub_diag.
        + split; [lia |]. exists x. split; [| done].
          by replace (k - i) with (S (k - S i)) by lia. }
    rewrite Hshift. clear Hshift.
    destruct (dict !! x0) as [i_new|] eqn:Hx0.
    + assert (Hacc' : ∀ k', is_Some (PyDict.get k' (PyDict.set i i_new acc)) → k' < S i).
      { intros k' Hk'. rewrite dict_get_set in Hk'. case_decide; [lia |].
        specialize (Hacc k' Hk'). lia. }
      rewrite (IH _ _ _ Hacc' Hloop).
      rewrite dict_get_set. case_decide as Hk.
      * subst k. split.
        -- intros [Hv | (Hle & _)]; [right; left; by split | lia].
        -- intros [Hv | [[_ Hv] | (Hle & _)]]; [| by left | lia].
           assert (i < i) by (apply Hacc; by eexists). lia.
      * split.
        -- intros [Hv | Hr]; [by left | right; by right].
        -- intros [Hv | [[-> _] | Hr]]; [by left | done | by right].
    + destruct (getattr options "allow_subsetting") as [allow | e]; [| done].
      cbn [mbind result_bind] in Hloop. destruct (truthy allow); [| done].
      assert (Hacc' : ∀ k', is_Some (PyDict.get k' acc) → k' < S i).
      { intros k' Hk'. specialize (Hacc k' Hk'). lia. }
      rewrite (IH _ _ _ Hacc' Hloop).
      split.
      * intros [Hv | Hr]; [by left | right; by right].
      * intros [Hv | [[_ Hv] | Hr]]; [by left | done | by right].
Qed.

Lemma old_to_new_keys_NoDup (dict : gmap string nat) (l : list string) :
  ∀ (i : nat) (acc d : list (nat * nat)),
    NoDup acc.*1 →
    old_to_new_loop options fname dict i l acc = Ok d → NoDup d.*1.
Proof.
  induction l as [|x0 l IH]; intros i acc d Hacc Hloop.
  - by injection Hloop as <-.
  - cbn [old_to_new_loop] in Hloop. destruct (dict !! x0) as [i_new|].
    + apply (IH _ _ _ (set_keys_NoDup i i_new acc Hacc) Hloop).
    + destruct (getattr options "allow_subsetting") as [allow | e]; [| done].
      cbn [mbind result_bind] in Hloop. destruct (truthy allow); [| done].
      by apply (IH _ _ _ Hacc Hloop).
Qed.

(** The loop stops at the first input sample the target order does not
    know, unless the option lets it pass. *)
Lemma old_to_new_loop_unmatched (dict : gmap string nat) (pre post : list string)
    (x : string) :
  getattr options "allow_subsetting" = Ok (PyBool false) →
  Forall (λ y, is_Some (dict !! y)) pre →
  dict !! x = None →
  ∀ (i : nat) (acc : list (nat * nat)),
    old_to_new_loop options fname dict i (pre ++ x :: post) acc
    = print_error_and_stop (msg_not_listed x (format_val fname)).
Proof.
  intros Hallow Hpre Hx. induction Hpre as [|y pre [j Hy] _ IH]; intros i acc.
  - cbn [app old_to_new_loop]. by rewrite Hx, Hallow.
  - cbn [app old_to_new_loop]. rewrite Hy. apply IH.
Qed.

Lemma old_to_new_loop_total (dict : gmap string nat) (l : list string) :
  (∃ b, getattr options "allow_subsetting" = Ok (PyBool b)
        ∧ (b = true ∨ Forall (λ y, is_Some (dict !! y)) l)) →
  ∀ (i : nat) (acc : list (nat * nat)),
    ∃ d, old_to_new_loop options fname dict i l acc = Ok d.
Proof.
  intros (b & Hallow & Hb). induction l as [|x0 l IH]; intros i acc; [by eexists |].
  cbn [old_to_new_loop]. destruct (dict !! x0) as [i_new|] eqn:Hx0.
  - apply IH. destruct Hb as [-> | Hall]; [by left | right].
    by apply Forall_cons in Hall as [_ ?].
  - rewrite Hallow. cbn [mbind result_bind truthy].
    destruct Hb as [-> | Hall].
    + apply IH. by left.
    + apply Forall_cons in Hall as [[j Hj] _]. congruence.
Qed.

End resolution_records.

(** ** What the index array holds *)

Section index_array_contents.

Lemma dict_set_elem (k v a b : nat) (d : list (nat * nat)) :
  (a, b) ∈ PyDict.set k v d → (a, b) = (k, v) ∨ (a, b) ∈ d.
Proof.
  induction d as [|[k0 v0] d IH]; cbn.
  - intros ->%list_elem_of_singleton. by left.
  - case_decide.
    + intros [-> | Hin]%elem_of_cons; [by left | right; by right].
    + intros [-> | Hin]%elem_of_cons; [right; by left |].
      destruct (IH Hin) as [-> | Hd]; [by left | right; by right].
Qed.

Lemma dict_set_keys (k v x : nat) (d : list (nat * nat)) :
  x = k ∨ x ∈ d.*1 → x ∈ (PyDict.set k v d).*1.
Proof.
  induction d as [|[k0 v0] d IH]; cbn.
  - intros [-> | Hx]; [by left | by apply elem_of_nil in Hx].
  - case_decide; cbn.
    + subst k0. intros [-> | [-> | Hx]%elem_of_cons]; [by left | by left | by right].
    + intros [-> | [-> | Hx]%elem_of_cons].
      * right. apply IH. by left.
      * by left.
      * right. apply IH. by right.
Qed.

Lemma dict_get_elem (k v : nat) (d : list (nat * nat)) :
  PyDict.get k d = Some v → (k, v) ∈ d.
Proof.
  induction d as [|[k0 v0] d IH]; cbn; [done |].
  case_decide; [intros [= <-]; subst; by left | intros Hd; right; by apply IH].
Qed.

Lemma dict_elem_get (k v : nat) (d : list (nat * nat)) :
  NoDup d.*1 → (k, v) ∈ d → PyDict.get k d = Some v.
Proof.
  induction d as [|[k0 v0] d IH]; cbn; [by intros _ ?%elem_of_nil |].
  intros [Hk0 Hnd]%NoDup_cons [[= -> ->] | Hin]%elem_of_cons.
  - by case_decide.
  - case_decide; [| by apply IH]. subst k0. exfalso. apply Hk0.
    apply list_elem_of_fmap. by exists (k, v).
Qed.

(** The inverted dictionary holds inverted items only, and a key for every
    recorded position. *)
Lemma invert_elem (d : list (nat * nat)) :
  ∀ (acc : list (nat * nat)) (j i : nat),
    (j, i) ∈ foldl (λ d '(i_old, i_new), PyDict.set i_new i_old d) acc d →
    (j, i) ∈ acc ∨ (i, j) ∈ d.
Proof.
  induction d as [|[io inw] d IH]; intros acc j i; cbn [foldl]; [by left |].
  intros [Hin | Hin]%IH; [| right; by right].
  apply dict_set_elem in Hin as [[= -> ->] | Hin]; [right; by left | by left].
Qed.

Lemma invert_keys (d : list (nat * nat)) :
  ∀ (acc : list (nat * nat)) (j : nat),
    j ∈ acc.*1 ∨ j ∈ d.*2 →
    j ∈ (foldl (λ d '(i_old, i_new), PyDict.set i_new i_old d) acc d).*1.
Proof.
  induction d as [|[io inw] d IH]; intros acc j; cbn [foldl].
  - intros [Hj | Hj]; [done | by apply elem_of_nil in Hj].
  - intros Hj. apply IH. destruct Hj as [Hj | [-> | Hj]%elem_of_cons].
    + left. apply dict_set_keys. by right.
    + left. apply dict_set_keys. by left.
    + by right.
Qed.

Lemma fill_index_array_lookup (items : list (nat * nat)) :
  ∀ (arr arr' : list (option nat)) (j v : nat),
    fill_index_array items arr = Ok arr' →
    arr' !! j = Some (Some v) → arr !! j = Some (Some v) ∨ (j, v) ∈ items.
Proof.
  induction items as [|[k v0] items IH]; intros arr arr' j v.
  - intros [= <-]. by left.
  - cbn [fill_index_array]. unfold list_assign.
    destruct (k <? length arr) eqn:Hlt; [| done]. apply Nat.ltb_lt in Hlt.
    cbn [mbind result_bind]. intros Hfill Hj.
    destruct (IH _ _ _ _ Hfill Hj) as [Hin | Hin]; [| right; by right].
    destruct (decide (j = k)) as [-> | Hne].
    + rewrite list_lookup_insert_eq in Hin by done. injection Hin as ->. right. by left.
    + rewrite list_lookup_insert_ne in Hin by done. by left.
Qed.

Lemma fill_index_array_total (items : list (nat * nat)) :
  ∀ arr : list (option nat),
    (∀ k, k ∈ items.*1 → k < length arr) →
    ∃ arr', fill_index_array items arr = Ok arr'.
Proof.
  induction items as [|[k v0] items IH]; intros arr Hk; [by eexists |].
  cbn [fill_index_array]. unfold list_assign.
  assert (Hlt : k < length arr) by (apply Hk; by left).
  apply Nat.ltb_lt in Hlt. rewrite Hlt. cbn [mbind result_bind].
  apply IH. intros k' Hk'. rewrite length_insert. apply Hk. by right.
Qed.

Lemma mapM_id_lookup (arr : list (option nat)) (idx : list nat) (j i : nat) :
  mapM id arr = Some idx → idx !! j = Some i → arr !! j = Some (Some i).
Proof.
  intros Hm%mapM_Some Hj.
  destruct (Forall2_lookup_r _ _ _ _ _ Hm Hj) as (o & Ho & Hoi).
  cbn in Hoi. by subst o.
Qed.

(** Every entry of the index array is an item of the dictionary, read the
    other way round. *)
Lemma main_index_array_elem (d : list (nat * nat)) (idx : list nat) (j i : nat) :
  main_index_array d = Ok idx → idx !! j = Some i → (i, j) ∈ d.
Proof.
  unfold main_index_array.
  set (nto := foldl _ [] d).
  destruct (fill_index_array nto (replicate (length nto) None)) as [arr|e] eqn:Hfill;
    [| done].
  cbn [mbind result_bind]. destruct (mapM id arr) as [idx'|] eqn:Hm; [| done].
  intros [= ->] Hj.
  pose proof (mapM_id_lookup _ _ _ _ Hm Hj) as Harr.
  destruct (fill_index_array_lookup _ _ _ _ _ Hfill Harr) as [Hrep | Hin].
  - apply lookup_replicate in Hrep as [? _]. done.
  - apply invert_elem in Hin as [Hnil | Hd]; [by apply elem_of_nil in Hnil | done].
Qed.

(** When the recorded positions are exactly the positions below [m], the
    index array is built, with [m] entries. *)
Lemma main_index_array_total (d : list (nat * nat)) (m : nat) :
  (∀ i j, (i, j) ∈ d → j < m) →
  (∀ j, j < m → j ∈ d.*2) →
  ∃ idx, main_index_array d = Ok idx ∧ length idx = m.
Proof.
  intros Hlt Hcover.
  pose proof (main_index_array_no_gap d) as Hgap. revert Hgap.
  unfold main_index_array.
  set (nto := foldl _ [] d).
  assert (Hnd : NoDup nto.*1) by (apply invert_keys_NoDup; constructor).
  assert (Hkeys : ∀ k, k ∈ nto.*1 → k < m).
  { intros k [[k' i] [-> Hin]]%list_elem_of_fmap. cbn.
    apply invert_elem in Hin as [Hnil | Hd]; [by apply elem_of_nil in Hnil |].
    by apply (Hlt i). }
  assert (Hall : ∀ j, j < m → j ∈ nto.*1).
  { intros j Hj. apply invert_keys. right. by apply Hcover. }
  assert (Hlen : length nto = m).
  { rewrite <- (length_fmap fst). apply Nat.le_antisymm.
    - rewrite <- (length_seq m 0). apply NoDup_incl_length.
      + by apply NoDup_ListNoDup.
      + intros k Hk%list_elem_of_In. apply in_seq. specialize (Hkeys k Hk). lia.
    - rewrite <- (length_seq m 0) at 1. apply NoDup_incl_length.
      + apply seq_NoDup.
      + intros j Hj%in_seq. apply list_elem_of_In. apply Hall. lia. }
  rewrite Hlen.
  destruct (fill_index_array_total nto (replicate m None)) as [arr Hfill].
  { intros k Hk. rewrite length_replicate. by apply Hkeys. }
  rewrite Hfill. cbn [mbind result_bind].
  destruct (mapM id arr) as [idx|] eqn:Hm; [| done].
  intros _. exists idx. split; [done |].
  apply mapM_Some, Forall2_length in Hm.
  apply fill_index_array_ok in Hfill as (Hl & _).
  rewrite length_replicate in Hl. lia.
Qed.

(** A list either satisfies a decidable property throughout, or has a first
    element that does not. *)
Lemma first_exception {A} (P : A → Prop) `{∀ x, Decision (P x)} (l : list A) :
  Forall P l ∨ ∃ pre x post, l = pre ++ x :: post ∧ Forall P pre ∧ ¬ P x.
Proof.
  induction l as [|y l IH]; [left; constructor |].
  destruct (decide (P y)) as [Hy | Hy].
  - destruct IH as [Hall | (pre & x & post & -> & Hpre & Hx)].
    + left. by constructor.
    + right. exists (y :: pre), x, post. split; [done |]. split; [by constructor | done].
  - right. exists [], y, l. split; [done |]. split; [constructor | done].
Qed.

End index_array_contents.

(** ** Resolution, from the two orders to the index array *)

Lemma options_allow_subsetting (c : cli) :
  getattr (parse_options c) "allow_subsetting" = Ok (PyBool (allow_subsetting c)).
Proof. reflexivity. Qed.

Ltac by_decide := apply (bool_decide_unpack _); vm_compute; exact I.

(** What the dictionary from old to new positions holds, against a target
    order without duplicates. *)
Lemma old_to_new_records (options : gmap string pyval) (fname : pyval)
    (input_sample_order new_sample_order : list string)
    (old_to_new_index : list (nat * nat)) :
  NoDup new_sample_order →
  main_old_to_new options fname input_sample_order new_sample_order
    = Ok old_to_new_index →
  ∀ i j, PyDict.get i old_to_new_index = Some j
         ↔ ∃ x, input_sample_order !! i = Some x ∧ new_sample_order !! j = Some x.
Proof.
  intros Hnd Hres i j. unfold main_old_to_new in Hres.
  assert (Hnil : ∀ k, is_Some (PyDict.get k ([] : list (nat * nat))) → k < 0)
    by (intros k [v Hv]; done).
  rewrite (old_to_new_loop_spec _ _ _ _ 0 [] _ Hnil Hres). clear Hnil.
  rewrite Nat.sub_0_r. split.
  - intros [Hnil | (_ & x & Hx & Hd)]; [done |].
    exists x. split; [done |]. by apply new_sample_dict_position.
  - intros (x & Hx & Hj). right. split; [lia |].
    exists x. split; [done |]. by apply new_sample_dict_position.
Qed.

(** X1.  When the dictionary from old to new positions is built, against a
    target order without duplicates, it sends the old position [i] to the
    new position [j] exactly when the input sample at [i] is the target
    sample at [j]: a matched sample is never left out and no position is
    made up; so no two old positions go to one new position when the input
    order has no duplicates either. *)
Theorem old_to_new_index_spec (options : gmap string pyval) (fname : pyval)
    (input_sample_order new_sample_order : list string)
    (old_to_new_index : list (nat * nat)) :
  NoDup new_sample_order →
  main_old_to_new options fname input_sample_order new_sample_order
    = Ok old_to_new_index →
  (∀ i j, PyDict.get i old_to_new_index = Some j
          ↔ ∃ x, input_sample_order !! i = Some x ∧ new_sample_order !! j = Some x)
  ∧ (NoDup input_sample_order →
     ∀ i1 i2 j, PyDict.get i1 old_to_new_index = Some j →
                PyDict.get i2 old_to_new_index = Some j → i1 = i2).
Proof.
  intros Hnd Hres.
  pose proof (old_to_new_records _ _ _ _ _ Hnd Hres) as Hspec.
  split; [done |].
  intros Hnd_in i1 i2 j (x1 & Hi1 & Hj1)%Hspec (x2 & Hi2 & Hj2)%Hspec.
  rewrite Hj1 in Hj2. injection Hj2 as <-.
  by apply (proj1 (NoDup_alt input_sample_order) Hnd_in i1 i2 x1).
Qed.

Lemma main_old_to_new_keys_NoDup (options : gmap string pyval) (fname : pyval)
    (input_sample_order new_sample_order : list string) (d : list (nat * nat)) :
  main_old_to_new options fname input_sample_order new_sample_order = Ok d →
  NoDup d.*1.
Proof.
  unfold main_old_to_new. intros Hres.
  eapply (old_to_new_keys_NoDup _ _ _ _ 0 []); [constructor | exact Hres].
Qed.

(** Every entry of the index array pairs a target sample with the input
    sample of the same identifier. *)
Lemma index_array_entries (options : gmap string pyval) (fname : pyval)
    (input_sample_order new_sample_order : list string)
    (old_to_new_index : list (nat * nat)) (index_array : list nat) :
  main_old_to_new options fname input_sample_order new_sample_order
    = Ok old_to_new_index →
  main_index_array old_to_new_index = Ok index_array →
  ∀ j i, index_array !! j = Some i →
         ∃ x, input_sample_order !! i = Some x ∧ new_sample_order !! j = Some x.
Proof.
  intros Hres Hidx j i Hj.
  pose proof (main_index_array_elem _ _ _ _ Hidx Hj) as Hin.
  apply dict_elem_get in Hin; [| by eapply main_old_to_new_keys_NoDup].
  unfold main_old_to_new in Hres.
  assert (Hnil : ∀ k, is_Some (PyDict.get k ([] : list (nat * nat))) → k < 0)
    by (intros k [v Hv]; done).
  apply (old_to_new_loop_spec _ _ _ _ 0 [] _ Hnil Hres) in Hin
    as [Hin | (_ & x & Hx & Hd)]; [done |].
  rewrite Nat.sub_0_r in Hx. exists x. split; [done |].
  by apply new_sample_dict_sound.
Qed.

(** Against a target order without duplicates whose samples are all input
    samples, the index array is built, one entry per target sample. *)
Lemma index_array_built (options : gmap string pyval) (fname : pyval)
    (input_sample_order new_sample_order : list string)
    (old_to_new_index : list (nat * nat)) :
  NoDup new_sample_order →
  (∀ x, x ∈ new_sample_order → x ∈ input_sample_order) →
  main_old_to_new options fname input_sample_order new_sample_order
    = Ok old_to_new_index →
  ∃ index_array,
    main_index_array old_to_new_index = Ok index_array
    ∧ length index_array = length new_sample_order.
Proof.
  intros Hnd Hsub Hres.
  pose proof (main_old_to_new_keys_NoDup _ _ _ _ _ Hres) as Hkeys.
  pose proof (old_to_new_records _ _ _ _ _ Hnd Hres) as Hspec.
  apply main_index_array_total.
  - intros i j Hin. apply dict_elem_get in Hin; [| done].
    apply Hspec in Hin as (x & _ & Hx). by eapply lookup_lt_Some.
  - intros j Hj.
    destruct (lookup_lt_is_Some_2 new_sample_order j Hj) as [x Hx].
    assert (Hin : x ∈ input_sample_order).
    { apply Hsub, list_elem_of_lookup. by exists j. }
    apply list_elem_of_lookup in Hin as [i Hi].
    apply list_elem_of_fmap. exists (i, j). split; [done |].
    apply dict_get_elem, Hspec. by exists x.
Qed.

(** X2.  When the resolution returns an index array, every entry is right:
    the sample at the new position [j] of the target order is the input
    sample at the old position the array gives for [j].  So every entry is a
    position of the input order (gathering with it cannot leave the
    genotype tensor), the array is no longer than the target order, and
    against a target order without duplicates no old position is used
    twice. *)
Theorem index_array_sound (options : gmap string pyval) (fname : pyval)
    (input_sample_order new_sample_order : list string)
    (old_to_new_index : list (nat * nat)) (index_array : list nat) :
  main_old_to_new options fname input_sample_order new_sample_order
    = Ok old_to_new_index →
  main_index_array old_to_new_index = Ok index_array →
  (∀ j i, index_array !! j = Some i →
          ∃ x, input_sample_order !! i = Some x ∧ new_sample_order !! j = Some x)
  ∧ Forall (λ i, i < length input_sample_order) index_array
  ∧ length index_array ≤ length new_sample_order
  ∧ (NoDup new_sample_order → NoDup index_array).
Proof.
  intros Hres Hidx.
  pose proof (index_array_entries _ _ _ _ _ _ Hres Hidx) as Hentry.
  split; [done |]. split; [| split].
  - apply Forall_lookup. intros j i Hj.
    destruct (Hentry j i Hj) as (x & Hx & _). by eapply lookup_lt_Some.
  - destruct (decide (length index_array ≤ length new_sample_order)) as [| Hgt]; [done |].
    destruct (lookup_lt_is_Some_2 index_array (length new_sample_order)) as [i Hi]; [lia |].
    destruct (Hentry _ _ Hi) as (x & _ & Hx).
    apply lookup_lt_Some in Hx. lia.
  - intros Hnd. apply NoDup_alt. intros j1 j2 i Hj1 Hj2.
    destruct (Hentry _ _ Hj1) as (x1 & Hi1 & Hx1).
    destruct (Hentry _ _ Hj2) as (x2 & Hi2 & Hx2).
    rewrite Hi1 in Hi2. injection Hi2 as <-.
    by apply (proj1 (NoDup_alt new_sample_order) Hnd j1 j2 x1).
Qed.

(** X3.  The resolution goes through whenever it can: against a target
    order without duplicates whose samples are all input samples, and with
    subsetting allowed or every input sample in the target order, the
    dictionary and the index array are both built, and the index array has
    one entry for every target sample. *)
Theorem resolution_total (c : cli) (fname : pyval)
    (input_sample_order new_sample_order : list string) :
  NoDup new_sample_order →
  (∀ x, x ∈ new_sample_order → x ∈ input_sample_order) →
  allow_subsetting c = true
    ∨ Forall (λ x, x ∈ new_sample_order) input_sample_order →
  ∃ old_to_new_index index_array,
    main_old_to_new (parse_options c) fname input_sample_order new_sample_order
      = Ok old_to_new_index
    ∧ main_index_array old_to_new_index = Ok index_array
    ∧ length index_array = length new_sample_order.
Proof.
  intros Hnd Hsub Hcond.
  destruct (old_to_new_loop_total (parse_options c) fname
              (new_sample_dict new_sample_order) input_sample_order) with (i := 0)
    (acc := @nil (nat * nat)) as [d Hd].
  { exists (allow_subsetting c). split; [apply options_allow_subsetting |].
    destruct Hcond as [-> | Hall]; [by left | right].
    eapply Forall_impl; [exact Hall |]. intros y Hy. by apply new_sample_dict_known. }
  destruct (index_array_built _ _ _ _ _ Hnd Hsub Hd) as (idx & Hidx & Hlen).
  by exists d, idx.
Qed.

(** X4.  With subsetting not allowed, a run stops at the first input sample
    that the target order does not list, on the message that names this
    sample and the file of the target order, and before anything is
    written. *)
Theorem unmatched_sample_stops (c : cli) (w : world)
    (input_sample_order new_sample_order pre post : list string)
    (fname : pyval) (x : string) :
  main_orders (parse_options c) w
    = Ok (input_sample_order, new_sample_order, fname) →
  allow_subsetting c = false →
  input_sample_order = pre ++ x :: post →
  Forall (λ y, y ∈ new_sample_order) pre →
  x ∉ new_sample_order →
  main c w = (w, print_error_and_stop (msg_not_listed x (format_val fname))).
Proof.
  intros Horders Hallow -> Hpre Hx. unfold main. rewrite Horders.
  unfold main_old_to_new. rewrite old_to_new_loop_unmatched; [done | | |].
  - by rewrite options_allow_subsetting, Hallow.
  - eapply Forall_impl; [exact Hpre |]. intros y Hy. by apply new_sample_dict_known.
  - apply eq_None_not_Some. by rewrite <- new_sample_dict_known.
Qed.

(** X5.  The dictionary from old to new positions is built exactly when
    subsetting is allowed or every input sample is listed in the target
    order. *)
Theorem old_to_new_returns_iff (c : cli) (fname : pyval)
    (input_sample_order new_sample_order : list string) :
  (∃ d, main_old_to_new (parse_options c) fname input_sample_order new_sample_order
        = Ok d)
  ↔ allow_subsetting c = true
    ∨ Forall (λ x, x ∈ new_sample_order) input_sample_order.
Proof.
  unfold main_old_to_new. split.
  - intros [d Hd]. destruct (allow_subsetting c) eqn:Hallow; [by left | right].
    destruct (first_exception (λ x, x ∈ new_sample_order) input_sample_order)
      as [Hall | (pre & x & post & -> & Hpre & Hx)]; [done |].
    rewrite old_to_new_loop_unmatched in Hd; [done | | |].
    + by rewrite options_allow_subsetting, Hallow.
    + eapply Forall_impl; [exact Hpre |]. intros y Hy. by apply new_sample_dict_known.
    + apply eq_None_not_Some. by rewrite <- new_sample_dict_known.
  - intros Hcond. apply old_to_new_loop_total.
    exists (allow_subsetting c). split; [apply options_allow_subsetting |].
    destruct Hcond as [-> | Hall]; [by left | right].
    eapply Forall_impl; [exact Hall |]. intros y Hy. by apply new_sample_dict_known.
Qed.

(** ** The stream driver on any stream *)

Section any_stream.

Variables (max n_samples : nat) (index_array : list nat).

Lemma run_batches_app (a b : list (list string)) :
  ∀ (op : string) (counter : nat),
    run_batches n_samples index_array (a ++ b) op counter
    = match run_batches n_samples index_array a op counter with
      | (op', Ok c') => run_batches n_samples index_array b op' c'
      | (op', Err e) => (op', Err e)
      end.
Proof.
  induction a as [|x a IH]; intros op counter; [done |].
  cbn [app run_batches].
  destruct (_write_lines op x n_samples index_array) as [op' [k | e]]; [apply IH | done].
Qed.

(** The loop is a run over its batches. *)
Lemma loop_run_batches (ip : list string) :
  ∀ (op : string) (counter : nat) (buffered_lines : list string),
    write_output_loop max ip op n_samples index_array counter buffered_lines
    = match run_batches n_samples index_array
              (batches max buffered_lines ip).1 op counter with
      | (op', Ok c') => (op', Ok (c', (batches max buffered_lines ip).2))
      | (op', Err e) => (op', Err e)
      end.
Proof.
  induction ip as [|line ip IH]; intros op counter buf; [done |].
  cbn [write_output_loop batches].
  destruct (length (buf ++ [line]) =? max).
  - specialize (IH) as IH'.
    destruct (batches max [] ip) as [bs rest] eqn:Hb. cbn [fst snd run_batches].
    destruct (_write_lines op (buf ++ [line]) n_samples index_array) as [op' [k | e]];
      [| done].
    rewrite IH, Hb. done.
  - apply IH.
Qed.

Lemma write_output_with_run (ip : list string) (op : string) :
  write_output_with max ip op n_samples index_array
  = run_batches n_samples index_array (all_batches max ip) op 0.
Proof.
  unfold write_output_with. rewrite loop_run_batches, all_batches_unfold.
  rewrite run_batches_app.
  destruct (run_batches n_samples index_array (batches max [] ip).1 op 0)
    as [op' [c' | e]]; [| done].
  destruct (batches max [] ip).2 as [|r rest]; [done |].
  cbn [length Nat.ltb Nat.leb run_batches].
  by destruct (_write_lines op' (r :: rest) n_samples index_array) as [op'' [k | e]].
Qed.

(** The batches are full, the lines left over are fewer than a batch, and
    together they are the lines read. *)
Lemma batches_shape (ip : list string) :
  ∀ buffered_lines : list string,
    length buffered_lines < max →
    concat (batches max buffered_lines ip).1 ++ (batches max buffered_lines ip).2
      = buffered_lines ++ ip
    ∧ Forall (λ b, length b = max) (batches max buffered_lines ip).1
    ∧ length (batches max buffered_lines ip).2 < max.
Proof.
  induction ip as [|line ip IH]; intros buf Hbuf.
  - cbn. rewrite app_nil_r. split; [done |]. split; [constructor | done].
  - cbn [batches]. destruct (length (buf ++ [line]) =? max) eqn:Hfull.
    + apply Nat.eqb_eq in Hfull.
      destruct (IH []) as (Hcat & Hall & Hrest); [cbn; lia |].
      destruct (batches max [] ip) as [bs rest]. cbn [fst snd concat] in *.
      split; [by rewrite <- !app_assoc, Hcat |]. split; [by constructor | done].
    + apply Nat.eqb_neq in Hfull.
      destruct (IH (buf ++ [line])) as (Hcat & Hall & Hrest).
      { rewrite length_app in *. cbn [length] in *. lia. }
      split; [by rewrite Hcat, <- app_assoc | done].
Qed.







End any_stream.

(** X6.  With a positive batch size, [write_output] is [_write_lines] run
    over consecutive batches of the input, stopping at the first batch that
    raises: every batch but the last holds exactly [max] lines, the last
    one (if any) fewer, and the batches put together are the lines read; so
    no call of [_write_lines] ever sees more than [max] lines. *)
Theorem write_output_in_batches (max n_samples : nat) (index_array : list nat)
    (ip : list string) (op : string) :
  0 < max →
  ∃ full rest,
    concat full ++ rest = ip
    ∧ Forall (λ b, length b = max) full
    ∧ length rest < max
    ∧ write_output_with max ip op n_samples index_array
      = run_batches n_samples index_array
          (full ++ match rest with [] => [] | _ => [rest] end) op 0.
Proof.
  intros Hmax.
  destruct (batches_shape max ip []) as (Hcat & Hfull & Hrest); [done |].
  exists (batches max [] ip).1, (batches max [] ip).2.
  split; [done |]. split; [done |]. split; [done |].
  rewrite write_output_with_run, all_batches_unfold.
  by destruct (batches max [] ip).2.
Qed.


(** ** The reordering of a row *)

Section gather.

(** The triplet of a sample in the reshaped row is the three columns at
    three times its position. *)
Lemma nth_reshape3 (n : nat) :
  ∀ (g : list string) (i : nat),
    i < n → nth i (Numpy.reshape3 n g) [] = take 3 (drop (3 * i) g).
Proof.
  induction n as [|n IH]; intros g i Hi; [lia |].
  cbn [Numpy.reshape3]. destruct i as [|i]; [done |].
  cbn [nth]. rewrite IH by lia. rewrite drop_drop. do 2 f_equal. lia.
Qed.

Lemma length_concat_triplets (cs : list (list string)) :
  Forall (λ c, length c = 3) cs → length (concat cs) = 3 * length cs.
Proof.
  induction 1 as [|c cs Hc _ IH]; [done |].
  cbn [concat length]. rewrite length_app, IH, Hc. lia.
Qed.

(** In triplets put side by side, the triplet at position [j] is found at
    the column three times [j]. *)
Lemma concat_triplets_lookup (cs : list (list string)) :
  Forall (λ c, length c = 3) cs →
  ∀ (j : nat) (c : list string),
    cs !! j = Some c → take 3 (drop (3 * j) (concat cs)) = c.
Proof.
  induction 1 as [|c0 cs Hc0 _ IH]; intros j c Hj; [done |].
  cbn [concat]. destruct j as [|j].
  - injection Hj as <-. replace (3 * 0) with 0 by lia. rewrite drop_0.
    by rewrite take_app_length'.
  - replace (3 * S j) with (length c0 + 3 * j) by lia.
    rewrite drop_app_add. by apply IH.
Qed.

Variables (n n_samples : nat) (index_array : list nat).

Hypothesis width_enough : 5 ≤ n.
Hypothesis genotypes_fit : n_genotype_cols n = 3 * n_samples.
Hypothesis indices_fit : Forall (λ i, i < n_samples) index_array.

(** A reordered row keeps the descriptor columns and holds, at every new
    position, the triplet of the old position the index array gives. *)
Lemma reorder_row_gather (row : list string) :
  length row = n →
  length (reorder_row n_samples index_array row)
    = i_genotypes n + 3 * length index_array
  ∧ take (i_genotypes n) (reorder_row n_samples index_array row)
    = take (i_genotypes n) row
  ∧ (∀ j i, index_array !! j = Some i →
       take 3 (drop (i_genotypes n + 3 * j) (reorder_row n_samples index_array row))
       = take 3 (drop (i_genotypes n + 3 * i) row)).
Proof.
  intros Hrow. unfold reorder_row. rewrite Hrow.
  pose proof (i_genotypes_le n width_enough) as Hw.
  unfold n_genotype_cols in genotypes_fit.
  set (w := i_genotypes n) in *.
  set (g := drop w row).
  assert (Hg : length g = 3 * n_samples) by (subst g; rewrite length_drop; lia).
  assert (Htake : length (take w row) = w) by (rewrite length_take; lia).
  set (cs := map (λ j, nth j (Numpy.reshape3 n_samples g) []) index_array).
  assert (Hcs : ∀ j i, index_array !! j = Some i → cs !! j = Some (take 3 (drop (3 * i) g))).
  { intros j i Hj. subst cs. rewrite list_lookup_fmap, Hj. cbn.
    rewrite nth_reshape3; [done |].
    rewrite Forall_lookup in indices_fit. by apply (indices_fit j). }
  assert (Hthree : Forall (λ c, length c = 3) cs).
  { apply Forall_lookup. intros j c Hj.
    destruct (lookup_lt_is_Some_2 index_array j) as [i Hi].
    { apply lookup_lt_Some in Hj. subst cs. by rewrite length_map in Hj. }
    rewrite (Hcs j i Hi) in Hj. injection Hj as <-.
    rewrite length_take, length_drop.
    rewrite Forall_lookup in indices_fit. specialize (indices_fit j i Hi). lia. }
  split; [| split].
  - rewrite length_app, Htake, length_concat_triplets by done.
    subst cs. by rewrite length_map.
  - by rewrite take_app_length'.
  - intros j i Hj.
    rewrite <- Htake at 1. rewrite drop_app_add.
    rewrite (concat_triplets_lookup cs Hthree j _ (Hcs j i Hj)).
    subst g. by rewrite drop_drop.
Qed.

End gather.

(** X8.  On a batch of well-formed rows (one width of at least 5 columns,
    three columns per input sample after the descriptors) and an index array
    within the input samples, [_write_lines] writes one row per line, made
    of columns joined by single spaces: the descriptor columns of the line,
    unchanged, followed by one triplet per entry of the index array, the
    triplet at the new position [j] being the three columns the line has
    for the old position the index array gives for [j]. *)
Theorem write_lines_gathers (n n_samples : nat) (index_array : list nat)
    (op : string) (lines : list string) :
  lines ≠ [] →
  width_is n lines →
  5 ≤ n →
  n_genotype_cols n = 3 * n_samples →
  Forall (λ i, i < n_samples) index_array →
  ∃ rows : list (list string),
    _write_lines op lines n_samples index_array
      = (op +:+ rows_text (map (Str.join " ") rows), Ok (length lines))
    ∧ Forall2
        (λ row line,
           let columns := map Numpy.np_str (row_tokens line) in
           length row = i_genotypes n + 3 * length index_array
           ∧ take (i_genotypes n) row = take (i_genotypes n) columns
           ∧ ∀ j i, index_array !! j = Some i →
                    take 3 (drop (i_genotypes n + 3 * j) row)
                    = take 3 (drop (i_genotypes n + 3 * i) columns))
        rows lines.
Proof.
  intros Hne Hw Hn Hg Hidx.
  exists (map (reorder_row n_samples index_array) (gen_array lines)). split.
  - rewrite (write_lines_pass n); [done | | done | done].
    unfold batch_checks. rewrite Hg, Nat.eqb_refl. cbn [andb].
    apply forallb_forall. intros j Hj. apply Nat.ltb_lt.
    rewrite Forall_forall in Hidx. by apply Hidx, list_elem_of_In.
  - unfold gen_array. rewrite map_map.
    apply Forall2_fmap_l, Forall_Forall2_diag.
    eapply Forall_impl; [exact Hw |]. intros line Hline. cbn beta.
    fold (row_tokens line).
    apply (reorder_row_gather n n_samples index_array Hn Hg Hidx).
    by rewrite length_map.
Qed.

(** ** Runs that lose or refuse their output *)

Section output_paths.

Lemma options_sample_out (c : cli) :
  getattr (parse_options c) "sample_out" = Ok (opt_val (sample_out c)).
Proof. reflexivity. Qed.

Lemma options_genfile_in (c : cli) :
  getattr (parse_options c) "genfile_in" = Ok (opt_val (gen_in c)).
Proof. reflexivity. Qed.

Lemma options_genfile_out (c : cli) :
  getattr (parse_options c) "genfile_out" = Ok (opt_val (gen_out c)).
Proof. reflexivity. Qed.

Lemma main_write_sample_no_path (c : cli) (w : world)
    (new_sample_order : list string) (d : list (nat * nat)) :
  sample_out c = None →
  main_write_sample (parse_options c) w new_sample_order d
  = (w, print_error_and_stop msg_sample_out).
Proof.
  intros Hout. unfold main_write_sample. by rewrite options_sample_out, Hout.
Qed.

Lemma strip_items_replicate_None (hdr : list string) (m : nat) :
  0 < m →
  strip_items (map Some hdr ++ replicate m None) = Err (AttributeError "strip").
Proof.
  intros Hm. apply strip_items_none, elem_of_app. right.
  destruct m as [|m]; [lia |]. by left.
Qed.

End output_paths.

(** X9.  Without an output sample file a run writes nothing and never ends
    well: the world is left as it was, and once the two orders are read and
    resolved the run stops on the message that asks for the option. *)
Theorem missing_sample_out_stops (c : cli) (w : world) :
  sample_out c = None →
  (main c w).1 = w
  ∧ (∃ e, (main c w).2 = Err e)
  ∧ (∀ input_sample_order new_sample_order fname d,
       main_orders (parse_options c) w
         = Ok (input_sample_order, new_sample_order, fname) →
       main_old_to_new (parse_options c) fname input_sample_order new_sample_order
         = Ok d →
       main c w = (w, print_error_and_stop msg_sample_out)).
Proof.
  intros Hout. split; [| split].
  - unfold main.
    destruct (main_orders (parse_options c) w) as [[[input new] fname] | e]; [| done].
    destruct (main_old_to_new (parse_options c) fname input new) as [d | e]; [| done].
    by rewrite main_write_sample_no_path.
  - unfold main.
    destruct (main_orders (parse_options c) w) as [[[input new] fname] | e];
      [| by eexists].
    destruct (main_old_to_new (parse_options c) fname input new) as [d | e];
      [| by eexists].
    rewrite main_write_sample_no_path by done. by eexists.
  - intros input new fname d Horders Hres. unfold main.
    by rewrite Horders, Hres, main_write_sample_no_path.
Qed.

(** X10.  When the output sample file is the input sample file, the run
    destroys it: the file is emptied when it is opened for writing, before
    it is read again, so no old line is left to place, and with a target
    order that is not empty the run ends in an AttributeError with the file
    left empty. *)
Theorem sample_out_over_sample_in (c : cli) (w : world)
    (input_sample_order new_sample_order : list string) (fname : pyval)
    (d : list (nat * nat)) (p : string) :
  sample_in c = Some p →
  sample_out c = Some p →
  main_orders (parse_options c) w
    = Ok (input_sample_order, new_sample_order, fname) →
  main_old_to_new (parse_options c) fname input_sample_order new_sample_order
    = Ok d →
  new_sample_order ≠ [] →
  main c w = (open_write w p, Err (AttributeError "strip"))
  ∧ files (main c w).1 !! p = Some EmptyString.
Proof.
  intros Hin Hout Horders Hres Hnew.
  assert (Hmain : main c w = (open_write w p, Err (AttributeError "strip"))).
  { unfold main. rewrite Horders, Hres. unfold main_write_sample.
    rewrite options_sample_out, Hout, options_sample_in, Hin.
    cbn [opt_val format_val mbind result_bind open_read open_write files].
    rewrite lookup_insert_eq. cbn [mbind result_bind].
    change (Str.readlines EmptyString) with (@nil string).
    cbn [drop take place_lines mbind result_bind].
    rewrite (strip_items_replicate_None []); [done |].
    destruct new_sample_order; [done | cbn; lia]. }
  split; [done |]. rewrite Hmain. cbn [fst open_write files]. apply lookup_insert_eq.
Qed.

(** X11.  When the output genotype file is the input genotype file, the run
    destroys it and reports success: the file is emptied when it is opened
    for writing, before its first line is read, so the run writes no
    genotype line, leaves the file empty and says it wrote 0 lines. *)
Theorem gen_out_over_gen_in (c : cli) (w w1 : world)
    (input_sample_order new_sample_order : list string) (fname : pyval)
    (d : list (nat * nat)) (index_array : list nat) (p out text : string) :
  gen_in c = Some p →
  gen_out c = Some p →
  sample_out c = Some out →
  main_orders (parse_options c) w
    = Ok (input_sample_order, new_sample_order, fname) →
  main_old_to_new (parse_options c) fname input_sample_order new_sample_order
    = Ok d →
  main_write_sample (parse_options c) w new_sample_order d = (w1, Ok ()) →
  main_index_array d = Ok index_array →
  files w1 !! p = Some text →
  main c w
    = (set_file (open_write w1 p) p EmptyString,
       Ok (msg_wrote (length index_array) 0 out p +:+ msg_finish))
  ∧ files (main c w).1 !! p = Some EmptyString.
Proof.
  intros Hin Hout Hsample Horders Hres Hwrite Hidx Hfile.
  assert (Hmain : main c w
                  = (set_file (open_write w1 p) p EmptyString,
                     Ok (msg_wrote (length index_array) 0 out p +:+ msg_finish))).
  { unfold main. rewrite Horders, Hres, Hwrite, Hidx. unfold main_stream.
    rewrite options_genfile_in, Hin, options_genfile_out, Hout, options_sample_out, Hsample.
    cbn [opt_val format_val open_read]. rewrite Hfile.
    unfold gen_input, open_write. cbn [files]. rewrite lookup_insert_eq.
    cbn [default]. by destruct (Str.endswith p ".gz"). }
  split; [done |]. rewrite Hmain. cbn [fst set_file files]. apply lookup_insert_eq.
Qed.

(** ** The new sample file, when it is written *)

Section sample_file_contents.

Lemma read_sample_order_inv (w : world) (fname : pyval) (is_sample_file : bool)
    (ids : list string) :
  read_sample_order w fname is_sample_file = Ok ids →
  ∃ p text,
    fname = PyStr p ∧ files w !! p = Some text
    ∧ ids = (if is_sample_file
             then drop 2 (map sample_id_of (Str.readlines text))
             else map sample_id_of (Str.readlines text))
    ∧ NoDup ids.
Proof.
  unfold read_sample_order, open_read.
  destruct fname as [|p|b]; [done | | done].
  destruct (files w !! p) as [text|] eqn:Hfile; [| done].
  cbn [mbind result_bind].
  set (l := if is_sample_file then _ else _).
  destruct (size (id_dict l) =? length l) eqn:Hsize; [| done].
  cbn [negb]. intros [= <-]. exists p, text.
  split; [done |]. split; [done |]. split; [done |].
  by apply id_dict_NoDup, Nat.eqb_eq.
Qed.

(** What a run knows once the two orders are read. *)
Lemma main_orders_inv (c : cli) (w : world)
    (input_sample_order new_sample_order : list string) (fname : pyval) :
  main_orders (parse_options c) w
    = Ok (input_sample_order, new_sample_order, fname) →
  ∃ p text,
    sample_in c = Some p ∧ files w !! p = Some text
    ∧ input_sample_order = drop 2 (map sample_id_of (Str.readlines text))
    ∧ NoDup input_sample_order ∧ NoDup new_sample_order.
Proof.
  unfold main_orders. rewrite options_sample_in, options_model_sample.
  cbn [mbind result_bind].
  destruct (read_sample_order w (opt_val (sample_in c)) true) as [ids|e] eqn:Hread;
    [| done].
  cbn [mbind result_bind].
  destruct (match opt_val (model_sample c) with
            | PyNone => _
            | _ => _
            end) as [[f b] | e]; [| done].
  cbn [mbind result_bind].
  destruct (read_sample_order w f b) as [ids'|e] eqn:Hread'; [| done].
  cbn [mbind result_bind]. intros [= <- <- <-].
  apply read_sample_order_inv in Hread as (p & text & Hp & Hfile & Hids & Hnd).
  apply read_sample_order_inv in Hread' as (_ & _ & _ & _ & _ & Hnd').
  exists p, text. split; [| done].
  destruct (sample_in c) as [q|]; by simplify_eq/=.
Qed.

Lemma strip_items_Some (l : list string) :
  strip_items (map Some l) = Ok (map Str.strip l).
Proof. induction l as [|x l IH]; [done |]. cbn. by rewrite IH. Qed.

Lemma all_Some_list {A} (res : list (option A)) :
  (∀ j, j < length res → ∃ l, res !! j = Some (Some l)) →
  ∃ body, res = map Some body.
Proof.
  induction res as [|o res IH]; intros Hall; [by exists [] |].
  destruct (Hall 0) as [l Hl]; [cbn; lia |]. injection Hl as ->.
  destruct IH as [body ->].
  { intros j Hj. apply (Hall (S j)). cbn. lia. }
  by exists (l :: body).
Qed.

(** With a dictionary that sends no two old positions to one new position,
    and stays inside the new list, the loop puts every old line at the new
    position of its old position and leaves the other positions alone. *)
Lemma place_lines_spec (d : list (nat * nat)) (old_lines : list string) :
  (∀ i1 i2 j, PyDict.get i1 d = Some j → PyDict.get i2 d = Some j → i1 = i2) →
  ∀ (i_old : nat) (new_lines : list (option string)),
    (∀ i j, PyDict.get i d = Some j → j < length new_lines) →
    ∃ res,
      place_lines d i_old old_lines new_lines = Ok res
      ∧ length res = length new_lines
      ∧ (∀ i l j, old_lines !! i = Some l → PyDict.get (i_old + i) d = Some j →
                  res !! j = Some (Some l))
      ∧ (∀ j, (∀ i, i < length old_lines → PyDict.get (i_old + i) d ≠ Some j) →
              res !! j = new_lines !! j).
Proof.
  intros Hinj. induction old_lines as [|l0 old_lines IH]; intros i_old new_lines Hlt.
  - exists new_lines. split; [done |]. split; [done |]. split; [by intros i l j ? | done].
  - cbn [place_lines]. destruct (PyDict.get i_old d) as [j0|] eqn:Hget.
    + pose proof (Hlt _ _ Hget) as Hj0. unfold list_assign.
      replace (j0 <? length new_lines) with true by (symmetry; by apply Nat.ltb_lt).
      cbn [mbind result_bind].
      destruct (IH (S i_old) (<[j0 := Some l0]> new_lines))
        as (res & Hres & Hlen & Hplaced & Hkept).
      { intros i j Hij. rewrite length_insert. by apply (Hlt i). }
      exists res. split; [done |]. rewrite length_insert in Hlen.
      split; [done |]. split.
      * intros [|i] l j Hl Hj.
        -- injection Hl as <-. rewrite Nat.add_0_r, Hget in Hj. injection Hj as <-.
           rewrite Hkept; [by apply list_lookup_insert_eq |].
           intros i Hi Habs. specialize (Hinj _ _ _ Habs Hget). lia.
        -- apply (Hplaced i l j Hl). by replace (S i_old + i) with (i_old + S i) by lia.
      * intros j Hnone. rewrite Hkept.
        -- apply list_lookup_insert_ne. intros <-.
           apply (Hnone 0); [cbn; lia |]. by rewrite Nat.add_0_r.
        -- intros i Hi. replace (S i_old + i) with (i_old + S i) by lia.
           apply Hnone. cbn. lia.
    + destruct (IH (S i_old) new_lines Hlt) as (res & Hres & Hlen & Hplaced & Hkept).
      exists res. split; [done |]. split; [done |]. split.
      * intros [|i] l j Hl Hj.
        -- rewrite Nat.add_0_r, Hget in Hj. done.
        -- apply (Hplaced i l j Hl). by replace (S i_old + i) with (i_old + S i) by lia.
      * intros j Hnone. apply Hkept.
        intros i Hi. replace (S i_old + i) with (i_old + S i) by lia.
        apply Hnone. cbn. lia.
Qed.

End sample_file_contents.

(** The new sample file of a run whose target samples are all input
    samples. *)
Lemma main_write_sample_ok (c : cli) (w : world)
    (input_sample_order new_sample_order : list string) (fname : pyval)
    (d : list (nat * nat)) (p out text : string) :
  main_orders (parse_options c) w
    = Ok (input_sample_order, new_sample_order, fname) →
  main_old_to_new (parse_options c) fname input_sample_order new_sample_order
    = Ok d →
  (∀ x, x ∈ new_sample_order → x ∈ input_sample_order) →
  sample_in c = Some p →
  files w !! p = Some text →
  sample_out c = Some out →
  out ≠ p →
  ∃ body,
    main_write_sample (parse_options c) w new_sample_order d
      = (set_file (open_write w out) out
           (lines_text (map Str.strip (take 2 (Str.readlines text) ++ body))),
         Ok ())
    ∧ map sample_id_of body = new_sample_order
    ∧ (∀ l, l ∈ body → l ∈ drop 2 (Str.readlines text)).
Proof.
  intros Horders Hres Hsub Hin Hfile Hout Hne.
  destruct (main_orders_inv _ _ _ _ _ Horders)
    as (p' & text' & Hin' & Hfile' & Hinput & Hnd_in & Hnd_new).
  rewrite Hin in Hin'. injection Hin' as <-.
  rewrite Hfile in Hfile'. injection Hfile' as <-.
  set (old_lines := Str.readlines text) in *.
  assert (Hinput' : input_sample_order = map sample_id_of (drop 2 old_lines))
    by (by rewrite Hinput, <- fmap_drop).
  pose proof (old_to_new_records _ _ _ _ _ Hnd_new Hres) as Hspec.
  assert (Hinj : ∀ i1 i2 j, PyDict.get i1 d = Some j → PyDict.get i2 d = Some j → i1 = i2).
  { intros i1 i2 j (x1 & Hi1 & Hj1)%Hspec (x2 & Hi2 & Hj2)%Hspec.
    rewrite Hj1 in Hj2. injection Hj2 as <-.
    by apply (proj1 (NoDup_alt input_sample_order) Hnd_in i1 i2 x1). }
  destruct (place_lines_spec d (drop 2 old_lines) Hinj 0
              (replicate (length new_sample_order) None))
    as (res & Hplace & Hlen & Hplaced & _).
  { intros i j (x & _ & Hj)%Hspec. rewrite length_replicate. by eapply lookup_lt_Some. }
  rewrite length_replicate in Hlen.
  assert (Hfilled : ∀ j x, new_sample_order !! j = Some x →
            ∃ l, res !! j = Some (Some l) ∧ sample_id_of l = x ∧ l ∈ drop 2 old_lines).
  { intros j x Hj.
    assert (Hx : x ∈ input_sample_order) by (apply Hsub, list_elem_of_lookup; by exists j).
    apply list_elem_of_lookup in Hx as [i Hi].
    pose proof Hi as Hi'. rewrite Hinput', list_lookup_fmap in Hi'.
    destruct (drop 2 old_lines !! i) as [l|] eqn:Hl; [| done]. injection Hi' as Hid.
    exists l. split; [| split; [done |]].
    - apply (Hplaced i l j Hl). cbn [Nat.add]. apply Hspec. by exists x.
    - apply list_elem_of_lookup. by exists i. }
  destruct (all_Some_list res) as [body ->].
  { intros j Hj. rewrite Hlen in Hj.
    destruct (lookup_lt_is_Some_2 new_sample_order j Hj) as [x Hx].
    destruct (Hfilled j x Hx) as (l & Hl & _). by exists l. }
  rewrite length_map in Hlen.
  exists body. split; [| split].
  - unfold main_write_sample.
    rewrite options_sample_out, Hout, options_sample_in, Hin.
    cbn [opt_val format_val mbind result_bind open_read open_write files].
    rewrite lookup_insert_ne by done. rewrite Hfile. cbn [mbind result_bind].
    fold old_lines. rewrite Hplace. cbn [mbind result_bind].
    rewrite <- map_app, strip_items_Some. done.
  - apply list_eq. intros j. rewrite list_lookup_fmap.
    destruct (new_sample_order !! j) as [x|] eqn:Hx.
    + destruct (Hfilled j x Hx) as (l & Hl & Hid & _).
      rewrite list_lookup_fmap in Hl.
      destruct (body !! j) as [l'|]; [| done]. cbn in *. by simplify_eq.
    + apply lookup_ge_None in Hx. rewrite lookup_ge_None_2 by lia. done.
  - intros l [j Hj]%list_elem_of_lookup.
    destruct (lookup_lt_is_Some_2 new_sample_order j) as [x Hx].
    { apply lookup_lt_Some in Hj. lia. }
    destruct (Hfilled j x Hx) as (l' & Hl' & _ & Hmem).
    rewrite list_lookup_fmap, Hj in Hl'. cbn in Hl'. by simplify_eq.
Qed.

(** X12.  When every sample of the target order is an input sample and the
    output sample file is another file than the input one, the new sample
    file is written: it holds the first two lines of the input sample file
    and then, for every sample of the target order and in that order, a
    line of the input sample file that bears the identifier of this sample,
    every line without the white space around it and followed by a line
    feed. *)
Theorem sample_file_rewritten (c : cli) (w : world)
    (input_sample_order new_sample_order : list string) (fname : pyval)
    (d : list (nat * nat)) (p out text : string) :
  main_orders (parse_options c) w
    = Ok (input_sample_order, new_sample_order, fname) →
  main_old_to_new (parse_options c) fname input_sample_order new_sample_order
    = Ok d →
  (∀ x, x ∈ new_sample_order → x ∈ input_sample_order) →
  sample_in c = Some p →
  files w !! p = Some text →
  sample_out c = Some out →
  out ≠ p →
  ∃ body,
    main_write_sample (parse_options c) w new_sample_order d
      = (set_file (open_write w out) out
           (lines_text (map Str.strip (take 2 (Str.readlines text) ++ body))),
         Ok ())
    ∧ map sample_id_of body = new_sample_order
    ∧ (∀ l, l ∈ body → l ∈ drop 2 (Str.readlines text)).
Proof. apply main_write_sample_ok. Qed.

(** ** A whole run *)

Section whole_run.

(** An accepted stream of constant width, batch by batch. *)
Lemma write_output_with_pass (max n n_samples : nat) (index_array : list nat)
    (ip : list string) (op : string) :
  width_is n ip →
  n_genotype_cols n = 3 * n_samples →
  Forall (λ i, i < n_samples) index_array →
  write_output_with max ip op n_samples index_array
  = (op +:+ rows_text (output_rows n_samples index_array ip), Ok (length ip)).
Proof.
  intros Hw Hg Hidx.
  assert (Hc : batch_checks n n_samples index_array = true).
  { unfold batch_checks. rewrite Hg, Nat.eqb_refl. cbn [andb].
    apply forallb_forall. intros j Hj. apply Nat.ltb_lt.
    rewrite Forall_forall in Hidx. by apply Hidx, list_elem_of_In. }
  destruct ip as [|l ip].
  - cbn. by rewrite str_app_nil_r.
  - rewrite (write_output_with_constant _ n) by done. by rewrite Hc.
Qed.

Lemma read_sample_order_duplicated (w : world) (p text : string)
    (is_sample_file : bool) :
  files w !! p = Some text →
  ¬ NoDup (if is_sample_file
           then drop 2 (map sample_id_of (Str.readlines text))
           else map sample_id_of (Str.readlines text)) →
  read_sample_order w (PyStr p) is_sample_file
  = print_error_and_stop (msg_duplicates p).
Proof.
  intros Hfile Hdup. unfold read_sample_order, open_read. rewrite Hfile.
  cbn [mbind result_bind format_val].
  set (ids := if is_sample_file then _ else _) in *.
  destruct (size (id_dict ids) =? length ids) eqn:Hsize; [| done].
  apply Nat.eqb_eq, id_dict_NoDup in Hsize. done.
Qed.

End whole_run.

(** The standard input is cut at line feeds only: a carriage return inside
    a row stays in its line, where a file opened as text ends a line at
    it. *)
Example stdin_lines_end_at_line_feed :
  let text := "a" +:+ String "013" ("b" +:+ Str.nl) in
  Str.lines_lf text = [text]
  ∧ Str.readlines text = ["a" +:+ Str.nl; "b" +:+ Str.nl]
  ∧ gen_input (world_of [] text) PyNone = TextLines [text].
Proof. vm_compute. done. Qed.

(** A compressed input that holds a row stops its run on a type error, and
    an empty one gives no row. *)
Example compressed_input_is_bytes :
  let w := world_of [("in.gen.gz", row14); ("empty.gen.gz", EmptyString)] EmptyString in
  gen_input w (PyStr "in.gen.gz") = BytesLines [row14]
  ∧ write_output_bytes [row14] EmptyString = (EmptyString, Err TypeError)
  ∧ gen_input w (PyStr "empty.gen.gz") = BytesLines []
  ∧ write_output_bytes [] EmptyString = (EmptyString, Ok 0).
Proof. vm_compute. done. Qed.

(** X13.  A whole run, from the standard input to the standard output.
    When the two orders are read, every target sample is an input sample,
    subsetting is allowed or every input sample is a target sample, the
    output sample file is another file than the input one, and the lines of
    the standard input, each of which ends at a line feed, all have the same
    number of columns, with three columns per input sample after the
    descriptors, the run ends well: it
    writes the new sample file (the two header lines, then a line of every
    target sample in target order), adds one reordered row per input line
    to the standard output, with an index array that pairs every target
    sample with the input sample of the same identifier, and reports the
    number of target samples and of lines. *)
Theorem main_reorders (c : cli) (w : world)
    (input_sample_order new_sample_order : list string) (fname : pyval)
    (p out text : string) (n : nat) :
  main_orders (parse_options c) w
    = Ok (input_sample_order, new_sample_order, fname) →
  (∀ x, x ∈ new_sample_order → x ∈ input_sample_order) →
  allow_subsetting c = true
    ∨ Forall (λ x, x ∈ new_sample_order) input_sample_order →
  sample_in c = Some p →
  files w !! p = Some text →
  sample_out c = Some out →
  out ≠ p →
  gen_in c = None →
  gen_out c = None →
  width_is n (Str.lines_lf (stdin w)) →
  n_genotype_cols n = 3 * length input_sample_order →
  ∃ index_array body,
    length index_array = length new_sample_order
    ∧ (∀ j i, index_array !! j = Some i →
         ∃ x, input_sample_order !! i = Some x ∧ new_sample_order !! j = Some x)
    ∧ map sample_id_of body = new_sample_order
    ∧ (∀ l, l ∈ body → l ∈ drop 2 (Str.readlines text))
    ∧ main c w
      = (set_stdout
           (set_file (open_write w out) out
              (lines_text (map Str.strip (take 2 (Str.readlines text) ++ body))))
           (stdout w
            +:+ rows_text (output_rows (length input_sample_order) index_array
                             (Str.lines_lf (stdin w)))),
         Ok (msg_wrote (length new_sample_order)
               (length (Str.lines_lf (stdin w))) out "STDOUT"
             +:+ msg_finish)).
Proof.
  intros Horders Hsub Hcond Hin Hfile Hout Hne Hgin Hgout Hw Hg.
  destruct (main_orders_inv _ _ _ _ _ Horders) as (_ & _ & _ & _ & _ & _ & Hnd_new).
  destruct (old_to_new_loop_total (parse_options c) fname
              (new_sample_dict new_sample_order) input_sample_order) with (i := 0)
    (acc := @nil (nat * nat)) as [d Hd].
  { exists (allow_subsetting c). split; [apply options_allow_subsetting |].
    destruct Hcond as [-> | Hall]; [by left | right].
    eapply Forall_impl; [exact Hall |]. intros y Hy. by apply new_sample_dict_known. }
  fold (main_old_to_new (parse_options c) fname input_sample_order new_sample_order) in Hd.
  destruct (index_array_built _ _ _ _ _ Hnd_new Hsub Hd) as (idx & Hidx & Hlen).
  pose proof (index_array_entries _ _ _ _ _ _ Hd Hidx) as Hentry.
  destruct (main_write_sample_ok c w _ _ _ d p out text Horders Hd Hsub Hin Hfile Hout Hne)
    as (body & Hwrite & Hbody & Hmem).
  exists idx, body. split; [done |]. split; [done |]. split; [done |]. split; [done |].
  unfold main. rewrite Horders, Hd, Hwrite, Hidx. unfold main_stream.
  rewrite options_genfile_in, Hgin, options_genfile_out, Hgout, options_sample_out, Hout.
  cbn [opt_val format_val gen_input set_file open_write stdin stdout].
  unfold write_output.
  rewrite (write_output_with_pass _ n); [| done | done |].
  - cbn [mbind result_bind]. by rewrite Hlen.
  - apply Forall_lookup. intros j i Hj.
    destruct (Hentry j i Hj) as (x & Hx & _). by eapply lookup_lt_Some.
Qed.

(** X14.  A sample file that lists an identifier twice stops the run on the
    message that names the file, before anything is written: the input
    sample file when its lines after the two header lines repeat an
    identifier, and likewise the model sample file once the input sample
    file has been read. *)
Theorem duplicate_sample_stops (c : cli) (w : world) (p text : string) :
  files w !! p = Some text →
  ¬ NoDup (drop 2 (map sample_id_of (Str.readlines text))) →
  (sample_in c = Some p →
   main c w = (w, print_error_and_stop (msg_duplicates p)))
  ∧ (model_sample c = Some p →
     (∃ ids, read_sample_order w (opt_val (sample_in c)) true = Ok ids) →
     main c w = (w, print_error_and_stop (msg_duplicates p))).
Proof.
  intros Hfile Hdup.
  pose proof (read_sample_order_duplicated w p text true Hfile Hdup) as Hread.
  split.
  - intros Hin. unfold main, main_orders.
    rewrite options_sample_in, Hin. cbn [opt_val mbind result_bind].
    by rewrite Hread.
  - intros Hmodel [ids Hids]. unfold main, main_orders.
    rewrite options_sample_in. cbn [mbind result_bind].
    rewrite Hids, options_model_sample, Hmodel. cbn [opt_val mbind result_bind].
    by rewrite Hread.
Qed.

(** ** The ways a run of the stream driver can fail *)

Section failures.

Variables (max n_samples : nat) (index_array : list nat).

Lemma batches_nonempty (ip : list string) :
  ∀ buffered_lines : list string,
    Forall (λ b, b ≠ []) (batches max buffered_lines ip).1.
Proof.
  induction ip as [|line ip IH]; intros buf; [constructor |].
  cbn [batches]. destruct (length (buf ++ [line]) =? max); [| apply IH].
  specialize (IH []). destruct (batches max [] ip) as [bs rest]. cbn [fst] in *.
  constructor; [by destruct buf | done].
Qed.

Lemma all_batches_nonempty (ip : list string) :
  Forall (λ b, b ≠ []) (all_batches max ip).
Proof.
  rewrite all_batches_unfold. apply Forall_app. split; [apply batches_nonempty |].
  destruct (batches max [] ip).2 as [|r rest]; [constructor |].
  constructor; [done | constructor].
Qed.

(** With an index array within the input samples, a batch that is not
    empty fails in one of two ways only. *)
Lemma write_lines_failure (op op' : string) (b : list string) (e : exn) :
  b ≠ [] →
  Forall (λ i, i < n_samples) index_array →
  _write_lines op b n_samples index_array = (op', Err e) →
  (ragged b ∧ e = width_error)
  ∨ (¬ ragged b
     ∧ n_genotype_cols (length (row_tokens (hd EmptyString b))) ≠ 3 * n_samples
     ∧ e = TypeError).
Proof.
  intros Hne Hidx. unfold _write_lines, read_gen_lines, ragged.
  destruct b as [|l0 ls]; [done |].
  pose proof (existsb_gen_array (length (row_tokens l0)) (l0 :: ls)) as Hex.
  cbn [gen_array map hd] in *. fold (row_tokens l0) in *. fold (gen_array ls) in *.
  rewrite length_map.
  destruct (existsb _ (_ :: gen_array ls)).
  - intros [= _ <-]. left. split; [by apply Hex | done].
  - rewrite length_drop, length_map. fold (n_genotype_cols (length (row_tokens l0))).
    destruct (n_genotype_cols (length (row_tokens l0)) =? 3 * n_samples) eqn:Hg;
      cbn [negb].
    + unfold Numpy.ix_gather.
      replace (forallb (λ j, j <? n_samples) index_array) with true; [done |].
      symmetry. apply forallb_forall. intros j Hj. apply Nat.ltb_lt.
      rewrite Forall_forall in Hidx. by apply Hidx, list_elem_of_In.
    + cbn. intros [= _ <-]. right. split; [| split; [by apply Nat.eqb_neq | done]].
      intros Hr. apply Hex in Hr. discriminate.
Qed.

End failures.

(** X15.  With an index array within the input samples, a run of
    [write_output] can fail in two ways only, and it fails in the first
    batch that is not written out: on the message about a number of
    genotypes that is not constant, when the rows of that batch disagree on
    their number of columns, or in a TypeError, when they agree but do not
    hold three columns per input sample after the descriptors.  In
    particular it never raises an IndexError. *)
Theorem write_output_failures (max n_samples : nat) (index_array : list nat)
    (ip : list string) (op op' : string) (e : exn) :
  Forall (λ i, i < n_samples) index_array →
  write_output_with max ip op n_samples index_array = (op', Err e) →
  ∃ pre b post,
    all_batches max ip = pre ++ b :: post
    ∧ Forall (accepted n_samples index_array) pre
    ∧ ((ragged b ∧ e = width_error)
       ∨ (¬ ragged b
          ∧ n_genotype_cols (length (row_tokens (hd EmptyString b))) ≠ 3 * n_samples
          ∧ e = TypeError)).
Proof.
  intros Hidx Hrun.
  apply write_output_with_error in Hrun as (pre & b & post & op0 & Heq & Hacc & Hfail).
  exists pre, b, post. split; [done |]. split; [done |].
  apply (write_lines_failure n_samples index_array op0 op' b e); [| done | done].
  pose proof (all_batches_nonempty max ip) as Hne. rewrite Heq in Hne.
  apply Forall_app in Hne as [_ Hne]. by apply Forall_cons in Hne as [? _].
Qed.

(** ** The further theorems at concrete inputs *)

(** [old_to_new_index_spec] on the input A, B, C and the target C, A. *)
Lemma old_to_new_index_spec_witness :
  (NoDup order_ca
   ∧ main_old_to_new (parse_options (cli_model "model.sample" true))
       (PyStr "model.sample") order_abc order_ca
     = Ok [(0, 1); (2, 0)])
  ∧ (PyDict.get 2 [(0, 1); (2, 0)] = Some 0
     ↔ ∃ x, order_abc !! 2 = Some x ∧ order_ca !! 0 = Some x).
Proof.
  assert (H1 : NoDup order_ca) by by_decide.
  assert (H2 : main_old_to_new (parse_options (cli_model "model.sample" true))
                 (PyStr "model.sample") order_abc order_ca
               = Ok [(0, 1); (2, 0)]) by (vm_compute; reflexivity).
  split; [exact (conj H1 H2) |].
  exact (proj1 (old_to_new_index_spec _ _ _ _ _ H1 H2) 2 0).
Defined.

(** [index_array_sound] on the input A, B, C and the target C, A. *)
Lemma index_array_sound_witness :
  (main_old_to_new (parse_options (cli_model "model.sample" true))
     (PyStr "model.sample") order_abc order_ca
   = Ok [(0, 1); (2, 0)]
   ∧ main_index_array [(0, 1); (2, 0)] = Ok [2; 0])
  ∧ Forall (λ i, i < length order_abc) [2; 0].
Proof.
  assert (H1 : main_old_to_new (parse_options (cli_model "model.sample" true))
                 (PyStr "model.sample") order_abc order_ca
               = Ok [(0, 1); (2, 0)]) by (vm_compute; reflexivity).
  assert (H2 : main_index_array [(0, 1); (2, 0)] = Ok [2; 0]) by (vm_compute; reflexivity).
  split; [exact (conj H1 H2) |].
  exact (proj1 (proj2 (index_array_sound _ _ _ _ _ _ H1 H2))).
Defined.

Lemma order_ca_in_abc : ∀ x, x ∈ order_ca → x ∈ order_abc.
Proof.
  intros x Hx%list_elem_of_In. cbn in Hx.
  destruct Hx as [<- | [<- | []]]; by_decide.
Defined.

(** [resolution_total] on the input A, B, C and the target C, A, with
    subsetting allowed. *)
Lemma resolution_total_witness :
  (NoDup order_ca
   ∧ (∀ x, x ∈ order_ca → x ∈ order_abc)
   ∧ (allow_subsetting (cli_model "model.sample" true) = true
      ∨ Forall (λ x, x ∈ order_ca) order_abc))
  ∧ ∃ old_to_new_index index_array,
      main_old_to_new (parse_options (cli_model "model.sample" true))
        (PyStr "model.sample") order_abc order_ca
      = Ok old_to_new_index
      ∧ main_index_array old_to_new_index = Ok index_array
      ∧ length index_array = length order_ca.
Proof.
  assert (H1 : NoDup order_ca) by by_decide.
  assert (H3 : allow_subsetting (cli_model "model.sample" true) = true
               ∨ Forall (λ x, x ∈ order_ca) order_abc) by (left; reflexivity).
  split; [exact (conj H1 (conj order_ca_in_abc H3)) |].
  exact (resolution_total _ (PyStr "model.sample") _ _ H1 order_ca_in_abc H3).
Defined.

(** [unmatched_sample_stops] on the input A, B, C and the target C, A,
    with subsetting not allowed: the run stops at B. *)
Lemma unmatched_sample_stops_witness :
  (main_orders (parse_options (cli_model "model.sample" false)) world_subset
     = Ok (order_abc, order_ca, PyStr "model.sample")
   ∧ allow_subsetting (cli_model "model.sample" false) = false
   ∧ order_abc = ["A A"] ++ "B B" :: ["C C"]
   ∧ Forall (λ y, y ∈ order_ca) ["A A"]
   ∧ ("B B" ∉ order_ca))
  ∧ main (cli_model "model.sample" false) world_subset
    = (world_subset, print_error_and_stop (msg_not_listed "B B" "model.sample")).
Proof.
  assert (H1 : main_orders (parse_options (cli_model "model.sample" false)) world_subset
               = Ok (order_abc, order_ca, PyStr "model.sample"))
    by (vm_compute; reflexivity).
  assert (H2 : allow_subsetting (cli_model "model.sample" false) = false) by reflexivity.
  assert (H3 : order_abc = ["A A"] ++ "B B" :: ["C C"]) by reflexivity.
  assert (H4 : Forall (λ y, y ∈ order_ca) ["A A"]) by by_decide.
  assert (H5 : "B B" ∉ order_ca) by by_decide.
  split; [exact (conj H1 (conj H2 (conj H3 (conj H4 H5)))) |].
  exact (unmatched_sample_stops _ _ _ _ _ _ _ _ H1 H2 H3 H4 H5).
Defined.

(** [old_to_new_returns_iff] on the input A, B, C and the target C, A,
    with subsetting not allowed: no dictionary is built. *)
Lemma old_to_new_returns_iff_witness :
  ¬ (allow_subsetting (cli_model "model.sample" false) = true
     ∨ Forall (λ x, x ∈ order_ca) order_abc)
  ∧ ¬ ∃ d, main_old_to_new (parse_options (cli_model "model.sample" false))
             (PyStr "model.sample") order_abc order_ca
           = Ok d.
Proof.
  assert (H1 : ¬ (allow_subsetting (cli_model "model.sample" false) = true
                  ∨ Forall (λ x, x ∈ order_ca) order_abc)).
  { intros [Habs | Habs]; [discriminate |]. revert Habs. by_decide. }
  split; [exact H1 |].
  intros Hd. exact (H1 (proj1 (old_to_new_returns_iff _ _ _ _) Hd)).
Defined.

(** [write_output_in_batches] on seven rows. *)
Lemma write_output_in_batches_witness :
  0 < MAX_SNPS_IN_BUFFER
  ∧ ∃ full rest,
      concat full ++ rest = seven_rows
      ∧ Forall (λ b, length b = MAX_SNPS_IN_BUFFER) full
      ∧ length rest < MAX_SNPS_IN_BUFFER
      ∧ write_output_with MAX_SNPS_IN_BUFFER seven_rows EmptyString 3 [2; 0; 1]
        = run_batches 3 [2; 0; 1]
            (full ++ match rest with [] => [] | _ => [rest] end) EmptyString 0.
Proof.
  assert (H1 : 0 < MAX_SNPS_IN_BUFFER) by (unfold MAX_SNPS_IN_BUFFER; lia).
  split; [exact H1 |].
  exact (write_output_in_batches _ 3 [2; 0; 1] seven_rows EmptyString H1).
Defined.

(** [write_lines_gathers] on a batch of two rows of three samples. *)
Lemma write_lines_gathers_witness :
  (two_rows ≠ [] ∧ width_is 14 two_rows ∧ 5 ≤ 14 ∧ n_genotype_cols 14 = 3 * 3
   ∧ Forall (λ i, i < 3) [2; 0; 1])
  ∧ ∃ rows : list (list string),
      _write_lines EmptyString two_rows 3 [2; 0; 1]
      = (EmptyString +:+ rows_text (map (Str.join " ") rows), Ok (length two_rows))
      ∧ Forall2
          (λ row line,
             let columns := map Numpy.np_str (row_tokens line) in
             length row = i_genotypes 14 + 3 * length [2; 0; 1]
             ∧ take (i_genotypes 14) row = take (i_genotypes 14) columns
             ∧ ∀ j i, [2; 0; 1] !! j = Some i →
                      take 3 (drop (i_genotypes 14 + 3 * j) row)
                      = take 3 (drop (i_genotypes 14 + 3 * i) columns))
          rows two_rows.
Proof.
  assert (H1 : two_rows ≠ []) by done.
  assert (H2 : width_is 14 two_rows) by (unfold width_is; by_evaluation).
  assert (H3 : 5 ≤ 14) by lia.
  assert (H4 : n_genotype_cols 14 = 3 * 3) by reflexivity.
  assert (H5 : Forall (λ i, i < 3) [2; 0; 1]) by (repeat constructor).
  split; [exact (conj H1 (conj H2 (conj H3 (conj H4 H5)))) |].
  exact (write_lines_gathers 14 3 [2; 0; 1] EmptyString two_rows H1 H2 H3 H4 H5).
Defined.

(** [missing_sample_out_stops] on a run that names no output sample file. *)
Lemma missing_sample_out_stops_witness :
  sample_out cli_no_sample_out = None
  ∧ (main cli_no_sample_out world_abc).1 = world_abc
  ∧ ∃ e, (main cli_no_sample_out world_abc).2 = Err e.
Proof.
  assert (H1 : sample_out cli_no_sample_out = None) by reflexivity.
  split; [exact H1 |].
  exact (conj (proj1 (missing_sample_out_stops cli_no_sample_out world_abc H1))
              (proj1 (proj2 (missing_sample_out_stops cli_no_sample_out world_abc H1)))).
Defined.

(** [sample_out_over_sample_in] on a run that writes the new sample file
    over the input sample file. *)
Lemma sample_out_over_sample_in_witness :
  (sample_in cli_sample_clash = Some "in.sample"
   ∧ sample_out cli_sample_clash = Some "in.sample"
   ∧ main_orders (parse_options cli_sample_clash) world_abc
     = Ok (order_abc, order_cab, PyStr "model.sample")
   ∧ main_old_to_new (parse_options cli_sample_clash) (PyStr "model.sample")
       order_abc order_cab
     = Ok [(0, 1); (1, 2); (2, 0)]
   ∧ order_cab ≠ [])
  ∧ main cli_sample_clash world_abc
    = (open_write world_abc "in.sample", Err (AttributeError "strip"))
  ∧ files (main cli_sample_clash world_abc).1 !! "in.sample" = Some EmptyString.
Proof.
  assert (H1 : sample_in cli_sample_clash = Some "in.sample") by reflexivity.
  assert (H2 : sample_out cli_sample_clash = Some "in.sample") by reflexivity.
  assert (H3 : main_orders (parse_options cli_sample_clash) world_abc
               = Ok (order_abc, order_cab, PyStr "model.sample"))
    by (vm_compute; reflexivity).
  assert (H4 : main_old_to_new (parse_options cli_sample_clash) (PyStr "model.sample")
                 order_abc order_cab
               = Ok [(0, 1); (1, 2); (2, 0)]) by (vm_compute; reflexivity).
  assert (H5 : order_cab ≠ []) by discriminate.
  split; [exact (conj H1 (conj H2 (conj H3 (conj H4 H5)))) |].
  exact (sample_out_over_sample_in _ _ _ _ _ _ _ H1 H2 H3 H4 H5).
Defined.

(** [gen_out_over_gen_in] on a run that writes the genotype lines over the
    input genotype file. *)
Lemma gen_out_over_gen_in_witness :
  (gen_in cli_gen_clash = Some "data.gen"
   ∧ gen_out cli_gen_clash = Some "data.gen"
   ∧ sample_out cli_gen_clash = Some "out.sample"
   ∧ main_orders (parse_options cli_gen_clash) world_gen
     = Ok (order_abc, order_cab, PyStr "model.sample")
   ∧ main_old_to_new (parse_options cli_gen_clash) (PyStr "model.sample")
       order_abc order_cab
     = Ok [(0, 1); (1, 2); (2, 0)]
   ∧ main_write_sample (parse_options cli_gen_clash) world_gen order_cab
       [(0, 1); (1, 2); (2, 0)]
     = (set_file (open_write world_gen "out.sample") "out.sample"
          (sample_text ["C C 0"; "A A 0"; "B B 0"]), Ok ())
   ∧ main_index_array [(0, 1); (1, 2); (2, 0)] = Ok [2; 0; 1]
   ∧ files (set_file (open_write world_gen "out.sample") "out.sample"
              (sample_text ["C C 0"; "A A 0"; "B B 0"])) !! "data.gen"
     = Some row14)
  ∧ files (main cli_gen_clash world_gen).1 !! "data.gen" = Some EmptyString
  ∧ (main cli_gen_clash world_gen).2
    = Ok (msg_wrote 3 0 "out.sample" "data.gen" +:+ msg_finish).
Proof.
  assert (H1 : gen_in cli_gen_clash = Some "data.gen") by reflexivity.
  assert (H2 : gen_out cli_gen_clash = Some "data.gen") by reflexivity.
  assert (H3 : sample_out cli_gen_clash = Some "out.sample") by reflexivity.
  assert (H4 : main_orders (parse_options cli_gen_clash) world_gen
               = Ok (order_abc, order_cab, PyStr "model.sample"))
    by (vm_compute; reflexivity).
  assert (H5 : main_old_to_new (parse_options cli_gen_clash) (PyStr "model.sample")
                 order_abc order_cab
               = Ok [(0, 1); (1, 2); (2, 0)]) by (vm_compute; reflexivity).
  assert (H6 : main_write_sample (parse_options cli_gen_clash) world_gen order_cab
                 [(0, 1); (1, 2); (2, 0)]
               = (set_file (open_write world_gen "out.sample") "out.sample"
                    (sample_text ["C C 0"; "A A 0"; "B B 0"]), Ok ()))
    by (vm_compute; reflexivity).
  assert (H7 : main_index_array [(0, 1); (1, 2); (2, 0)] = Ok [2; 0; 1])
    by (vm_compute; reflexivity).
  assert (H8 : files (set_file (open_write world_gen "out.sample") "out.sample"
                        (sample_text ["C C 0"; "A A 0"; "B B 0"])) !! "data.gen"
               = Some row14) by (vm_compute; reflexivity).
  split; [exact (conj H1 (conj H2 (conj H3 (conj H4 (conj H5 (conj H6 (conj H7 H8))))))) |].
  pose proof (gen_out_over_gen_in _ _ _ _ _ _ _ _ _ _ _ H1 H2 H3 H4 H5 H6 H7 H8)
    as [Hmain Hfile].
  split; [exact Hfile |]. rewrite Hmain. reflexivity.
Defined.

(** [sample_file_rewritten] on the input A, B, C and the target C, A. *)
Lemma sample_file_rewritten_witness :
  (main_orders (parse_options (cli_model "model.sample" true)) world_subset
     = Ok (order_abc, order_ca, PyStr "model.sample")
   ∧ main_old_to_new (parse_options (cli_model "model.sample" true))
       (PyStr "model.sample") order_abc order_ca
     = Ok [(0, 1); (2, 0)]
   ∧ (∀ x, x ∈ order_ca → x ∈ order_abc)
   ∧ sample_in (cli_model "model.sample" true) = Some "in.sample"
   ∧ files world_subset !! "in.sample"
     = Some (sample_text ["A A 0"; "B B 0"; "C C 0"])
   ∧ sample_out (cli_model "model.sample" true) = Some "out.sample"
   ∧ "out.sample" ≠ "in.sample")
  ∧ ∃ body,
      main_write_sample (parse_options (cli_model "model.sample" true)) world_subset
        order_ca [(0, 1); (2, 0)]
      = (set_file (open_write world_subset "out.sample") "out.sample"
           (lines_text
              (map Str.strip
                 (take 2 (Str.readlines (sample_text ["A A 0"; "B B 0"; "C C 0"]))
                  ++ body))),
         Ok ())
      ∧ map sample_id_of body = order_ca
      ∧ (∀ l, l ∈ body →
              l ∈ drop 2 (Str.readlines (sample_text ["A A 0"; "B B 0"; "C C 0"]))).
Proof.
  assert (H1 : main_orders (parse_options (cli_model "model.sample" true)) world_subset
               = Ok (order_abc, order_ca, PyStr "model.sample"))
    by (vm_compute; reflexivity).
  assert (H2 : main_old_to_new (parse_options (cli_model "model.sample" true))
                 (PyStr "model.sample") order_abc order_ca
               = Ok [(0, 1); (2, 0)]) by (vm_compute; reflexivity).
  assert (H4 : sample_in (cli_model "model.sample" true) = Some "in.sample")
    by reflexivity.
  assert (H5 : files world_subset !! "in.sample"
               = Some (sample_text ["A A 0"; "B B 0"; "C C 0"]))
    by (vm_compute; reflexivity).
  assert (H6 : sample_out (cli_model "model.sample" true) = Some "out.sample")
    by reflexivity.
  assert (H7 : "out.sample" ≠ "in.sample") by discriminate.
  split; [exact (conj H1 (conj H2 (conj order_ca_in_abc (conj H4 (conj H5 (conj H6 H7)))))) |].
  exact (sample_file_rewritten _ _ _ _ _ _ _ _ _ H1 H2 order_ca_in_abc H4 H5 H6 H7).
Defined.

(** [main_reorders] on the input A, B, C, the target C, A and one row on
    the standard input, with subsetting allowed. *)
Lemma main_reorders_witness :
  (main_orders (parse_options (cli_model "model.sample" true)) world_subset
     = Ok (order_abc, order_ca, PyStr "model.sample")
   ∧ (∀ x, x ∈ order_ca → x ∈ order_abc)
   ∧ (allow_subsetting (cli_model "model.sample" true) = true
      ∨ Forall (λ x, x ∈ order_ca) order_abc)
   ∧ sample_in (cli_model "model.sample" true) = Some "in.sample"
   ∧ files world_subset !! "in.sample"
     = Some (sample_text ["A A 0"; "B B 0"; "C C 0"])
   ∧ sample_out (cli_model "model.sample" true) = Some "out.sample"
   ∧ "out.sample" ≠ "in.sample"
   ∧ gen_in (cli_model "model.sample" true) = None
   ∧ gen_out (cli_model "model.sample" true) = None
   ∧ width_is 14 (Str.lines_lf (stdin world_subset))
   ∧ n_genotype_cols 14 = 3 * length order_abc)
  ∧ (main (cli_model "model.sample" true) world_subset).2
    = Ok (msg_wrote 2 1 "out.sample" "STDOUT" +:+ msg_finish).
Proof.
  assert (H10 : width_is 14 (Str.lines_lf (stdin world_subset)))
    by (unfold width_is; by_evaluation).
  assert (H1 : main_orders (parse_options (cli_model "model.sample" true)) world_subset
               = Ok (order_abc, order_ca, PyStr "model.sample"))
    by (vm_compute; reflexivity).
  assert (H3 : allow_subsetting (cli_model "model.sample" true) = true
               ∨ Forall (λ x, x ∈ order_ca) order_abc) by (left; reflexivity).
  assert (H4 : sample_in (cli_model "model.sample" true) = Some "in.sample")
    by reflexivity.
  assert (H5 : files world_subset !! "in.sample"
               = Some (sample_text ["A A 0"; "B B 0"; "C C 0"]))
    by (vm_compute; reflexivity).
  assert (H6 : sample_out (cli_model "model.sample" true) = Some "out.sample")
    by reflexivity.
  assert (H7 : "out.sample" ≠ "in.sample") by discriminate.
  assert (H8 : gen_in (cli_model "model.sample" true) = None) by reflexivity.
  assert (H9 : gen_out (cli_model "model.sample" true) = None) by reflexivity.
  assert (H11 : n_genotype_cols 14 = 3 * length order_abc) by reflexivity.
  split.
  { exact (conj H1 (conj order_ca_in_abc (conj H3 (conj H4 (conj H5 (conj H6
             (conj H7 (conj H8 (conj H9 (conj H10 H11)))))))))). }
  destruct (main_reorders _ _ _ _ _ _ _ _ _ H1 order_ca_in_abc H3 H4 H5 H6 H7 H8 H9 H10 H11)
    as (idx & body & _ & _ & _ & _ & Hmain).
  rewrite Hmain. reflexivity.
Defined.

(** [duplicate_sample_stops] on an input sample file that lists A twice. *)
Lemma duplicate_sample_stops_witness :
  (files world_dup !! "in.sample" = Some (sample_text ["A A 0"; "B B 0"; "A A 1"])
   ∧ ¬ NoDup (drop 2 (map sample_id_of
                         (Str.readlines (sample_text ["A A 0"; "B B 0"; "A A 1"]))))
   ∧ sample_in (cli_model "model.sample" false) = Some "in.sample")
  ∧ main (cli_model "model.sample" false) world_dup
    = (world_dup, print_error_and_stop (msg_duplicates "in.sample")).
Proof.
  assert (H1 : files world_dup !! "in.sample"
               = Some (sample_text ["A A 0"; "B B 0"; "A A 1"]))
    by (vm_compute; reflexivity).
  assert (H2 : ¬ NoDup (drop 2 (map sample_id_of
                  (Str.readlines (sample_text ["A A 0"; "B B 0"; "A A 1"])))))
    by by_decide.
  assert (H3 : sample_in (cli_model "model.sample" false) = Some "in.sample")
    by reflexivity.
  split; [exact (conj H1 (conj H2 H3)) |].
  exact (proj1 (duplicate_sample_stops _ _ _ _ H1 H2) H3).
Defined.

(** [write_output_failures] on a batch whose second row is short. *)
Lemma write_output_failures_witness :
  (Forall (λ i, i < 3) [0; 1; 2]
   ∧ write_output_with MAX_SNPS_IN_BUFFER ragged_rows EmptyString 3 [0; 1; 2]
     = (EmptyString, Err width_error))
  ∧ ∃ pre b post,
      all_batches MAX_SNPS_IN_BUFFER ragged_rows = pre ++ b :: post
      ∧ Forall (accepted 3 [0; 1; 2]) pre
      ∧ ((ragged b ∧ width_error = width_error)
         ∨ (¬ ragged b
            ∧ n_genotype_cols (length (row_tokens (hd EmptyString b))) ≠ 3 * 3
            ∧ width_error = TypeError)).
Proof.
  assert (H1 : Forall (λ i, i < 3) [0; 1; 2]) by (repeat constructor).
  assert (H2 : write_output_with MAX_SNPS_IN_BUFFER ragged_rows EmptyString 3 [0; 1; 2]
               = (EmptyString, Err width_error)) by (vm_compute; reflexivity).
  split; [exact (conj H1 H2) |].
  exact (write_output_failures _ _ _ _ _ _ _ H1 H2).
Defined.
